(** * Cancer-prediction backend: label cascade, encoders, explanation lookup

    A shallow embedding of the Python sources
      - [simple_cancer_predictor.py]  (function [predict_cancer_type]),
      - [cancer_prediction.py]        (class [CancerPredictor]),
      - [doctor_explanation_fallback.py]
                                      (class [FallbackDoctorExplanationGenerator]),
    together with the properties of the synthetic-label cascade, of the
    train/inference encoding and of the template lookup.

    Python [float] is IEEE-754 binary64; it is modelled by the inductive
    [spec_float] of the standard library, comparisons included (so that a
    NaN compares false with everything, as in Python).  numpy's random
    generator and scikit-learn's numerical estimators are external
    libraries: they appear as interfaces (type classes) whose operations
    the embedded code calls in the order the Python code does. *)

From Stdlib Require Import ZArith List String Ascii Bool Lia.
From Stdlib Require Import Floats.SpecFloat.
From stdpp Require Import gmap strings list pretty.

Local Open Scope string_scope.
Local Open Scope list_scope.

(** ** Python floats *)

Module PyFloat.

Definition float := spec_float.

Definition prec : Z := 53.
Definition emax : Z := 1024.

(** [float(z)] for a Python int. *)
Definition of_Z (z : Z) : float := binary_normalize prec emax z 0 false.

Definition fadd (x y : float) : float := SFadd prec emax x y.
Definition fsub (x y : float) : float := SFsub prec emax x y.
Definition fmul (x y : float) : float := SFmul prec emax x y.
Definition fdiv (x y : float) : float := SFdiv prec emax x y.

(** The decimal literal [m]e-[k], e.g. [lit 9 1] for [0.9]: both [m] and
    [10^k] are exact doubles and IEEE division rounds to nearest, which is
    the double a Python literal denotes. *)
Definition lit (m : Z) (k : nat) : float :=
  fdiv (of_Z m) (of_Z (10 ^ Z.of_nat k)).

(** [x > y], [x >= y], [x < y] on floats. *)
Definition gt (x y : float) : bool := SFltb y x.
Definition ge (x y : float) : bool := SFleb y x.
Definition lt (x y : float) : bool := SFltb x y.
Definition le (x y : float) : bool := SFleb x y.

Definition is_nan (x : float) : bool :=
  match x with S754_nan => true | _ => false end.

End PyFloat.

Import PyFloat.

(** ** Python values and exceptions *)

(** The values a patient dictionary holds: the request schema of the API has
    [int], [float] and [str] fields. *)
Inductive PyVal :=
| PInt (z : Z)
| PFloat (x : float)
| PStr (s : string).

Inductive PyError :=
| ValueError (msg : string)
| KeyError (key : string)
| IndexError
| TypeError
| NotFittedError.

Inductive res (A : Type) :=
| Ok (a : A)
| Raise (e : PyError).
Arguments Ok {A} a.
Arguments Raise {A} e.

Definition is_ok {A} (r : res A) : bool :=
  match r with Ok _ => true | Raise _ => false end.

(** sklearn's message for a label that the encoder has not seen. *)
Definition unseen_labels : PyError :=
  ValueError "y contains previously unseen labels".

(** numpy's message for a string in an array that must be numeric. *)
Definition not_a_number : PyError :=
  ValueError "could not convert string to float".

Definition res_bind {A B} (r : res A) (k : A -> res B) : res B :=
  match r with
  | Ok a => k a
  | Raise e => Raise e
  end.

Fixpoint res_mapM {A B} (f : A -> res B) (l : list A) : res (list B) :=
  match l with
  | [] => Ok []
  | x :: l' =>
      res_bind (f x) (fun y => res_bind (res_mapM f l') (fun ys => Ok (y :: ys)))
  end.

(** ** numpy's global random generator *)

(** The legacy generator behind [np.random.*]: a state, the reseeding
    operation and the scalar draws.  [rk_below k] is a uniform index below
    [k] (the draw behind [choice] and [randint]); an array of [n] values is
    [n] consecutive scalar draws. *)
Class NumpyRandom := {
  rng_state : Type;
  rk_seed : Z -> rng_state;
  rk_gauss : rng_state -> float * rng_state;
  rk_below : nat -> rng_state -> nat * rng_state;
  rk_poisson : float -> rng_state -> Z * rng_state;
  rk_below_lt : forall k s, (0 < k)%nat -> (fst (rk_below k s) < k)%nat
}.

Fixpoint draw_n {S A} (draw : S -> A * S) (n : nat) (s : S) : list A * S :=
  match n with
  | O => ([], s)
  | Datatypes.S n' =>
      let '(x, s1) := draw s in
      let '(xs, s2) := draw_n draw n' s1 in
      (x :: xs, s2)
  end.

(** ** scikit-learn estimators *)

(** The fitted state of an estimator, as recorded in the call history. *)
Inductive Fitted :=
| FittedLabels (classes : list string)
| FittedScaler (mean scale : list float).

(** The three estimator objects [predict_cancer_type] creates. *)
Inductive Estimator := LeGender | LeSmoking | Scaler.

Inductive Event :=
| EvFit (o : Estimator) (st : Fitted)
| EvTransform (o : Estimator) (st : Fitted).

Definition Estimator_eqb (a b : Estimator) : bool :=
  match a, b with
  | LeGender, LeGender | LeSmoking, LeSmoking | Scaler, Scaler => true
  | _, _ => false
  end.

Definition is_fit_of (o : Estimator) (ev : Event) : bool :=
  match ev with
  | EvFit o' _ => Estimator_eqb o' o
  | EvTransform _ _ => false
  end.

(** How many times estimator [o] was fitted in the history [h]. *)
Definition count_fits (o : Estimator) (h : list Event) : nat :=
  length (List.filter (is_fit_of o) h).

(** Every transform in the history applies a state that an earlier fit of
    the same estimator produced. *)
Definition transforms_use_fit (h : list Event) : Prop :=
  forall h1 o st h2,
    h = h1 ++ EvTransform o st :: h2 -> In (EvFit o st) h1.

(** Whether a categorical value occurs in a column of the training table. *)
Definition observed (col : list string) (v : PyVal) : bool :=
  match v with
  | PStr c => existsb (String.eqb c) col
  | _ => false
  end.

(** The numerical parts of scikit-learn that the code calls: the shuffled
    stratified split, the column statistics behind [StandardScaler.fit]
    ([mean_] and [scale_]), the random forest and the accuracy metric. *)
Class Sklearn := {
  train_test_split :
    list (list float) -> list string -> forall (test_size : float)
      (random_state : Z) (stratify : list string),
      res (list (list float) * list (list float) * list string * list string);
  column_stats : list (list float) -> list float * list float;
  forest : Type;
  forest_fit : forall (n_estimators max_depth : nat) (random_state n_jobs : Z),
      list (list float) -> list string -> forest;
  forest_proba : forest -> list float -> list float;
  accuracy_score : list string -> list string -> float
}.

(** ** The monad of the embedded code *)

(** A computation reads and updates the state of numpy's global generator,
    may raise, and emits the estimator calls it makes (a trace that the
    code itself cannot read back). *)
Definition M `{NumpyRandom} (A : Type) : Type :=
  rng_state -> res A * rng_state * list Event.

Definition ret `{NumpyRandom} {A} (a : A) : M A := fun s => (Ok a, s, []).

Definition raise `{NumpyRandom} {A} (e : PyError) : M A :=
  fun s => (Raise e, s, []).

Definition bind `{NumpyRandom} {A B} (m : M A) (k : A -> M B) : M B :=
  fun s =>
    match m s with
    | (Ok a, s1, ev1) =>
        let '(r, s2, ev2) := k a s1 in (r, s2, ev1 ++ ev2)
    | (Raise e, s1, ev1) => (Raise e, s1, ev1)
    end.

Definition lift `{NumpyRandom} {A} (r : res A) : M A := fun s => (r, s, []).

Definition log `{NumpyRandom} (ev : Event) : M unit := fun s => (Ok tt, s, [ev]).

Declare Scope py_scope.
Delimit Scope py_scope with py.
Notation "'let*' x ':=' e 'in' k" := (bind e (fun x => k))
  (at level 10, x pattern, e at level 100, k at level 200) : py_scope.
Local Open Scope py_scope.

Definition result_of `{NumpyRandom} {A} (out : res A * rng_state * list Event) : res A :=
  fst (fst out).
Definition state_of `{NumpyRandom} {A} (out : res A * rng_state * list Event) : rng_state :=
  snd (fst out).
Definition trace_of `{NumpyRandom} {A} (out : res A * rng_state * list Event) : list Event :=
  snd out.

Section NumpyCalls.
Context `{NumpyRandom}.

(** [np.random.seed(z)] *)
Definition np_random_seed (z : Z) : M unit := fun _ => (Ok tt, rk_seed z, []).

Definition with_rng {A} (f : rng_state -> A * rng_state) : M A :=
  fun s => let '(a, s') := f s in (Ok a, s', []).

(** [np.random.normal(loc, scale, n)] *)
Definition np_random_normal (loc scale : float) (n : nat) : M (list float) :=
  with_rng (draw_n (fun s => let '(g, s') := rk_gauss s in
                             (fadd loc (fmul scale g), s')) n).

(** [np.random.choice(a, n)]: [n] uniform indices into [a]. *)
Definition np_random_choice {A} (a : list A) (n : nat) : M (list A) :=
  let* idx := with_rng (draw_n (rk_below (length a)) n) in
  lift (res_mapM (fun i => match a !! i with
                           | Some x => Ok x
                           | None => Raise IndexError
                           end) idx).

(** [np.random.randint(low, high, n)]: integers in [[low, high)]. *)
Definition np_random_randint (low high : Z) (n : nat) : M (list Z) :=
  let* idx := with_rng (draw_n (rk_below (Z.to_nat (high - low))) n) in
  ret (map (fun i => (low + Z.of_nat i)%Z) idx).

(** [np.random.poisson(lam, n)] *)
Definition np_random_poisson (lam : float) (n : nat) : M (list Z) :=
  with_rng (draw_n (rk_poisson lam) n).

End NumpyCalls.

(** [np.unique] on strings: the distinct values in increasing order. *)
Fixpoint insert_sorted (s : string) (l : list string) : list string :=
  match l with
  | [] => [s]
  | x :: l' =>
      match String.compare s x with
      | Lt => s :: l
      | Eq => l
      | Gt => x :: insert_sorted s l'
      end
  end.

Definition np_unique (y : list string) : list string :=
  fold_right insert_sorted [] y.

(** [Series.unique()]: the distinct values in order of first appearance. *)
Definition pd_unique (y : list string) : list string :=
  fold_left (fun seen v => if existsb (String.eqb v) seen then seen else seen ++ [v])
            y [].

Fixpoint index_of (s : string) (l : list string) : option nat :=
  match l with
  | [] => None
  | x :: l' => if String.eqb s x then Some O
               else option_map Datatypes.S (index_of s l')
  end.

(** The built-in [max] of a sequence of floats: the first item is kept until
    a strictly greater one is met. *)
Definition py_max (xs : list float) : res float :=
  match xs with
  | [] => Raise (ValueError "max() arg is an empty sequence")
  | x :: rest => Ok (fold_left (fun m y => if gt y m then y else m) rest x)
  end.

(** [np.argmax] of one row: the first position of the greatest entry. *)
Fixpoint argmax_from (best : float) (besti i : nat) (xs : list float) : nat :=
  match xs with
  | [] => besti
  | y :: rest =>
      if gt y best then argmax_from y i (Datatypes.S i) rest
      else argmax_from best besti (Datatypes.S i) rest
  end.

Definition np_argmax (xs : list float) : res nat :=
  match xs with
  | [] => Raise (ValueError "attempt to get argmax of an empty sequence")
  | x :: rest => Ok (argmax_from x 0 1 rest)
  end.

(** [np.array(values)] for a list that must end up numeric. *)
Definition to_float (v : PyVal) : res float :=
  match v with
  | PInt z => Ok (of_Z z)
  | PFloat x => Ok x
  | PStr _ => Raise not_a_number
  end.

Section SklearnCalls.
Context `{NumpyRandom} `{Sklearn}.

(** *** LabelEncoder *)

Record LabelEncoder := { classes_ : option (list string) }.

Definition LabelEncoder_new : LabelEncoder := {| classes_ := None |}.

(** The code of one value: its position among the fitted classes. *)
Definition encode_value (classes : list string) (v : PyVal) : res Z :=
  match v with
  | PStr s =>
      match index_of s classes with
      | Some i => Ok (Z.of_nat i)
      | None => Raise unseen_labels
      end
  | _ => Raise unseen_labels
  end.

(** [le.fit_transform(y)]: fits the classes and returns the codes of [y]
    (the inverse indices of [np.unique]). *)
Definition LabelEncoder_fit_transform (o : Estimator) (y : list string)
  : M (LabelEncoder * list Z) :=
  let classes := np_unique y in
  let* _ := log (EvFit o (FittedLabels classes)) in
  ret ({| classes_ := Some classes |},
       map (fun v => Z.of_nat (default O (index_of v classes))) y).

(** [le.transform(y)] *)
Definition LabelEncoder_transform (o : Estimator) (le : LabelEncoder)
           (y : list PyVal) : M (list Z) :=
  match classes_ le with
  | None => raise NotFittedError
  | Some classes =>
      let* _ := log (EvTransform o (FittedLabels classes)) in
      lift (res_mapM (encode_value classes) y)
  end.

(** *** StandardScaler *)

Record StandardScaler := { fitted_stats : option (list float * list float) }.

Definition StandardScaler_new : StandardScaler := {| fitted_stats := None |}.

Fixpoint scale_row (mean scale row : list float) : res (list float) :=
  match mean, scale, row with
  | [], [], [] => Ok []
  | m :: mean', s :: scale', x :: row' =>
      res_bind (scale_row mean' scale' row')
               (fun r => Ok (fdiv (fsub x m) s :: r))
  | _, _, _ => Raise (ValueError "X has a different number of features")
  end.

(** [scaler.transform(X)] *)
Definition StandardScaler_transform (o : Estimator) (sc : StandardScaler)
           (X : list (list float)) : M (list (list float)) :=
  match fitted_stats sc with
  | None => raise NotFittedError
  | Some (mean, scale) =>
      let* _ := log (EvTransform o (FittedScaler mean scale)) in
      lift (res_mapM (scale_row mean scale) X)
  end.

(** [scaler.fit_transform(X)], that is [scaler.fit(X).transform(X)]. *)
Definition StandardScaler_fit_transform (o : Estimator) (X : list (list float))
  : M (StandardScaler * list (list float)) :=
  let '(mean, scale) := column_stats X in
  let sc := {| fitted_stats := Some (mean, scale) |} in
  let* _ := log (EvFit o (FittedScaler mean scale)) in
  let* Xs := StandardScaler_transform o sc X in
  ret (sc, Xs).

(** *** RandomForestClassifier *)

Record RandomForestClassifier := {
  rf_classes_ : list string;
  rf_forest : forest
}.

(** [RandomForestClassifier(...).fit(X, y)]: [classes_] is [np.unique(y)]. *)
Definition RandomForestClassifier_fit (n_estimators max_depth : nat)
           (random_state n_jobs : Z) (X : list (list float)) (y : list string)
  : RandomForestClassifier :=
  {| rf_classes_ := np_unique y;
     rf_forest := forest_fit n_estimators max_depth random_state n_jobs X y |}.

Definition predict_proba (rf : RandomForestClassifier) (X : list (list float))
  : list (list float) :=
  map (forest_proba (rf_forest rf)) X.

(** [rf.predict(X)]: the class at the argmax of each row of probabilities. *)
Definition predict (rf : RandomForestClassifier) (X : list (list float))
  : res (list string) :=
  res_mapM (fun p =>
              res_bind (np_argmax p) (fun i =>
              match rf_classes_ rf !! i with
              | Some c => Ok c
              | None => Raise IndexError
              end))
           (predict_proba rf X).

End SklearnCalls.

(** ** Python dictionaries that keep insertion order *)

(** [d[k] = v]: an existing key keeps its place, a new key goes last. *)
Fixpoint dict_set {V} (k : string) (v : V) (d : list (string * V)) : list (string * V) :=
  match d with
  | [] => [(k, v)]
  | (k', v') :: d' =>
      if String.eqb k k' then (k, v) :: d' else (k', v') :: dict_set k v d'
  end.

Fixpoint dict_get {V} (k : string) (d : list (string * V)) : option V :=
  match d with
  | [] => None
  | (k', v') :: d' => if String.eqb k k' then Some v' else dict_get k d'
  end.

(** [dict(zip(keys, values))] *)
Definition dict_zip {V} (keys : list string) (values : list V) : list (string * V) :=
  fold_left (fun d kv => dict_set (fst kv) (snd kv) d) (combine keys values) [].

(** [sorted(items, key=lambda x: x[1], reverse=True)]: a stable sort by
    decreasing value. *)
Fixpoint insert_desc (kv : string * float) (l : list (string * float))
  : list (string * float) :=
  match l with
  | [] => [kv]
  | kv' :: l' =>
      if gt (snd kv') (snd kv) then kv' :: insert_desc kv l' else kv :: l
  end.

Definition sorted_desc (items : list (string * float)) : list (string * float) :=
  fold_right insert_desc [] items.

(** ** Rule cascades *)

(** An ordered list of (condition, label) rules read as the glossary reads
    a label cascade: the label of the first rule whose condition holds, and
    the catch-all label when none does. *)
Definition first_match {R} (rules : list ((R -> bool) * string))
           (catch_all : string) (r : R) : string :=
  match find (fun rule => fst rule r) rules with
  | Some rule => snd rule
  | None => catch_all
  end.

(** * simple_cancer_predictor.py *)

Module Simple.

(** One row of the synthetic table (the 17 generated columns). *)
Record Row := {
  age : float;
  gender : string;
  bmi : float;
  smoking_status : string;
  family_history : Z;
  blood_pressure : float;
  cholesterol : float;
  glucose : float;
  white_blood_cells : float;
  platelet_count : float;
  hemoglobin : float;
  symptom_count : Z;
  fatigue_level : Z;
  pain_level : Z;
  weight_loss : Z;
  night_sweats : Z;
  appetite_loss : Z
}.

(** The [data] dictionary of arrays from which the frame is built. *)
Record Columns := {
  c_age : list float;
  c_gender : list string;
  c_bmi : list float;
  c_smoking_status : list string;
  c_family_history : list Z;
  c_blood_pressure : list float;
  c_cholesterol : list float;
  c_glucose : list float;
  c_white_blood_cells : list float;
  c_platelet_count : list float;
  c_hemoglobin : list float;
  c_symptom_count : list Z;
  c_fatigue_level : list Z;
  c_pain_level : list Z;
  c_weight_loss : list Z;
  c_night_sweats : list Z;
  c_appetite_loss : list Z
}.

(** The generated frame: its rows and the [cancer_type] column. *)
Record DataFrame := {
  df_rows : list Row;
  df_cancer_type : list string
}.

Definition cancer_types : list string :=
  ["Breast"; "Lung"; "Colon"; "Prostate"; "Melanoma"; "Leukemia"; "Ovarian";
   "Pancreatic"].

(** Row [i] of the columns, when every column has an entry there. *)
Definition row_at (d : Columns) (i : nat) : option Row :=
  a ← c_age d !! i; g ← c_gender d !! i; b ← c_bmi d !! i;
  s ← c_smoking_status d !! i; fh ← c_family_history d !! i;
  bp ← c_blood_pressure d !! i; ch ← c_cholesterol d !! i;
  gl ← c_glucose d !! i; wb ← c_white_blood_cells d !! i;
  pc ← c_platelet_count d !! i; hg ← c_hemoglobin d !! i;
  sc ← c_symptom_count d !! i; fl ← c_fatigue_level d !! i;
  pl ← c_pain_level d !! i; wl ← c_weight_loss d !! i;
  ns ← c_night_sweats d !! i; al ← c_appetite_loss d !! i;
  Some {| age := a; gender := g; bmi := b; smoking_status := s;
          family_history := fh; blood_pressure := bp; cholesterol := ch;
          glucose := gl; white_blood_cells := wb; platelet_count := pc;
          hemoglobin := hg; symptom_count := sc; fatigue_level := fl;
          pain_level := pl; weight_loss := wl; night_sweats := ns;
          appetite_loss := al |}.

(** [pd.DataFrame(data)]: one row per index of the first column; arrays
    of different lengths are rejected. *)
Definition pd_DataFrame (d : Columns) : res (list Row) :=
  res_mapM (fun i => match row_at d i with
                     | Some r => Ok r
                     | None => Raise (ValueError "All arrays must be of the same length")
                     end)
           (seq 0 (length (c_age d))).

(** The body of the labelling loop for one row: the if/elif cascade of
    lines 67-82. *)
Definition assign_label (r : Row) : string :=
  if String.eqb (gender r) "Female" && gt (age r) (of_Z 50) then "Breast"
  else if existsb (String.eqb (smoking_status r)) ["Current"; "Former"]
          && gt (age r) (of_Z 60) then "Lung"
  else if gt (age r) (of_Z 70) && (family_history r =? 1)%Z then "Colon"
  else if String.eqb (gender r) "Male" && gt (age r) (of_Z 60) then "Prostate"
  else if (4 <? symptom_count r)%Z && (3 <? fatigue_level r)%Z then "Leukemia"
  else if String.eqb (gender r) "Female" && gt (age r) (of_Z 45) then "Ovarian"
  else if (weight_loss r =? 1)%Z && (appetite_loss r =? 1)%Z then "Pancreatic"
  else "Melanoma".

(** The seven conditions of the cascade, in the order of the source, each
    with its label; ["Melanoma"] is the catch-all. *)
Definition cascade_rules : list ((Row -> bool) * string) :=
  [ (fun r => String.eqb (gender r) "Female" && gt (age r) (of_Z 50), "Breast");
    (fun r => existsb (String.eqb (smoking_status r)) ["Current"; "Former"]
              && gt (age r) (of_Z 60), "Lung");
    (fun r => gt (age r) (of_Z 70) && (family_history r =? 1)%Z, "Colon");
    (fun r => String.eqb (gender r) "Male" && gt (age r) (of_Z 60), "Prostate");
    (fun r => (4 <? symptom_count r)%Z && (3 <? fatigue_level r)%Z, "Leukemia");
    (fun r => String.eqb (gender r) "Female" && gt (age r) (of_Z 45), "Ovarian");
    (fun r => (weight_loss r =? 1)%Z && (appetite_loss r =? 1)%Z, "Pancreatic") ].

(** [for i in range(n_samples): ... cancer_labels.append(...)] *)
Definition label_loop (df : list Row) (n_samples : nat) : res (list string) :=
  fold_left
    (fun acc i =>
       res_bind acc (fun cancer_labels =>
       match df !! i with
       | Some r => Ok (cancer_labels ++ [assign_label r])
       | None => Raise (KeyError "loc")
       end))
    (seq 0 n_samples) (Ok []).

(** [df['cancer_type'] = cancer_labels] *)
Definition set_cancer_type (df : list Row) (cancer_labels : list string)
  : res DataFrame :=
  if (length cancer_labels =? length df)%nat
  then Ok {| df_rows := df; df_cancer_type := cancer_labels |}
  else Raise (ValueError "Length of values does not match length of index").

Section WithLibraries.
Context `{NumpyRandom} `{Sklearn}.

(** [generate_dummy_data(n_samples)], lines 34-85. *)
Definition generate_dummy_data (n_samples : nat) : M DataFrame :=
  let* _ := np_random_seed 42 in
  let* a := np_random_normal (of_Z 65) (of_Z 15) n_samples in
  let* g := np_random_choice ["Male"; "Female"] n_samples in
  let* b := np_random_normal (of_Z 25) (of_Z 5) n_samples in
  let* s := np_random_choice ["Never"; "Former"; "Current"] n_samples in
  let* fh := np_random_choice [0; 1]%Z n_samples in
  let* bp := np_random_normal (of_Z 120) (of_Z 20) n_samples in
  let* ch := np_random_normal (of_Z 200) (of_Z 40) n_samples in
  let* gl := np_random_normal (of_Z 100) (of_Z 20) n_samples in
  let* wb := np_random_normal (of_Z 7) (of_Z 2) n_samples in
  let* pc := np_random_normal (of_Z 250) (of_Z 50) n_samples in
  let* hg := np_random_normal (of_Z 14) (of_Z 2) n_samples in
  let* sc := np_random_poisson (of_Z 3) n_samples in
  let* fl := np_random_randint 1 6 n_samples in
  let* pl := np_random_randint 1 6 n_samples in
  let* wl := np_random_choice [0; 1]%Z n_samples in
  let* ns := np_random_choice [0; 1]%Z n_samples in
  let* al := np_random_choice [0; 1]%Z n_samples in
  let data :=
    {| c_age := a; c_gender := g; c_bmi := b; c_smoking_status := s;
       c_family_history := fh; c_blood_pressure := bp; c_cholesterol := ch;
       c_glucose := gl; c_white_blood_cells := wb; c_platelet_count := pc;
       c_hemoglobin := hg; c_symptom_count := sc; c_fatigue_level := fl;
       c_pain_level := pl; c_weight_loss := wl; c_night_sweats := ns;
       c_appetite_loss := al |} in
  let* df := lift (pd_DataFrame data) in
  let* cancer_labels := lift (label_loop df n_samples) in
  lift (set_cancer_type df cancer_labels).


(** Lines 92-95. *)
Definition feature_columns : list string :=
  ["age"; "bmi"; "family_history"; "blood_pressure"; "cholesterol";
   "glucose"; "white_blood_cells"; "platelet_count"; "hemoglobin";
   "symptom_count"; "fatigue_level"; "pain_level"; "weight_loss";
   "night_sweats"; "appetite_loss"].

(** The entry of a row under a column name, as the float the feature
    matrix holds. *)
Definition column (r : Row) (col : string) : res float :=
  if String.eqb col "age" then Ok (age r)
  else if String.eqb col "bmi" then Ok (bmi r)
  else if String.eqb col "family_history" then Ok (of_Z (family_history r))
  else if String.eqb col "blood_pressure" then Ok (blood_pressure r)
  else if String.eqb col "cholesterol" then Ok (cholesterol r)
  else if String.eqb col "glucose" then Ok (glucose r)
  else if String.eqb col "white_blood_cells" then Ok (white_blood_cells r)
  else if String.eqb col "platelet_count" then Ok (platelet_count r)
  else if String.eqb col "hemoglobin" then Ok (hemoglobin r)
  else if String.eqb col "symptom_count" then Ok (of_Z (symptom_count r))
  else if String.eqb col "fatigue_level" then Ok (of_Z (fatigue_level r))
  else if String.eqb col "pain_level" then Ok (of_Z (pain_level r))
  else if String.eqb col "weight_loss" then Ok (of_Z (weight_loss r))
  else if String.eqb col "night_sweats" then Ok (of_Z (night_sweats r))
  else if String.eqb col "appetite_loss" then Ok (of_Z (appetite_loss r))
  else Raise (KeyError col).

(** [df[cols]] *)
Definition select_columns (cols : list string) (df : list Row)
  : res (list (list float)) :=
  res_mapM (fun r => res_mapM (column r) cols) df.

(** [X[name] = codes]: a new last column. *)
Fixpoint add_column (X : list (list float)) (codes : list Z)
  : res (list (list float)) :=
  match X, codes with
  | [], [] => Ok []
  | row :: X', c :: codes' =>
      res_bind (add_column X' codes') (fun X'' => Ok ((row ++ [of_Z c]) :: X''))
  | _, _ => Raise (ValueError "Length of values does not match length of index")
  end.

(** [xs[0]] *)
Definition first {A} (xs : list A) : res A :=
  match xs with
  | x :: _ => Ok x
  | [] => Raise IndexError
  end.

(** What the training half of [predict_cancer_type] leaves in scope. *)
Record Trained := {
  le_gender : LabelEncoder;
  le_smoking : LabelEncoder;
  scaler : StandardScaler;
  rf_model : RandomForestClassifier;
  accuracy : float
}.

(** Lines 87-131: generate the table, fit the two label encoders, split,
    fit the scaler on the training part, fit and evaluate the forest. *)
Definition train : M Trained :=
  let* df := generate_dummy_data 1000 in
  let* X := lift (select_columns feature_columns (df_rows df)) in
  let y := df_cancer_type df in
  let* (le_gender, gender_encoded) :=
    LabelEncoder_fit_transform LeGender (map gender (df_rows df)) in
  let* X := lift (add_column X gender_encoded) in
  let* (le_smoking, smoking_encoded) :=
    LabelEncoder_fit_transform LeSmoking (map smoking_status (df_rows df)) in
  let* X := lift (add_column X smoking_encoded) in
  let* (X_train, X_test, y_train, y_test) :=
    lift (train_test_split X y (lit 2 1) 42 y) in
  let* (scaler, X_train_scaled) := StandardScaler_fit_transform Scaler X_train in
  let* X_test_scaled := StandardScaler_transform Scaler scaler X_test in
  let rf_model := RandomForestClassifier_fit 100 10 42 (-1) X_train_scaled y_train in
  let* y_pred := lift (predict rf_model X_test_scaled) in
  let accuracy := accuracy_score y_test y_pred in
  ret {| le_gender := le_gender; le_smoking := le_smoking; scaler := scaler;
         rf_model := rf_model; accuracy := accuracy |}.

(** Lines 142-148. *)
Definition defaults : gmap string PyVal :=
  list_to_map
    [("age", PInt 65); ("bmi", PInt 25); ("family_history", PInt 0);
     ("blood_pressure", PInt 120); ("cholesterol", PInt 200);
     ("glucose", PInt 100); ("white_blood_cells", PInt 7);
     ("platelet_count", PInt 250); ("hemoglobin", PInt 14);
     ("symptom_count", PInt 3); ("fatigue_level", PInt 3);
     ("pain_level", PInt 3); ("weight_loss", PInt 0);
     ("night_sweats", PInt 0); ("appetite_loss", PInt 0)].

(** Lines 137-149: the numeric features, by column, with the default
    for a column the patient does not give. *)
Definition numeric_features (patient_data : gmap string PyVal) : list PyVal :=
  map (fun col =>
         match patient_data !! col with
         | Some v => v
         | None => default (PInt 0) (defaults !! col)
         end)
      feature_columns.

(** Lines 152-160, for one categorical column. *)
Definition categorical_feature (o : Estimator) (le : LabelEncoder)
           (key : string) (patient_data : gmap string PyVal) : M PyVal :=
  match patient_data !! key with
  | Some v =>
      let* codes := LabelEncoder_transform o le [v] in
      let* c := lift (first codes) in
      ret (PInt c)
  | None => ret (PInt 0)
  end.

(** Lines 134-166: the patient's feature row, encoded and scaled with
    the objects fitted by [train]. *)
Definition encode_patient (t : Trained) (patient_data : gmap string PyVal)
  : M (list (list float)) :=
  let patient_features := numeric_features patient_data in
  let* g := categorical_feature LeGender (le_gender t) "gender" patient_data in
  let patient_features := patient_features ++ [g] in
  let* s := categorical_feature LeSmoking (le_smoking t) "smoking_status"
                                patient_data in
  let patient_features := patient_features ++ [s] in
  let* patient_features := lift (res_mapM to_float patient_features) in
  StandardScaler_transform Scaler (scaler t) [patient_features].

Record PredictionResult := {
  predicted_cancer_type : string;
  confidence_score : float;
  all_probabilities : list (string * float);
  top_3_predictions : list (string * float);
  model_accuracy : float
}.

(** Lines 168-188. *)
Definition conclude (t : Trained) (patient_scaled : list (list float))
  : M PredictionResult :=
  let* predicted := lift (predict (rf_model t) patient_scaled) in
  let* predicted_cancer := lift (first predicted) in
  let* probabilities := lift (first (predict_proba (rf_model t) patient_scaled)) in
  let* confidence := lift (py_max probabilities) in
  let cancer_types := rf_classes_ (rf_model t) in
  let cancer_probabilities := dict_zip cancer_types probabilities in
  let sorted_probabilities := sorted_desc cancer_probabilities in
  ret {| predicted_cancer_type := predicted_cancer;
         confidence_score := confidence;
         all_probabilities := cancer_probabilities;
         top_3_predictions := firstn 3 sorted_probabilities;
         model_accuracy := accuracy t |}.

(** [predict_cancer_type(patient_data)] *)
Definition predict_cancer_type (patient_data : gmap string PyVal)
  : M PredictionResult :=
  let* t := train in
  let* patient_scaled := encode_patient t patient_data in
  conclude t patient_scaled.

(** The rows of the table that a call made in state [s] trains on. *)
Definition training_table (s : rng_state) : list Row :=
  match result_of (generate_dummy_data 1000 s) with
  | Ok df => df_rows df
  | Raise _ => []
  end.

(** The events of the encoding of one patient, given what was fitted. *)
Definition inference_events (cg cs : list string) (mean scale : list float)
           (patient_data : gmap string PyVal) : list Event :=
  match patient_data !! "gender" with
  | Some _ => [EvTransform LeGender (FittedLabels cg)]
  | None => []
  end
  ++ match patient_data !! "smoking_status" with
     | Some _ => [EvTransform LeSmoking (FittedLabels cs)]
     | None => []
     end
  ++ [EvTransform Scaler (FittedScaler mean scale)].

(** The events of a training run, given what was fitted. *)
Definition training_events (cg cs : list string) (mean scale : list float)
  : list Event :=
  [EvFit LeGender (FittedLabels cg); EvFit LeSmoking (FittedLabels cs);
   EvFit Scaler (FittedScaler mean scale);
   EvTransform Scaler (FittedScaler mean scale);
   EvTransform Scaler (FittedScaler mean scale)].

End WithLibraries.

End Simple.

(** * cancer_prediction.py *)

Module CancerPrediction.

(** One row of the synthetic table of [CancerPredictor] (20 columns). *)
Record Row := {
  age : float;
  gender : string;
  bmi : float;
  smoking_history : string;
  family_history : Z;
  ca125 : float;
  psa : float;
  cea : float;
  afp : float;
  hcg : float;
  ldh : float;
  platelet_count : float;
  white_blood_cells : float;
  red_blood_cells : float;
  hemoglobin : float;
  creatinine : float;
  glucose : float;
  cholesterol : float;
  blood_pressure_systolic : float;
  blood_pressure_diastolic : float
}.

Record Columns := {
  c_age : list float;
  c_gender : list string;
  c_bmi : list float;
  c_smoking_history : list string;
  c_family_history : list Z;
  c_ca125 : list float;
  c_psa : list float;
  c_cea : list float;
  c_afp : list float;
  c_hcg : list float;
  c_ldh : list float;
  c_platelet_count : list float;
  c_white_blood_cells : list float;
  c_red_blood_cells : list float;
  c_hemoglobin : list float;
  c_creatinine : list float;
  c_glucose : list float;
  c_cholesterol : list float;
  c_blood_pressure_systolic : list float;
  c_blood_pressure_diastolic : list float
}.

Record DataFrame := {
  df_rows : list Row;
  df_cancer_type : list string
}.

(** Line 32. *)
Definition cancer_types_declared : list string :=
  ["Breast"; "Lung"; "Colon"; "Prostate"; "Melanoma"; "Leukemia"].

Definition row_at (d : Columns) (i : nat) : option Row :=
  a ← c_age d !! i; g ← c_gender d !! i; b ← c_bmi d !! i;
  s ← c_smoking_history d !! i; fh ← c_family_history d !! i;
  c1 ← c_ca125 d !! i; c2 ← c_psa d !! i; c3 ← c_cea d !! i;
  c4 ← c_afp d !! i; c5 ← c_hcg d !! i; c6 ← c_ldh d !! i;
  pc ← c_platelet_count d !! i; wb ← c_white_blood_cells d !! i;
  rb ← c_red_blood_cells d !! i; hg ← c_hemoglobin d !! i;
  cr ← c_creatinine d !! i; gl ← c_glucose d !! i; ch ← c_cholesterol d !! i;
  bs ← c_blood_pressure_systolic d !! i; bd ← c_blood_pressure_diastolic d !! i;
  Some {| age := a; gender := g; bmi := b; smoking_history := s;
          family_history := fh; ca125 := c1; psa := c2; cea := c3; afp := c4;
          hcg := c5; ldh := c6; platelet_count := pc; white_blood_cells := wb;
          red_blood_cells := rb; hemoglobin := hg; creatinine := cr;
          glucose := gl; cholesterol := ch; blood_pressure_systolic := bs;
          blood_pressure_diastolic := bd |}.

Definition pd_DataFrame (d : Columns) : res (list Row) :=
  res_mapM (fun i => match row_at d i with
                     | Some r => Ok r
                     | None => Raise (ValueError "All arrays must be of the same length")
                     end)
           (seq 0 (length (c_age d))).

(** The if/elif cascade of lines 64-75. *)
Definition assign_label (r : Row) : string :=
  if String.eqb (gender r) "Female" && gt (ca125 r) (of_Z 25) then "Breast"
  else if existsb (String.eqb (smoking_history r)) ["Current"; "Former"]
          && gt (age r) (of_Z 60) then "Lung"
  else if gt (age r) (of_Z 70) && gt (cea r) (of_Z 4) then "Colon"
  else if String.eqb (gender r) "Male" && gt (psa r) (of_Z 6) then "Prostate"
  else if gt (afp r) (of_Z 15) then "Melanoma"
  else "Leukemia".

Definition label_loop (df : list Row) (n_samples : nat) : res (list string) :=
  fold_left
    (fun acc i =>
       res_bind acc (fun cancer_labels =>
       match df !! i with
       | Some r => Ok (cancer_labels ++ [assign_label r])
       | None => Raise (KeyError "loc")
       end))
    (seq 0 n_samples) (Ok []).

(** The five conditions of the cascade, in the order of the source, each
    with its label; ["Leukemia"] is the catch-all. *)
Definition cascade_rules : list ((Row -> bool) * string) :=
  [ (fun r => String.eqb (gender r) "Female" && gt (ca125 r) (of_Z 25), "Breast");
    (fun r => existsb (String.eqb (smoking_history r)) ["Current"; "Former"]
              && gt (age r) (of_Z 60), "Lung");
    (fun r => gt (age r) (of_Z 70) && gt (cea r) (of_Z 4), "Colon");
    (fun r => String.eqb (gender r) "Male" && gt (psa r) (of_Z 6), "Prostate");
    (fun r => gt (afp r) (of_Z 15), "Melanoma") ].

Definition set_cancer_type (df : list Row) (cancer_labels : list string)
  : res DataFrame :=
  if (length cancer_labels =? length df)%nat
  then Ok {| df_rows := df; df_cancer_type := cancer_labels |}
  else Raise (ValueError "Length of values does not match length of index").

(** The columns of the frame once [cancer_type] is dropped, in order. *)
Definition frame_columns : list string :=
  ["age"; "gender"; "bmi"; "smoking_history"; "family_history"; "ca125";
   "psa"; "cea"; "afp"; "hcg"; "ldh"; "platelet_count"; "white_blood_cells";
   "red_blood_cells"; "hemoglobin"; "creatinine"; "glucose"; "cholesterol";
   "blood_pressure_systolic"; "blood_pressure_diastolic"].

Section WithLibraries.
Context `{NumpyRandom} `{Sklearn}.

(** [generate_synthetic_cancer_data(n_samples)], lines 24-78. *)
Definition generate_synthetic_cancer_data (n_samples : nat) : M DataFrame :=
  let* _ := np_random_seed 42 in
  let* a := np_random_normal (of_Z 65) (of_Z 15) n_samples in
  let* g := np_random_choice ["Male"; "Female"] n_samples in
  let* b := np_random_normal (of_Z 25) (of_Z 5) n_samples in
  let* s := np_random_choice ["Never"; "Former"; "Current"] n_samples in
  let* fh := np_random_choice [0; 1]%Z n_samples in
  let* c1 := np_random_normal (of_Z 20) (of_Z 10) n_samples in
  let* c2 := np_random_normal (of_Z 4) (of_Z 2) n_samples in
  let* c3 := np_random_normal (of_Z 3) (lit 15 1) n_samples in
  let* c4 := np_random_normal (of_Z 10) (of_Z 5) n_samples in
  let* c5 := np_random_normal (of_Z 5) (of_Z 2) n_samples in
  let* c6 := np_random_normal (of_Z 150) (of_Z 50) n_samples in
  let* pc := np_random_normal (of_Z 250) (of_Z 50) n_samples in
  let* wb := np_random_normal (of_Z 7) (of_Z 2) n_samples in
  let* rb := np_random_normal (lit 45 1) (lit 5 1) n_samples in
  let* hg := np_random_normal (of_Z 14) (of_Z 2) n_samples in
  let* cr := np_random_normal (of_Z 1) (lit 3 1) n_samples in
  let* gl := np_random_normal (of_Z 100) (of_Z 20) n_samples in
  let* ch := np_random_normal (of_Z 200) (of_Z 40) n_samples in
  let* bs := np_random_normal (of_Z 120) (of_Z 20) n_samples in
  let* bd := np_random_normal (of_Z 80) (of_Z 10) n_samples in
  let data :=
    {| c_age := a; c_gender := g; c_bmi := b; c_smoking_history := s;
       c_family_history := fh; c_ca125 := c1; c_psa := c2; c_cea := c3;
       c_afp := c4; c_hcg := c5; c_ldh := c6; c_platelet_count := pc;
       c_white_blood_cells := wb; c_red_blood_cells := rb;
       c_hemoglobin := hg; c_creatinine := cr; c_glucose := gl;
       c_cholesterol := ch; c_blood_pressure_systolic := bs;
       c_blood_pressure_diastolic := bd |} in
  let* df := lift (pd_DataFrame data) in
  let* cancer_labels := lift (label_loop df n_samples) in
  lift (set_cancer_type df cancer_labels).

(** The attributes of a [CancerPredictor] instance. *)
Record CancerPredictor := {
  model : option RandomForestClassifier;
  scaler : StandardScaler;
  label_encoders : gmap string LabelEncoder;
  feature_names : option (list string);
  cancer_types : option (list string)
}.

(** [__init__] *)
Definition CancerPredictor_new : CancerPredictor :=
  {| model := None; scaler := StandardScaler_new; label_encoders := ∅;
     feature_names := None; cancer_types := None |}.

(** The feature matrix row of a generated row, the two categorical
    columns replaced by their codes (lines 93-98). *)
Definition feature_row (gender_code smoking_code : Z) (r : Row) : list float :=
  [age r; of_Z gender_code; bmi r; of_Z smoking_code;
   of_Z (family_history r); ca125 r; psa r; cea r; afp r; hcg r; ldh r;
   platelet_count r; white_blood_cells r; red_blood_cells r; hemoglobin r;
   creatinine r; glucose r; cholesterol r; blood_pressure_systolic r;
   blood_pressure_diastolic r].

Fixpoint feature_matrix (rows : list Row) (gender_codes smoking_codes : list Z)
  : res (list (list float)) :=
  match rows, gender_codes, smoking_codes with
  | [], [], [] => Ok []
  | r :: rows', g :: gs, s :: ss =>
      res_bind (feature_matrix rows' gs ss)
               (fun X => Ok (feature_row g s r :: X))
  | _, _, _ => Raise (ValueError "Length of values does not match length of index")
  end.

(** [preprocess_data(self, df)], lines 80-109. *)
Definition preprocess_data (self : CancerPredictor) (df : DataFrame)
  : M (CancerPredictor *
       (list (list float) * list (list float) * list string * list string)) :=
  let y := df_cancer_type df in
  let feature_names := frame_columns in
  let cancer_types := pd_unique y in
  let* (le_g, gender_codes) :=
    LabelEncoder_fit_transform LeGender (map gender (df_rows df)) in
  let label_encoders := <["gender" := le_g]> (∅ : gmap string LabelEncoder) in
  let* (le_s, smoking_codes) :=
    LabelEncoder_fit_transform LeSmoking (map smoking_history (df_rows df)) in
  let label_encoders := <["smoking_history" := le_s]> label_encoders in
  let* X := lift (feature_matrix (df_rows df) gender_codes smoking_codes) in
  let* (X_train, X_test, y_train, y_test) :=
    lift (train_test_split X y (lit 2 1) 42 y) in
  let* (scaler, X_train_scaled) := StandardScaler_fit_transform Scaler X_train in
  let* X_test_scaled := StandardScaler_transform Scaler scaler X_test in
  ret ({| model := model self; scaler := scaler;
          label_encoders := label_encoders;
          feature_names := Some feature_names;
          cancer_types := Some cancer_types |},
       (X_train_scaled, X_test_scaled, y_train, y_test)).

(** [train_model(self, X_train, y_train)], lines 111-121. *)
Definition train_model (self : CancerPredictor) (X_train : list (list float))
           (y_train : list string) : CancerPredictor :=
  {| model := Some (RandomForestClassifier_fit 100 10 42 (-1) X_train y_train);
     scaler := scaler self; label_encoders := label_encoders self;
     feature_names := feature_names self; cancer_types := cancer_types self |}.

Definition model_not_trained : PyError :=
  ValueError "Model not trained. Please train the model first.".

Definition categorical_cols : list string := ["gender"; "smoking_history"].

Definition estimator_of (col : string) : Estimator :=
  if String.eqb col "gender" then LeGender else LeSmoking.

(** Lines 157-160: each categorical column the patient gives is
    replaced by its code. *)
Fixpoint encode_categoricals (self : CancerPredictor) (cols : list string)
         (df_patient : gmap string PyVal) : M (gmap string PyVal) :=
  match cols with
  | [] => ret df_patient
  | col :: cols' =>
      match df_patient !! col with
      | Some v =>
          match label_encoders self !! col with
          | Some le =>
              let* codes := LabelEncoder_transform (estimator_of col) le [v] in
              match codes with
              | c :: _ =>
                  encode_categoricals self cols' (<[col := PInt c]> df_patient)
              | [] => raise IndexError
              end
          | None => raise (KeyError col)
          end
      | None => encode_categoricals self cols' df_patient
      end
  end.

(** Lines 162-169: a feature the patient does not give becomes [0], and
    the columns are put in training order. *)
Definition complete_row (feature_names : list string)
           (df_patient : gmap string PyVal) : list PyVal :=
  map (fun feature => default (PInt 0) (df_patient !! feature)) feature_names.

Record Prediction := {
  predicted_cancer_type : string;
  confidence : float;
  all_probabilities : list (string * float);
  top_predictions : list (string * float)
}.

Definition first {A} (xs : list A) : res A :=
  match xs with
  | x :: _ => Ok x
  | [] => Raise IndexError
  end.

(** [predict_cancer(self, patient_data)], lines 140-189. *)
Definition predict_cancer (self : CancerPredictor)
           (patient_data : gmap string PyVal) : M Prediction :=
  match model self with
  | None => raise model_not_trained
  | Some rf =>
      let* df_patient := encode_categoricals self categorical_cols patient_data in
      let* names := lift (match feature_names self with
                          | Some names => Ok names
                          | None => Raise TypeError
                          end) in
      let df_patient := complete_row names df_patient in
      let* row := lift (res_mapM to_float df_patient) in
      let* patient_scaled := StandardScaler_transform Scaler (scaler self) [row] in
      let* predicted := lift (predict rf patient_scaled) in
      let* predicted_cancer := lift (first predicted) in
      let* probabilities := lift (first (predict_proba rf patient_scaled)) in
      let* types := lift (match cancer_types self with
                          | Some types => Ok types
                          | None => Raise TypeError
                          end) in
      let prob_dict := dict_zip types probabilities in
      let sorted_probs := sorted_desc prob_dict in
      let* conf := lift (match dict_get predicted_cancer prob_dict with
                         | Some p => Ok p
                         | None => Raise (KeyError predicted_cancer)
                         end) in
      ret {| predicted_cancer_type := predicted_cancer;
             confidence := conf;
             all_probabilities := prob_dict;
             top_predictions := firstn 3 sorted_probs |}
  end.

(** [predict_cancer_type_and_probability(patient_data)] with no model
    path: a new predictor is trained on 1000 generated rows and asked
    (lines 229-260; writing the model file is left out). *)
Definition predict_cancer_type_and_probability
           (patient_data : gmap string PyVal) : M Prediction :=
  let predictor := CancerPredictor_new in
  let* df := generate_synthetic_cancer_data 1000 in
  let* (predictor, (X_train, X_test, y_train, y_test)) :=
    preprocess_data predictor df in
  let predictor := train_model predictor X_train y_train in
  let* _ := lift (match model predictor with
                  | Some rf => predict rf X_test
                  | None => Raise model_not_trained
                  end) in
  predict_cancer predictor patient_data.

End WithLibraries.

End CancerPrediction.

(** * doctor_explanation_fallback.py *)

(** ** The string methods the templates use (on ASCII text) *)

Definition is_lower (c : ascii) : bool :=
  (97 <=? nat_of_ascii c)%nat && (nat_of_ascii c <=? 122)%nat.

Definition is_upper (c : ascii) : bool :=
  (65 <=? nat_of_ascii c)%nat && (nat_of_ascii c <=? 90)%nat.

Definition to_lower (c : ascii) : ascii :=
  if is_upper c then ascii_of_nat (nat_of_ascii c + 32) else c.

Definition to_upper (c : ascii) : ascii :=
  if is_lower c then ascii_of_nat (nat_of_ascii c - 32) else c.

(** [s.lower()] *)
Fixpoint str_lower (s : string) : string :=
  match s with
  | EmptyString => EmptyString
  | String c s' => String (to_lower c) (str_lower s')
  end.

(** [s.title()]: a letter that follows a letter is lowered, a letter that
    follows anything else is raised. *)
Fixpoint title_from (previous_is_cased : bool) (s : string) : string :=
  match s with
  | EmptyString => EmptyString
  | String c s' =>
      if is_lower c || is_upper c
      then String (if previous_is_cased then to_lower c else to_upper c)
                  (title_from true s')
      else String c (title_from false s')
  end.

Definition str_title (s : string) : string := title_from false s.

(** [sep.join(parts)] *)
Definition str_join (sep : string) (parts : list string) : string :=
  String.concat sep parts.

Module Fallback.

(** One entry of [self.cancer_info]. *)
Record CancerInfo := {
  description : string;
  risk_factors : list string;
  symptoms : list string;
  tests : list string;
  specialists : list string
}.

Definition lung_info : CancerInfo :=
  {| description := "Lung cancer is a type of cancer that begins in the lungs and can spread to other parts of the body.";
     risk_factors := ["smoking"; "age over 65"; "family history"; "exposure to radon or asbestos"];
     symptoms := ["persistent cough"; "chest pain"; "shortness of breath"; "weight loss"; "fatigue"];
     tests := ["chest X-ray"; "CT scan"; "biopsy"; "PET scan"];
     specialists := ["pulmonologist"; "oncologist"] |}.

Definition breast_info : CancerInfo :=
  {| description := "Breast cancer occurs when cells in breast tissue grow uncontrollably.";
     risk_factors := ["age"; "family history"; "genetic mutations (BRCA1/BRCA2)"; "hormone exposure"];
     symptoms := ["breast lump"; "breast pain"; "skin changes"; "nipple discharge"];
     tests := ["mammography"; "breast ultrasound"; "biopsy"; "MRI"];
     specialists := ["breast surgeon"; "oncologist"] |}.

Definition colorectal_info : CancerInfo :=
  {| description := "Colorectal cancer begins in the colon or rectum and is often preventable with screening.";
     risk_factors := ["age over 50"; "family history"; "inflammatory bowel disease"; "diet high in red meat"];
     symptoms := ["changes in bowel habits"; "blood in stool"; "abdominal pain"; "weight loss"];
     tests := ["colonoscopy"; "CT scan"; "blood tests (CEA)"; "biopsy"];
     specialists := ["gastroenterologist"; "colorectal surgeon"; "oncologist"] |}.

Definition prostate_info : CancerInfo :=
  {| description := "Prostate cancer develops in the prostate gland and is common in older men.";
     risk_factors := ["age over 65"; "family history"; "race (higher in African Americans)"; "diet"];
     symptoms := ["difficulty urinating"; "blood in urine"; "pelvic pain"; "erectile dysfunction"];
     tests := ["PSA blood test"; "digital rectal exam"; "biopsy"; "MRI"];
     specialists := ["urologist"; "oncologist"] |}.

Definition pancreatic_info : CancerInfo :=
  {| description := "Pancreatic cancer is a serious form of cancer that develops in the pancreas.";
     risk_factors := ["smoking"; "diabetes"; "family history"; "chronic pancreatitis"];
     symptoms := ["abdominal pain"; "weight loss"; "jaundice"; "new-onset diabetes"];
     tests := ["CT scan"; "MRI"; "endoscopic ultrasound"; "biopsy"];
     specialists := ["gastroenterologist"; "oncologist"; "pancreatic surgeon"] |}.

Definition melanoma_info : CancerInfo :=
  {| description := "Melanoma is the most serious type of skin cancer that develops in melanocytes.";
     risk_factors := ["UV exposure"; "fair skin"; "family history"; "multiple moles"];
     symptoms := ["changing moles"; "new skin growths"; "asymmetrical spots"; "irregular borders"];
     tests := ["skin biopsy"; "dermoscopy"; "sentinel lymph node biopsy"; "imaging studies"];
     specialists := ["dermatologist"; "oncologist"] |}.

(** The items of [self.cancer_info], lines 12-55. *)
Definition cancer_info_items : list (string * CancerInfo) :=
  [("Lung", lung_info); ("Breast", breast_info); ("Colorectal", colorectal_info);
   ("Prostate", prostate_info); ("Pancreatic", pancreatic_info);
   ("Melanoma", melanoma_info)].

Definition cancer_info : gmap string CancerInfo := list_to_map cancer_info_items.

(** What the generator returns. *)
Record Explanation := {
  explanation : string;
  recommendations : string;
  next_steps : string;
  confidence_interpretation : string;
  full_response : string
}.

(** [v > n] for a dictionary value and an int literal. *)
Definition py_gt (v : PyVal) (n : Z) : res bool :=
  match v with
  | PInt z => Ok (n <? z)%Z
  | PFloat x => Ok (gt x (of_Z n))
  | PStr _ => Raise TypeError
  end.

(** The truth value of [d.get(key)]. *)
Definition py_truthy (v : option PyVal) : bool :=
  match v with
  | None => false
  | Some (PInt z) => negb (z =? 0)%Z
  | Some (PFloat x) => match x with S754_zero _ => false | _ => true end
  | Some (PStr s) => negb (String.eqb s "")
  end.

Definition is_str (v : option PyVal) (s : string) : bool :=
  match v with
  | Some (PStr s') => String.eqb s' s
  | _ => false
  end.

(** Lines 229-238. *)
Definition _get_confidence_text (confidence : float) : string :=
  if ge confidence (lit 8 1)
  then "This represents a high-confidence prediction with multiple risk factors present."
  else if ge confidence (lit 6 1)
  then "This represents a moderate-confidence prediction with several indicators present."
  else if ge confidence (lit 4 1)
  then "This represents a low-to-moderate confidence prediction with some risk factors identified."
  else "This represents a low-confidence prediction with minimal risk factors present.".

(** Lines 240-251. *)
Definition _interpret_confidence (confidence : float) : string :=
  if ge confidence (lit 9 1)
  then "Very high confidence - multiple strong indicators present"
  else if ge confidence (lit 7 1)
  then "High confidence - several risk factors align"
  else if ge confidence (lit 5 1)
  then "Moderate confidence - some indicators present"
  else if ge confidence (lit 3 1)
  then "Low confidence - limited indicators"
  else "Very low confidence - minimal risk factors".

(** [lines] with [line] appended when [cond] holds. *)
Definition append_if (cond : bool) (line : string) (lines : list string) : list string :=
  if cond then lines ++ [line] else lines.

(** Lines 175-196. *)
Definition _identify_risk_factors (age : Z) (gender : string)
           (medical_data : option (gmap string PyVal)) (info : CancerInfo)
  : res string :=
  let risk_factors :=
    if (65 <? age)%Z then ["- Advanced age (increased risk)"]
    else if (50 <? age)%Z then ["- Age over 50 (moderate risk factor)"]
    else [] in
  res_bind
    (match medical_data with
     | Some md =>
         if bool_decide (md ≠ ∅) then
           let risk_factors :=
             if is_str (md !! "smoking_status") "Current"
             then risk_factors ++ ["- Current smoking (significant risk factor)"]
             else if is_str (md !! "smoking_status") "Former"
             then risk_factors ++ ["- Former smoking history (elevated risk)"]
             else risk_factors in
           let risk_factors :=
             append_if (py_truthy (md !! "family_history"))
                       "- Family history of cancer (genetic predisposition)"
                       risk_factors in
           res_bind (py_gt (default (PInt 0) (md !! "bmi")) 30) (fun obese =>
           Ok (append_if obese "- Obesity (BMI > 30, increased risk)" risk_factors))
         else Ok risk_factors
     | None => Ok risk_factors
     end)
    (fun risk_factors =>
       Ok (match risk_factors with
           | [] => "- No major risk factors identified"
           | _ => str_join "
" risk_factors
           end)).

Section WithFormatting.

(** Python's number formatting is taken as given: [format(x, '.1%')] for
    a float and [str(x)] for a float. *)
Variable format_percent1 : float -> string.
Variable str_float : float -> string.

(** [str(v)] as an f-string inserts it. *)
Definition py_str (v : PyVal) : string :=
  match v with
  | PInt z => pretty z
  | PFloat x => str_float x
  | PStr s => s
  end.

(** Lines 198-227. *)
Definition _analyze_symptoms (symptoms : gmap string PyVal) : res string :=
  let symptom_analysis : list string := [] in
  let fatigue := default (PInt 1) (symptoms !! "fatigue_level") in
  res_bind (py_gt fatigue 3) (fun f3 =>
  res_bind (if f3 then Ok false else py_gt fatigue 2) (fun f2 =>
  let symptom_analysis :=
    if f3 then symptom_analysis ++
      ["- Significant fatigue (level " +:+ py_str fatigue +:+ "/5) - concerning symptom"]
    else if f2 then symptom_analysis ++
      ["- Moderate fatigue (level " +:+ py_str fatigue +:+ "/5) - worth monitoring"]
    else symptom_analysis in
  let pain := default (PInt 1) (symptoms !! "pain_level") in
  res_bind (py_gt pain 3) (fun p3 =>
  res_bind (if p3 then Ok false else py_gt pain 2) (fun p2 =>
  let symptom_analysis :=
    if p3 then symptom_analysis ++
      ["- Significant pain (level " +:+ py_str pain +:+ "/5) - requires evaluation"]
    else if p2 then symptom_analysis ++
      ["- Moderate pain (level " +:+ py_str pain +:+ "/5) - should be assessed"]
    else symptom_analysis in
  let symptom_analysis :=
    append_if (py_truthy (symptoms !! "weight_loss"))
              "- Unexplained weight loss - important warning sign" symptom_analysis in
  let symptom_analysis :=
    append_if (py_truthy (symptoms !! "night_sweats"))
              "- Night sweats - can indicate systemic illness" symptom_analysis in
  let symptom_analysis :=
    append_if (py_truthy (symptoms !! "appetite_loss"))
              "- Loss of appetite - concerning symptom" symptom_analysis in
  let symptom_count := default (PInt 0) (symptoms !! "symptom_count") in
  res_bind (py_gt symptom_count 3) (fun many =>
  let symptom_analysis :=
    append_if many
      ("- Multiple symptoms present (" +:+ py_str symptom_count +:+
       ") - comprehensive evaluation needed") symptom_analysis in
  Ok (match symptom_analysis with
      | [] => "- Minimal symptoms reported - good prognostic sign"
      | _ => str_join "
" symptom_analysis
      end)))))).

(** Lines 95-118. *)
Definition _generate_explanation (patient_name : string) (age : Z)
           (gender cancer_type : string) (confidence : float)
           (symptoms : gmap string PyVal)
           (medical_data : option (gmap string PyVal)) (info : CancerInfo)
  : res string :=
  let confidence_text := _get_confidence_text confidence in
  res_bind (_identify_risk_factors age gender medical_data info) (fun risk_factors =>
  res_bind (_analyze_symptoms symptoms) (fun symptom_analysis =>
  Ok ("Dear " +:+ patient_name +:+ ",

Based on our AI analysis of your medical information, there is a " +:+
      format_percent1 confidence +:+
      " likelihood that you may be at risk for " +:+ str_lower cancer_type +:+
      " cancer. " +:+ confidence_text +:+ "

" +:+ description info +:+ "

Your risk assessment is based on several factors:
- Age: " +:+ pretty age +:+ " years old
- Gender: " +:+ gender +:+ "
" +:+ risk_factors +:+ "

Symptom Analysis:
" +:+ symptom_analysis +:+ "

It's important to understand that this is a preliminary AI assessment and not a definitive diagnosis. Many conditions can present with similar symptoms, and further medical evaluation is essential for accurate diagnosis."))).

(** Lines 120-148. *)
Definition _generate_recommendations (cancer_type : string)
           (symptoms : gmap string PyVal)
           (medical_data : option (gmap string PyVal)) (info : CancerInfo)
  : string :=
  let recommendations := "Based on your risk profile, I recommend the following:

IMMEDIATE MEDICAL EVALUATION:
• Schedule an appointment with your primary care physician within 1-2 weeks
• Discuss your symptoms and risk factors in detail
• Request appropriate screening tests

RECOMMENDED TESTS:
" in
  let recommendations :=
    fold_left (fun acc test => acc +:+ "• " +:+ str_title test +:+ "
") (tests info) recommendations in
  recommendations +:+ "
LIFESTYLE MODIFICATIONS:
• Maintain a healthy diet rich in fruits and vegetables
• Exercise regularly as tolerated
• Avoid tobacco and limit alcohol consumption
• Follow up on any chronic medical conditions

MONITORING:
• Keep a symptom diary noting any changes
• Report any new or worsening symptoms immediately
• Follow recommended screening schedules for your age group".

(** Lines 150-173. *)
Definition _generate_next_steps (cancer_type : string) (info : CancerInfo)
  : string :=
  let specialists := str_join ", " (specialists info) in
  "IMMEDIATE ACTIONS (Within 1-2 weeks):
1. Contact your primary care physician to discuss these findings
2. Schedule a comprehensive physical examination
3. Bring a list of all current symptoms and medications

FOLLOW-UP CARE (Within 2-4 weeks):
1. Complete recommended diagnostic tests
2. Consider consultation with specialists: " +:+ specialists +:+ "
3. Discuss family history and genetic counseling if appropriate

ONGOING MONITORING:
1. Attend all scheduled appointments
2. Follow through with recommended treatments or surveillance
3. Maintain open communication with your healthcare team
4. Seek immediate medical attention for any concerning new symptoms

Remember: Early detection and treatment significantly improve outcomes for most types of cancer. This AI assessment is a tool to help guide your healthcare decisions, but professional medical evaluation is essential.".

(** [self.cancer_info[key]] *)
Definition cancer_info_item (key : string) : res CancerInfo :=
  match cancer_info !! key with
  | Some info => Ok info
  | None => Raise (KeyError key)
  end.

(** [generate_doctor_explanation], lines 57-93. *)
Definition generate_doctor_explanation (patient_name : string) (age : Z)
           (gender predicted_cancer_type : string) (confidence_score : float)
           (symptoms : gmap string PyVal)
           (medical_data : option (gmap string PyVal)) : res Explanation :=
  res_bind (cancer_info_item "Lung") (fun fallback =>
  let info := default fallback (cancer_info !! predicted_cancer_type) in
  res_bind (_generate_explanation patient_name age gender predicted_cancer_type
                                  confidence_score symptoms medical_data info)
           (fun explanation =>
  let recommendations :=
    _generate_recommendations predicted_cancer_type symptoms medical_data info in
  let next_steps := _generate_next_steps predicted_cancer_type info in
  Ok {| explanation := explanation;
        recommendations := recommendations;
        next_steps := next_steps;
        confidence_interpretation := _interpret_confidence confidence_score;
        full_response := explanation +:+ "

RECOMMENDATIONS:
" +:+ recommendations +:+ "

NEXT STEPS:
" +:+ next_steps |})).

End WithFormatting.

End Fallback.

(** * api_server.py *)

Module ApiServer.

(** The request schema, lines 33-51. *)
Record PatientData := {
  name : string;
  age : Z;
  gender : string;
  bmi : float;
  smoking_status : string;
  family_history : Z;
  blood_pressure : Z;
  cholesterol : Z;
  glucose : Z;
  white_blood_cells : float;
  platelet_count : Z;
  hemoglobin : float;
  symptom_count : Z;
  fatigue_level : Z;
  pain_level : Z;
  weight_loss : Z;
  night_sweats : Z;
  appetite_loss : Z
}.

(** The items of [patient_dict] in [/predict], lines 96-114. *)
Definition predict_items (patient_data : PatientData) : list (string * PyVal) :=
  [("age", PInt (age patient_data));
   ("gender", PStr (gender patient_data));
   ("bmi", PFloat (bmi patient_data));
   ("smoking_status", PStr (smoking_status patient_data));
   ("family_history", PInt (family_history patient_data));
   ("blood_pressure", PInt (blood_pressure patient_data));
   ("cholesterol", PInt (cholesterol patient_data));
   ("glucose", PInt (glucose patient_data));
   ("white_blood_cells", PFloat (white_blood_cells patient_data));
   ("platelet_count", PInt (platelet_count patient_data));
   ("hemoglobin", PFloat (hemoglobin patient_data));
   ("symptom_count", PInt (symptom_count patient_data));
   ("fatigue_level", PInt (fatigue_level patient_data));
   ("pain_level", PInt (pain_level patient_data));
   ("weight_loss", PInt (weight_loss patient_data));
   ("night_sweats", PInt (night_sweats patient_data));
   ("appetite_loss", PInt (appetite_loss patient_data))].


(** [patient_dict] in [/explain], lines 167-186: the same items, then the
    name. *)
Definition explain_patient_dict (patient_data : PatientData) : gmap string PyVal :=
  list_to_map (predict_items patient_data ++ [("name", PStr (name patient_data))]).

End ApiServer.

(** * [generate_fallback_explanation] of doctor_explanation_fallback.py *)

Module FallbackCall.

(** [patient_data.get(key, default)] *)
Definition get (d : gmap string PyVal) (key : string) (dflt : PyVal) : PyVal :=
  default dflt (d !! key).

(** Lines 265-272. *)
Definition symptoms (patient_data : gmap string PyVal) : gmap string PyVal :=
  list_to_map
    [("fatigue_level", get patient_data "fatigue_level" (PInt 1));
     ("pain_level", get patient_data "pain_level" (PInt 1));
     ("weight_loss", get patient_data "weight_loss" (PInt 0));
     ("night_sweats", get patient_data "night_sweats" (PInt 0));
     ("appetite_loss", get patient_data "appetite_loss" (PInt 0));
     ("symptom_count", get patient_data "symptom_count" (PInt 0))].

(** Lines 275-282. *)
Definition medical_data (patient_data : gmap string PyVal) : gmap string PyVal :=
  list_to_map
    [("bmi", get patient_data "bmi" (PInt 0));
     ("smoking_status", get patient_data "smoking_status" (PStr EmptyString));
     ("family_history", get patient_data "family_history" (PInt 0));
     ("blood_pressure", get patient_data "blood_pressure" (PInt 0));
     ("cholesterol", get patient_data "cholesterol" (PInt 0));
     ("glucose", get patient_data "glucose" (PInt 0))].

Section WithFormatting.
Variable format_percent1 : float -> string.
Variable str_float : float -> string.

(** Lines 284-292, as line 206 of api_server.py makes the call: on the
    dictionary of a request, in which the keys 'name', 'age' and 'gender'
    hold the request's fields of these names, and on a result of
    [predict_cancer_type]. *)
Definition generate_fallback_explanation (request : ApiServer.PatientData)
           (prediction_result : Simple.PredictionResult)
  : res Fallback.Explanation :=
  let patient_data := ApiServer.explain_patient_dict request in
  Fallback.generate_doctor_explanation
    format_percent1 str_float
    (ApiServer.name request) (ApiServer.age request) (ApiServer.gender request)
    (Simple.predicted_cancer_type prediction_result)
    (Simple.confidence_score prediction_result)
    (symptoms patient_data) (Some (medical_data patient_data)).

End WithFormatting.

End FallbackCall.

(** * cancer_prediction.py: the model file *)

Module ModelFile.

Section WithLibraries.
Context `{NumpyRandom} `{Sklearn}.
Import CancerPrediction.

(** The dictionary [model_data] that [save_model] pickles and [load_model]
    reads, lines 195-201 and 210-214: one entry per key. *)
Record ModelData := {
  md_model : option RandomForestClassifier;
  md_scaler : StandardScaler;
  md_label_encoders : gmap string LabelEncoder;
  md_feature_names : option (list string);
  md_cancer_types : option (list string)
}.

(** The files [joblib] writes and reads: a pickled dictionary per path. *)
Definition Files : Type := gmap string ModelData.

(** [save_model(self, filepath)], lines 191-203. *)
Definition save_model (self : CancerPredictor) (filepath : string) (files : Files)
  : Files :=
  let model_data :=
    {| md_model := model self;
       md_scaler := scaler self;
       md_label_encoders := label_encoders self;
       md_feature_names := feature_names self;
       md_cancer_types := cancer_types self |} in
  <[filepath := model_data]> files.

(** [load_model(self, filepath)], lines 205-215: [None] stands for the
    [FileNotFoundError] of [joblib.load]. *)
Definition load_model (self : CancerPredictor) (filepath : string) (files : Files)
  : option CancerPredictor :=
  match files !! filepath with
  | None => None
  | Some model_data =>
      Some {| model := md_model model_data;
              scaler := md_scaler model_data;
              label_encoders := md_label_encoders model_data;
              feature_names := md_feature_names model_data;
              cancer_types := md_cancer_types model_data |}
  end.

(** The default of [filepath] in [save_model] and [load_model]. *)
Definition default_filepath : string := "cancer_model.pkl".

(** Lines 241-251: generate, preprocess, train and evaluate. *)
Definition train_new_model (predictor : CancerPredictor) : M CancerPredictor :=
  let* df := generate_synthetic_cancer_data 1000 in
  let* (predictor, (X_train, X_test, y_train, y_test)) :=
    preprocess_data predictor df in
  let predictor := train_model predictor X_train y_train in
  let* _ := lift (match model predictor with
                  | Some rf => predict rf X_test
                  | None => Raise model_not_trained
                  end) in
  ret predictor.

(** The truth value of [model_path]. *)
Definition given (model_path : option string) : option string :=
  match model_path with
  | Some EmptyString => None
  | _ => model_path
  end.

(** [predict_cancer_type_and_probability(patient_data, model_path)], lines
    218-260, with the files it reads and writes: the outcome of the call and
    the files it leaves. *)
Definition predict_cancer_type_and_probability
           (patient_data : gmap string PyVal) (model_path : option string)
           (files : Files) (s : rng_state)
  : (res Prediction * rng_state * list Event) * Files :=
  let predictor := CancerPredictor_new in
  let loaded :=
    match given model_path with
    | Some path => load_model predictor path files
    | None => None
    end in
  match loaded with
  | Some predictor => (predict_cancer predictor patient_data s, files)
  | None =>
      match train_new_model predictor s with
      | (Ok predictor, s1, ev1) =>
          let files := save_model predictor default_filepath files in
          let '(r, s2, ev2) := predict_cancer predictor patient_data s1 in
          ((r, s2, ev1 ++ ev2), files)
      | (Raise e, s1, ev1) => ((Raise e, s1, ev1), files)
      end
  end.

End WithLibraries.

End ModelFile.

(** * Small instances of the two library interfaces

    They stand in for numpy's Mersenne twister and for scikit-learn's
    numerics when the embedding is run on concrete inputs. *)

Module Toy.

(** A linear congruential generator. *)
Definition lcg_next (s : Z) : Z := ((1103515245 * s + 12345) mod 2147483648)%Z.

Definition lcg_bits (s : Z) : Z := (s / 65536)%Z.

Definition lcg_gauss (s : Z) : float * Z :=
  let s' := lcg_next s in
  (of_Z (lcg_bits s' mod 5 - 2), s').

Definition lcg_below (k : nat) (s : Z) : nat * Z :=
  let s' := lcg_next s in
  (Z.to_nat (lcg_bits s' mod Z.of_nat k), s').

Definition lcg_poisson (lam : float) (s : Z) : Z * Z :=
  let s' := lcg_next s in
  ((lcg_bits s' mod 7)%Z, s').

Lemma lcg_below_lt (k : nat) (s : Z) : (0 < k)%nat -> (fst (lcg_below k s) < k)%nat.
Proof.
  intros Hk. unfold lcg_below; simpl.
  pose proof (Z.mod_pos_bound (lcg_bits (lcg_next s)) (Z.of_nat k)) as Hb.
  lia.
Qed.

Definition lcg_random : NumpyRandom :=
  {| rng_state := Z;
     rk_seed := fun z => z;
     rk_gauss := lcg_gauss;
     rk_below := lcg_below;
     rk_poisson := lcg_poisson;
     rk_below_lt := lcg_below_lt |}.

(** An unshuffled 80/20 split. *)
Definition split {A} (l : list A) : list A * list A :=
  let n_train := (length l - length l / 5)%nat in
  (firstn n_train l, skipn n_train l).

Definition toy_train_test_split (X : list (list float)) (y : list string)
           (test_size : float) (random_state : Z) (stratify : list string)
  : res (list (list float) * list (list float) * list string * list string) :=
  if (length X <? 5)%nat
  then Raise (ValueError "The test_size should be at least one sample")
  else Ok (fst (split X), snd (split X), fst (split y), snd (split y)).

Definition fsum (xs : list float) : float := fold_left fadd xs (of_Z 0).

Definition fmean (xs : list float) : float :=
  fdiv (fsum xs) (of_Z (Z.of_nat (length xs))).

(** The population standard deviation, a zero one replaced by [1.0]. *)
Definition fstd (xs : list float) : float :=
  let m := fmean xs in
  let sd := SFsqrt prec emax (fmean (map (fun x => fmul (fsub x m) (fsub x m)) xs)) in
  match sd with
  | S754_zero _ => of_Z 1
  | _ => sd
  end.

(** Column [j] of a matrix. *)
Definition matrix_column (X : list (list float)) (j : nat) : list float :=
  omap (fun row => row !! j) X.

Definition toy_column_stats (X : list (list float)) : list float * list float :=
  let width := match X with row :: _ => length row | [] => O end in
  (map (fun j => fmean (matrix_column X j)) (seq 0 width),
   map (fun j => fstd (matrix_column X j)) (seq 0 width)).

Definition count_eq (c : string) (y : list string) : nat :=
  length (List.filter (fun v => String.eqb v c) y).

(** A forest that has learnt the class frequencies only. *)
Definition toy_forest_fit (n_estimators max_depth : nat) (random_state n_jobs : Z)
           (X : list (list float)) (y : list string) : list float :=
  map (fun c => fdiv (of_Z (Z.of_nat (count_eq c y))) (of_Z (Z.of_nat (length y))))
      (np_unique y).

Definition toy_accuracy_score (y_true y_pred : list string) : float :=
  fdiv (of_Z (Z.of_nat (length (List.filter (fun p => String.eqb (fst p) (snd p))
                                       (combine y_true y_pred)))))
       (of_Z (Z.of_nat (length y_true))).

Definition toy_sklearn : Sklearn :=
  {| train_test_split := toy_train_test_split;
     column_stats := toy_column_stats;
     forest := list float;
     forest_fit := toy_forest_fit;
     forest_proba := fun f _ => f;
     accuracy_score := toy_accuracy_score |}.

End Toy.

(** * Facts *)

(** ** The order on floats *)

Module PyFloatFacts.

Lemma pos_cc_Lt_trans (a b c : positive) :
  Pos.compare_cont Eq a b = Lt -> Pos.compare_cont Eq b c = Lt ->
  Pos.compare_cont Eq a c = Lt.
Proof.
  change (Pos.compare_cont Eq) with Pos.compare.
  rewrite !Pos.compare_lt_iff. lia.
Qed.

Lemma pos_cc_Gt_trans (a b c : positive) :
  Pos.compare_cont Eq a b = Gt -> Pos.compare_cont Eq b c = Gt ->
  Pos.compare_cont Eq a c = Gt.
Proof.
  change (Pos.compare_cont Eq) with Pos.compare.
  rewrite !Pos.compare_gt_iff. lia.
Qed.

(** The order on finite values read off the pair (exponent, mantissa). *)
Definition cmp_em (e1 : Z) (m1 : positive) (e2 : Z) (m2 : positive) : comparison :=
  match Z.compare e1 e2 with
  | Lt => Lt
  | Gt => Gt
  | Eq => Pos.compare_cont Eq m1 m2
  end.

Lemma cmp_em_Lt_trans e1 m1 e2 m2 e3 m3 :
  cmp_em e1 m1 e2 m2 = Lt -> cmp_em e2 m2 e3 m3 = Lt -> cmp_em e1 m1 e3 m3 = Lt.
Proof.
  unfold cmp_em.
  destruct (Z.compare_spec e1 e2), (Z.compare_spec e2 e3), (Z.compare_spec e1 e3);
    try discriminate; try lia; intros; subst; try reflexivity; try lia.
  eapply pos_cc_Lt_trans; eassumption.
Qed.

Lemma cmp_em_Gt_trans e1 m1 e2 m2 e3 m3 :
  cmp_em e1 m1 e2 m2 = Gt -> cmp_em e2 m2 e3 m3 = Gt -> cmp_em e1 m1 e3 m3 = Gt.
Proof.
  unfold cmp_em.
  destruct (Z.compare_spec e1 e2), (Z.compare_spec e2 e3), (Z.compare_spec e1 e3);
    try discriminate; try lia; intros; subst; try reflexivity; try lia.
  eapply pos_cc_Gt_trans; eassumption.
Qed.

Lemma cmp_em_antisym e1 m1 e2 m2 :
  cmp_em e2 m2 e1 m1 = CompOpp (cmp_em e1 m1 e2 m2).
Proof.
  unfold cmp_em. rewrite (Z.compare_antisym e1 e2).
  destruct (Z.compare e1 e2); simpl; try reflexivity.
  change (Pos.compare_cont Eq) with Pos.compare.
  apply Pos.compare_antisym.
Qed.

Lemma SFcompare_finite s1 m1 e1 s2 m2 e2 :
  SFcompare (S754_finite s1 m1 e1) (S754_finite s2 m2 e2) =
  Some (match s1, s2 with
        | true, false => Lt
        | false, true => Gt
        | false, false => cmp_em e1 m1 e2 m2
        | true, true => CompOpp (cmp_em e1 m1 e2 m2)
        end).
Proof.
  unfold cmp_em; simpl. destruct s1, s2; try reflexivity.
  destruct (Z.compare e1 e2); reflexivity.
Qed.

(** Swapping the arguments of a comparison reverses its outcome. *)
Lemma SFcompare_swap (x y : float) (c : comparison) :
  SFcompare x y = Some c -> SFcompare y x = Some (CompOpp c).
Proof.
  destruct x as [sx|sx| |sx mx ex], y as [sy|sy| |sy my ey]; try discriminate.
  all: try (rewrite !SFcompare_finite; intros [= <-]; f_equal;
            destruct sx, sy; simpl; try reflexivity;
            [ now rewrite (cmp_em_antisym ex mx ey my) | apply cmp_em_antisym ]).
  all: simpl; repeat match goal with b : bool |- _ => destruct b end;
    intros [= <-]; reflexivity.
Qed.

(** [<] on floats is transitive. *)
Lemma SFltb_trans (x y z : float) :
  SFltb x y = true -> SFltb y z = true -> SFltb x z = true.
Proof.
  unfold SFltb.
  destruct x as [sx|sx| |sx mx ex], y as [sy|sy| |sy my ey],
           z as [sz|sz| |sz mz ez].
  all: try (rewrite !SFcompare_finite;
            destruct sx, sy, sz; try discriminate; try reflexivity;
            destruct (cmp_em ex mx ey my) eqn:E1; try discriminate;
            destruct (cmp_em ey my ez mz) eqn:E2; try discriminate;
            [ now rewrite (cmp_em_Gt_trans _ _ _ _ _ _ E1 E2)
            | now rewrite (cmp_em_Lt_trans _ _ _ _ _ _ E1 E2) ]).
  all: simpl; repeat match goal with b : bool |- _ => destruct b end;
    simpl; try discriminate; try reflexivity.
Qed.

Lemma gt_trans (x y z : float) : gt x y = true -> gt y z = true -> gt x z = true.
Proof. unfold gt. intros H1 H2. exact (SFltb_trans z y x H2 H1). Qed.

(** When [x > lo] holds (so [x] is no NaN) and [x > hi] fails, [x <= hi]. *)
Lemma not_gt_le (x lo hi : float) :
  gt x lo = true -> is_nan hi = false -> gt x hi = false -> le x hi = true.
Proof.
  unfold gt, le, SFltb, SFleb. intros Hlo Hhi Hgt.
  destruct (SFcompare hi x) as [c|] eqn:E.
  - rewrite (SFcompare_swap _ _ _ E). destruct c; simpl; try reflexivity.
    discriminate.
  - destruct x, hi, lo; simpl in *; try discriminate;
      repeat match goal with b : bool |- _ => destruct b end; discriminate.
Qed.

End PyFloatFacts.

(** ** Arrays of draws *)

Lemma draw_n_length {S A} (draw : S -> A * S) n s :
  length (fst (draw_n draw n s)) = n.
Proof.
  revert s. induction n as [|n IH]; intros s; simpl; [reflexivity|].
  destruct (draw s) as [x s1]. specialize (IH s1).
  destruct (draw_n draw n s1) as [xs s2]. simpl in *. now rewrite IH.
Qed.

Lemma draw_n_Forall {S A} (draw : S -> A * S) (P : A -> Prop) n s :
  (forall s', P (fst (draw s'))) -> Forall P (fst (draw_n draw n s)).
Proof.
  intros HP. revert s. induction n as [|n IH]; intros s; simpl; [constructor|].
  pose proof (HP s) as Hx. destruct (draw s) as [x s1]. specialize (IH s1).
  destruct (draw_n draw n s1) as [xs s2]. simpl in *. now constructor.
Qed.


(** ** Results and the monad *)

Lemma res_mapM_ok {A B} (f : A -> res B) (g : A -> B) (l : list A) :
  (forall x, In x l -> f x = Ok (g x)) -> res_mapM f l = Ok (map g l).
Proof.
  induction l as [|x l IH]; intros Hf; simpl; [reflexivity|].
  rewrite (Hf x) by now left. simpl.
  rewrite IH by (intros y Hy; apply Hf; now right). reflexivity.
Qed.

Lemma res_mapM_length {A B} (f : A -> res B) (l : list A) (ys : list B) :
  res_mapM f l = Ok ys -> length ys = length l.
Proof.
  revert ys. induction l as [|x l IH]; intros ys; simpl.
  - intros [= <-]. reflexivity.
  - destruct (f x) as [y|e]; simpl; [|discriminate].
    destruct (res_mapM f l) as [ys'|e]; simpl; [|discriminate].
    intros [= <-]. simpl. now rewrite (IH ys').
Qed.

Lemma res_mapM_raise {A B} (f : A -> res B) (l1 l2 : list A) (x : A) (e : PyError) :
  (forall y, In y l1 -> is_ok (f y) = true) -> f x = Raise e ->
  res_mapM f (l1 ++ x :: l2) = Raise e.
Proof.
  intros Hok Hx. induction l1 as [|y l1 IH]; simpl.
  - now rewrite Hx.
  - pose proof (Hok y (or_introl eq_refl)) as Hy.
    destruct (f y) as [b|e']; [|discriminate]. simpl.
    rewrite IH by (intros z Hz; apply Hok; now right). reflexivity.
Qed.

Section MonadFacts.
Context `{NumpyRandom}.

Lemma bind_ok {A B} (m : M A) (k : A -> M B) s a s1 ev1 :
  m s = (Ok a, s1, ev1) ->
  bind m k s = (result_of (k a s1), state_of (k a s1), ev1 ++ trace_of (k a s1)).
Proof.
  intros E. unfold bind, result_of, state_of, trace_of. rewrite E.
  destruct (k a s1) as [[r s2] ev2]. reflexivity.
Qed.

Lemma bind_raise {A B} (m : M A) (k : A -> M B) s e s1 ev1 :
  m s = (Raise e, s1, ev1) -> bind m k s = (Raise e, s1, ev1).
Proof. intros E. unfold bind. now rewrite E. Qed.

(** A computation that neither raises nor emits: [pure_ok m s a s'] reads
    "from [s], [m] returns [a] in state [s']". *)
Definition pure_ok {A} (m : M A) (s : rng_state) (a : A) (s' : rng_state) : Prop :=
  m s = (Ok a, s', []).

Lemma bind_pure_ok {A B} (m : M A) (k : A -> M B) s a s1 :
  pure_ok m s a s1 -> bind m k s = k a s1.
Proof.
  intros E. rewrite (bind_ok _ _ _ _ _ _ E). simpl.
  unfold result_of, state_of, trace_of. now destruct (k a s1) as [[r s2] ev2].
Qed.

Lemma with_rng_draws {A} (draw : rng_state -> A * rng_state) n s :
  exists xs s', pure_ok (with_rng (draw_n draw n)) s xs s' /\ length xs = n
                /\ xs = fst (draw_n draw n s).
Proof.
  unfold pure_ok, with_rng. pose proof (draw_n_length draw n s) as L.
  destruct (draw_n draw n s) as [xs s']. simpl in L. now exists xs, s'.
Qed.

Lemma np_random_normal_ok loc scale n s :
  exists xs s', pure_ok (np_random_normal loc scale n) s xs s' /\ length xs = n.
Proof.
  unfold np_random_normal.
  destruct (with_rng_draws (fun s0 => let '(g, s') := rk_gauss s0 in
                                      (fadd loc (fmul scale g), s')) n s)
    as (xs & s' & E & L & _).
  now exists xs, s'.
Qed.

Lemma np_random_poisson_ok lam n s :
  exists xs s', pure_ok (np_random_poisson lam n) s xs s' /\ length xs = n.
Proof.
  unfold np_random_poisson.
  destruct (with_rng_draws (rk_poisson lam) n s) as (xs & s' & E & L & _).
  now exists xs, s'.
Qed.

Lemma np_random_randint_ok low high n s :
  exists xs s', pure_ok (np_random_randint low high n) s xs s' /\ length xs = n.
Proof.
  unfold np_random_randint.
  destruct (with_rng_draws (rk_below (Z.to_nat (high - low))) n s)
    as (idx & s' & E & L & _).
  exists (map (fun i => (low + Z.of_nat i)%Z) idx), s'. split.
  - unfold pure_ok. now rewrite (bind_pure_ok _ _ _ _ _ E).
  - now rewrite length_map.
Qed.

(** A choice among a non-empty list never fails, and only yields members
    of the list. *)
Lemma np_random_choice_ok {A} (a : list A) n s :
  (0 < length a)%nat ->
  exists xs s', pure_ok (np_random_choice a n) s xs s' /\ length xs = n
                /\ Forall (fun x => In x a) xs.
Proof.
  intros Ha. unfold np_random_choice.
  destruct (with_rng_draws (rk_below (length a)) n s) as (idx & s' & E & L & Hidx).
  assert (Hlt : Forall (fun i => (i < length a)%nat) idx).
  { rewrite Hidx. apply draw_n_Forall. intros s0. now apply rk_below_lt. }
  assert (Hsome : forall i, In i idx -> exists x, a !! i = Some x /\ In x a).
  { intros i Hi. rewrite Forall_forall in Hlt.
    assert (Hi' : i ∈ idx) by now apply list_elem_of_In.
    specialize (Hlt i Hi').
    destruct (lookup_lt_is_Some_2 a i Hlt) as [x Hx]. exists x. split; [easy|].
    apply list_elem_of_In. eapply list_elem_of_lookup_2. eassumption. }
  clear Hlt Hidx.
  assert (Hm : exists xs, res_mapM (fun i => match a !! i with
                                             | Some x => Ok x
                                             | None => Raise IndexError
                                             end) idx = Ok xs
                          /\ length xs = length idx /\ Forall (fun x => In x a) xs).
  { clear E L. induction idx as [|i idx IH]; simpl.
    - exists []. repeat split. constructor.
    - destruct (Hsome i (or_introl eq_refl)) as (x & Hx & Hin). rewrite Hx. simpl.
      destruct IH as (xs & Exs & Lxs & Fxs).
      { intros j Hj. apply Hsome. now right. }
      rewrite Exs. simpl. exists (x :: xs). repeat split.
      + simpl. now rewrite Lxs.
      + now constructor. }
  destruct Hm as (xs & Exs & Lxs & Fxs).
  exists xs, s'. repeat split.
  - unfold pure_ok. rewrite (bind_pure_ok _ _ _ _ _ E). unfold lift. now rewrite Exs.
  - now rewrite Lxs.
  - exact Fxs.
Qed.

End MonadFacts.

(** ** The labelling loop and the frame constructor *)

(** The loop [for i in range(len(df))] that appends [f(df.loc[i])] builds
    [map f df]. *)
Lemma loop_append_from {A} (f : A -> string) (df : list A) (k a : nat)
      (acc : list string) :
  (a + k)%nat = length df ->
  fold_left
    (fun acc i =>
       res_bind acc (fun ls =>
       match df !! i with
       | Some r => Ok (ls ++ [f r])
       | None => Raise (KeyError "loc")
       end))
    (seq a k) (Ok acc)
  = Ok (acc ++ map f (drop a df)).
Proof.
  revert a acc. induction k as [|k IH]; intros a acc Hlen; simpl.
  - rewrite drop_ge by lia. now rewrite app_nil_r.
  - destruct (lookup_lt_is_Some_2 df a ltac:(lia)) as [r Hr].
    rewrite Hr. rewrite IH by lia.
    rewrite (drop_S df r a Hr). simpl. now rewrite <- app_assoc.
Qed.

Lemma loop_append {A} (f : A -> string) (df : list A) :
  fold_left
    (fun acc i =>
       res_bind acc (fun ls =>
       match df !! i with
       | Some r => Ok (ls ++ [f r])
       | None => Raise (KeyError "loc")
       end))
    (seq 0 (length df)) (Ok [])
  = Ok (map f df).
Proof. now rewrite (loop_append_from f df (length df) 0 []). Qed.

(** Reading [n] rows out of columns that all have an entry at each index
    below [n]. *)
Lemma res_mapM_seq_ok {B} (f : nat -> option B) (err : PyError) (n a : nat) :
  (forall i, (i < a + n)%nat -> is_Some (f i)) ->
  exists ys,
    res_mapM (fun i => match f i with Some r => Ok r | None => Raise err end)
             (seq a n) = Ok ys
    /\ length ys = n.
Proof.
  revert a. induction n as [|n IH]; intros a Hf; simpl.
  - now exists [].
  - destruct (Hf a ltac:(lia)) as [r Hr]. rewrite Hr. simpl.
    destruct (IH (S a)) as (ys & E & L).
    { intros i Hi. apply Hf. lia. }
    rewrite E. simpl. exists (r :: ys). split; [reflexivity|]. simpl. now rewrite L.
Qed.

Ltac lookup_some d i :=
  repeat match goal with
         | |- context [?c !! i] =>
             let x := fresh "x" in
             let Hx := fresh "Hx" in
             destruct (lookup_lt_is_Some_2 c i ltac:(simpl in *; lia)) as [x Hx];
             rewrite Hx; simpl
         end.

(** One step of a straight-line computation whose next call neither raises
    nor emits. *)
Ltac run_with lem :=
  let a := fresh "a" in
  let s := fresh "s" in
  let E := fresh "E" in
  let L := fresh "L" in
  destruct lem as (a & s & E & L);
  rewrite (bind_pure_ok _ _ _ _ _ E); clear E; cbv beta.

Module SimpleFacts.
Import Simple.

Lemma row_at_is_Some (d : Columns) (n i : nat) :
  length (c_age d) = n -> length (c_gender d) = n -> length (c_bmi d) = n ->
  length (c_smoking_status d) = n -> length (c_family_history d) = n ->
  length (c_blood_pressure d) = n -> length (c_cholesterol d) = n ->
  length (c_glucose d) = n -> length (c_white_blood_cells d) = n ->
  length (c_platelet_count d) = n -> length (c_hemoglobin d) = n ->
  length (c_symptom_count d) = n -> length (c_fatigue_level d) = n ->
  length (c_pain_level d) = n -> length (c_weight_loss d) = n ->
  length (c_night_sweats d) = n -> length (c_appetite_loss d) = n ->
  (i < n)%nat -> is_Some (row_at d i).
Proof.
  intros. unfold row_at. lookup_some d i. eexists. reflexivity.
Qed.

Lemma label_loop_spec (df : list Row) :
  label_loop df (length df) = Ok (map assign_label df).
Proof. apply loop_append. Qed.

Section Generator.
Context `{NumpyRandom}.

(** The generator returns a frame of [n_samples] rows, whatever the state
    of the random generator, and labels each row by the cascade. *)
Lemma generate_dummy_data_ok (n_samples : nat) (s : rng_state) :
  exists df s',
    generate_dummy_data n_samples s = (Ok df, s', [])
    /\ length (df_rows df) = n_samples
    /\ df_cancer_type df = map assign_label (df_rows df).
Proof.
  unfold generate_dummy_data.
  rewrite (bind_pure_ok (np_random_seed 42) _ s tt (rk_seed 42) eq_refl).
  run_with (np_random_normal_ok (of_Z 65) (of_Z 15) n_samples (rk_seed 42)).
  run_with (np_random_choice_ok ["Male"; "Female"] n_samples s0 ltac:(simpl; lia)).
  run_with (np_random_normal_ok (of_Z 25) (of_Z 5) n_samples s1).
  run_with (np_random_choice_ok ["Never"; "Former"; "Current"] n_samples s2
                                ltac:(simpl; lia)).
  run_with (np_random_choice_ok [0; 1]%Z n_samples s3 ltac:(simpl; lia)).
  run_with (np_random_normal_ok (of_Z 120) (of_Z 20) n_samples s4).
  run_with (np_random_normal_ok (of_Z 200) (of_Z 40) n_samples s5).
  run_with (np_random_normal_ok (of_Z 100) (of_Z 20) n_samples s6).
  run_with (np_random_normal_ok (of_Z 7) (of_Z 2) n_samples s7).
  run_with (np_random_normal_ok (of_Z 250) (of_Z 50) n_samples s8).
  run_with (np_random_normal_ok (of_Z 14) (of_Z 2) n_samples s9).
  run_with (np_random_poisson_ok (of_Z 3) n_samples s10).
  run_with (np_random_randint_ok 1 6 n_samples s11).
  run_with (np_random_randint_ok 1 6 n_samples s12).
  run_with (np_random_choice_ok [0; 1]%Z n_samples s13 ltac:(simpl; lia)).
  run_with (np_random_choice_ok [0; 1]%Z n_samples s14 ltac:(simpl; lia)).
  run_with (np_random_choice_ok [0; 1]%Z n_samples s15 ltac:(simpl; lia)).
  repeat match goal with Hc : _ /\ _ |- _ => destruct Hc as [Hc _] end.
  match goal with
  | |- context [pd_DataFrame ?d] =>
      destruct (res_mapM_seq_ok (row_at d)
                  (ValueError "All arrays must be of the same length")
                  n_samples 0) as (rows & Erows & Lrows);
      [ intros i Hi; apply (row_at_is_Some d n_samples i); simpl; (assumption || lia)
      | assert (Edf : pd_DataFrame d = Ok rows)
          by (unfold pd_DataFrame; simpl; rewrite L; exact Erows) ]
  end.
  rewrite Edf.
  rewrite (bind_pure_ok (lift (Ok rows)) _ s16 rows s16 eq_refl).
  cbv beta. rewrite <- Lrows. rewrite label_loop_spec.
  rewrite (bind_pure_ok (lift (Ok (map assign_label rows))) _ s16 _ s16 eq_refl).
  unfold set_cancer_type, lift. rewrite length_map, Nat.eqb_refl.
  eexists _, s16. repeat split.
Qed.

End Generator.

End SimpleFacts.

Module CancerPredictionFacts.
Import CancerPrediction.

Lemma predictor_row_at_is_Some (d : Columns) (n i : nat) :
  length (c_age d) = n -> length (c_gender d) = n -> length (c_bmi d) = n ->
  length (c_smoking_history d) = n -> length (c_family_history d) = n ->
  length (c_ca125 d) = n -> length (c_psa d) = n -> length (c_cea d) = n ->
  length (c_afp d) = n -> length (c_hcg d) = n -> length (c_ldh d) = n ->
  length (c_platelet_count d) = n -> length (c_white_blood_cells d) = n ->
  length (c_red_blood_cells d) = n -> length (c_hemoglobin d) = n ->
  length (c_creatinine d) = n -> length (c_glucose d) = n ->
  length (c_cholesterol d) = n -> length (c_blood_pressure_systolic d) = n ->
  length (c_blood_pressure_diastolic d) = n ->
  (i < n)%nat -> is_Some (row_at d i).
Proof.
  intros. unfold row_at. lookup_some d i. eexists. reflexivity.
Qed.

Lemma predictor_label_loop_spec (df : list Row) :
  label_loop df (length df) = Ok (map assign_label df).
Proof. apply loop_append. Qed.

Section Generator.
Context `{NumpyRandom}.

Lemma generate_synthetic_cancer_data_ok (n_samples : nat) (s : rng_state) :
  exists df s',
    generate_synthetic_cancer_data n_samples s = (Ok df, s', [])
    /\ length (df_rows df) = n_samples
    /\ df_cancer_type df = map assign_label (df_rows df).
Proof.
  unfold generate_synthetic_cancer_data.
  rewrite (bind_pure_ok (np_random_seed 42) _ s tt (rk_seed 42) eq_refl).
  run_with (np_random_normal_ok (of_Z 65) (of_Z 15) n_samples (rk_seed 42)).
  run_with (np_random_choice_ok ["Male"; "Female"] n_samples s0 ltac:(simpl; lia)).
  run_with (np_random_normal_ok (of_Z 25) (of_Z 5) n_samples s1).
  run_with (np_random_choice_ok ["Never"; "Former"; "Current"] n_samples s2
                                ltac:(simpl; lia)).
  run_with (np_random_choice_ok [0; 1]%Z n_samples s3 ltac:(simpl; lia)).
  run_with (np_random_normal_ok (of_Z 20) (of_Z 10) n_samples s4).
  run_with (np_random_normal_ok (of_Z 4) (of_Z 2) n_samples s5).
  run_with (np_random_normal_ok (of_Z 3) (lit 15 1) n_samples s6).
  run_with (np_random_normal_ok (of_Z 10) (of_Z 5) n_samples s7).
  run_with (np_random_normal_ok (of_Z 5) (of_Z 2) n_samples s8).
  run_with (np_random_normal_ok (of_Z 150) (of_Z 50) n_samples s9).
  run_with (np_random_normal_ok (of_Z 250) (of_Z 50) n_samples s10).
  run_with (np_random_normal_ok (of_Z 7) (of_Z 2) n_samples s11).
  run_with (np_random_normal_ok (lit 45 1) (lit 5 1) n_samples s12).
  run_with (np_random_normal_ok (of_Z 14) (of_Z 2) n_samples s13).
  run_with (np_random_normal_ok (of_Z 1) (lit 3 1) n_samples s14).
  run_with (np_random_normal_ok (of_Z 100) (of_Z 20) n_samples s15).
  run_with (np_random_normal_ok (of_Z 200) (of_Z 40) n_samples s16).
  run_with (np_random_normal_ok (of_Z 120) (of_Z 20) n_samples s17).
  run_with (np_random_normal_ok (of_Z 80) (of_Z 10) n_samples s18).
  repeat match goal with Hc : _ /\ _ |- _ => destruct Hc as [Hc _] end.
  match goal with
  | |- context [pd_DataFrame ?d] =>
      destruct (res_mapM_seq_ok (row_at d)
                  (ValueError "All arrays must be of the same length")
                  n_samples 0) as (rows & Erows & Lrows);
      [ intros i Hi; apply (predictor_row_at_is_Some d n_samples i); simpl; (assumption || lia)
      | assert (Edf : pd_DataFrame d = Ok rows)
          by (unfold pd_DataFrame; simpl; rewrite L; exact Erows) ]
  end.
  rewrite Edf.
  rewrite (bind_pure_ok (lift (Ok rows)) _ s19 rows s19 eq_refl).
  cbv beta. rewrite <- Lrows. rewrite predictor_label_loop_spec.
  rewrite (bind_pure_ok (lift (Ok (map assign_label rows))) _ s19 _ s19 eq_refl).
  unfold set_cancer_type, lift. rewrite length_map, Nat.eqb_refl.
  eexists _, s19. repeat split.
Qed.

End Generator.

End CancerPredictionFacts.

(** ** The label cascades *)

Ltac split_ifs :=
  repeat match goal with
         | |- context [if ?b then _ else _] => destruct b eqn:?
         end.

Lemma simple_assign_label_first_match (r : Simple.Row) :
  Simple.assign_label r = first_match Simple.cascade_rules "Melanoma" r.
Proof.
  unfold Simple.assign_label, first_match, Simple.cascade_rules.
  cbn [find fst snd]. split_ifs; reflexivity.
Qed.

Lemma simple_assign_label_closed (r : Simple.Row) :
  In (Simple.assign_label r) Simple.cancer_types.
Proof.
  unfold Simple.assign_label, Simple.cancer_types. split_ifs; simpl; tauto.
Qed.

Lemma full_assign_label_first_match (r : CancerPrediction.Row) :
  CancerPrediction.assign_label r
  = first_match CancerPrediction.cascade_rules "Leukemia" r.
Proof.
  unfold CancerPrediction.assign_label, first_match, CancerPrediction.cascade_rules.
  cbn [find fst snd]. split_ifs; reflexivity.
Qed.

Lemma full_assign_label_closed (r : CancerPrediction.Row) :
  In (CancerPrediction.assign_label r) CancerPrediction.cancer_types_declared.
Proof.
  unfold CancerPrediction.assign_label, CancerPrediction.cancer_types_declared.
  split_ifs; simpl; tauto.
Qed.

(** The first rule of [generate_dummy_data]: a Female row over 50. *)
Lemma simple_female_over_50 (r : Simple.Row) :
  Simple.gender r = "Female" -> gt (Simple.age r) (of_Z 50) = true ->
  Simple.assign_label r = "Breast".
Proof.
  intros Hg Ha. unfold Simple.assign_label. now rewrite Hg, Ha.
Qed.

Lemma gt_70_50 : gt (of_Z 70) (of_Z 50) = true.
Proof. reflexivity. Qed.

(** C4: whatever the sample count and the state of the random generator,
    each of the two generators returns a table in which every row has
    exactly one label (the label column is as long as the table), the label
    is the one of the first matching rule of the cascade or the catch-all,
    and it belongs to the closed list of cancer types the generator declares. *)
Theorem C4_every_row_gets_one_label `{NumpyRandom} (n : nat) (s : rng_state) :
  (exists df s',
      Simple.generate_dummy_data n s = (Ok df, s', [])
      /\ length (Simple.df_rows df) = n
      /\ length (Simple.df_cancer_type df) = n
      /\ Simple.df_cancer_type df
         = map (first_match Simple.cascade_rules "Melanoma") (Simple.df_rows df)
      /\ Forall (fun l => In l Simple.cancer_types) (Simple.df_cancer_type df))
  /\
  (exists df s',
      CancerPrediction.generate_synthetic_cancer_data n s = (Ok df, s', [])
      /\ length (CancerPrediction.df_rows df) = n
      /\ length (CancerPrediction.df_cancer_type df) = n
      /\ CancerPrediction.df_cancer_type df
         = map (first_match CancerPrediction.cascade_rules "Leukemia")
               (CancerPrediction.df_rows df)
      /\ Forall (fun l => In l CancerPrediction.cancer_types_declared)
                (CancerPrediction.df_cancer_type df)).
Proof.
  split.
  - destruct (SimpleFacts.generate_dummy_data_ok n s) as (df & s' & E & L & Hl).
    exists df, s'. rewrite Hl. repeat split; try assumption.
    + now rewrite length_map.
    + apply map_ext. intros r. apply simple_assign_label_first_match.
    + apply Forall_forall. intros l Hin. apply list_elem_of_In in Hin.
      apply in_map_iff in Hin. destruct Hin as (r & <- & _).
      apply simple_assign_label_closed.
  - destruct (CancerPredictionFacts.generate_synthetic_cancer_data_ok n s)
      as (df & s' & E & L & Hl).
    exists df, s'. rewrite Hl. repeat split; try assumption.
    + now rewrite length_map.
    + apply map_ext. intros r. apply full_assign_label_first_match.
    + apply Forall_forall. intros l Hin. apply list_elem_of_In in Hin.
      apply in_map_iff in Hin. destruct Hin as (r & <- & _).
      apply full_assign_label_closed.
Qed.

(** C3 (as amended): in the cascade of [generate_dummy_data], the
    Female-and-age rule comes first, so a row with gender Female whose age
    is above 70, or is 70, takes the label Breast (both ages are above the
    rule's threshold 50), by the code and by the first-match reading. *)
Theorem C3_female_of_70_or_more_is_breast (r : Simple.Row) :
  Simple.gender r = "Female" ->
  gt (Simple.age r) (of_Z 70) = true \/ Simple.age r = of_Z 70 ->
  Simple.assign_label r = "Breast"
  /\ first_match Simple.cascade_rules "Melanoma" r = "Breast".
Proof.
  intros Hg Ha.
  assert (H50 : gt (Simple.age r) (of_Z 50) = true).
  { destruct Ha as [Ha | ->].
    - exact (PyFloatFacts.gt_trans _ _ _ Ha gt_70_50).
    - exact gt_70_50. }
  rewrite <- simple_assign_label_first_match.
  split; now apply simple_female_over_50.
Qed.

Definition female_70 : Simple.Row :=
  {| Simple.age := of_Z 70; Simple.gender := "Female"; Simple.bmi := of_Z 25;
     Simple.smoking_status := "Current"; Simple.family_history := 1;
     Simple.blood_pressure := of_Z 120; Simple.cholesterol := of_Z 200;
     Simple.glucose := of_Z 100; Simple.white_blood_cells := of_Z 7;
     Simple.platelet_count := of_Z 250; Simple.hemoglobin := of_Z 14;
     Simple.symptom_count := 5; Simple.fatigue_level := 4;
     Simple.pain_level := 3; Simple.weight_loss := 1;
     Simple.night_sweats := 0; Simple.appetite_loss := 1 |}.

Lemma C3_witness_female_70 :
  Simple.assign_label female_70 = "Breast"
  /\ first_match Simple.cascade_rules "Melanoma" female_70 = "Breast".
Proof.
  apply (C3_female_of_70_or_more_is_breast female_70).
  - reflexivity.
  - right. reflexivity.
Defined.

(** A Female row of age 75 for [CancerPredictor]: CA-125 is 20, the smoking
    history is Never, and no marker is raised. *)
Definition female_75_low_ca125 : CancerPrediction.Row :=
  {| CancerPrediction.age := of_Z 75; CancerPrediction.gender := "Female";
     CancerPrediction.bmi := of_Z 25; CancerPrediction.smoking_history := "Never";
     CancerPrediction.family_history := 0; CancerPrediction.ca125 := of_Z 20;
     CancerPrediction.psa := of_Z 4; CancerPrediction.cea := of_Z 3;
     CancerPrediction.afp := of_Z 10; CancerPrediction.hcg := of_Z 5;
     CancerPrediction.ldh := of_Z 150; CancerPrediction.platelet_count := of_Z 250;
     CancerPrediction.white_blood_cells := of_Z 7;
     CancerPrediction.red_blood_cells := lit 45 1;
     CancerPrediction.hemoglobin := of_Z 14; CancerPrediction.creatinine := of_Z 1;
     CancerPrediction.glucose := of_Z 100; CancerPrediction.cholesterol := of_Z 200;
     CancerPrediction.blood_pressure_systolic := of_Z 120;
     CancerPrediction.blood_pressure_diastolic := of_Z 80 |}.

(** C3 fails for the cascade of [CancerPredictor]: its first rule asks for
    CA-125 above 25, not for an age, and this Female row of age 75 falls
    through to the catch-all. *)
Lemma C3_counterexample_cancer_predictor :
  CancerPrediction.gender female_75_low_ca125 = "Female"
  /\ gt (CancerPrediction.age female_75_low_ca125) (of_Z 70) = true
  /\ CancerPrediction.assign_label female_75_low_ca125 = "Leukemia"
  /\ CancerPrediction.assign_label female_75_low_ca125 <> "Breast".
Proof. repeat split. discriminate. Qed.

(** C10: a row that the cascade of [generate_dummy_data] labels Ovarian is
    Female, older than 45 and not older than 50: the Ovarian rule is only
    reached when the earlier Breast rule (Female and age > 50) has failed. *)
Theorem C10_ovarian_rows_are_female_between_45_and_50 (r : Simple.Row) :
  Simple.assign_label r = "Ovarian" ->
  Simple.gender r = "Female"
  /\ gt (Simple.age r) (of_Z 45) = true
  /\ gt (Simple.age r) (of_Z 50) = false
  /\ le (Simple.age r) (of_Z 50) = true.
Proof.
  unfold Simple.assign_label.
  destruct (String.eqb (Simple.gender r) "Female") eqn:Hg; cbn [andb].
  - destruct (gt (Simple.age r) (of_Z 50)) eqn:H50; [discriminate|].
    split_ifs; try discriminate. intros _.
    apply String.eqb_eq in Hg.
    match goal with
    | H45 : gt (Simple.age r) (of_Z 45) = true |- _ =>
        repeat split; try assumption;
        exact (PyFloatFacts.not_gt_le (Simple.age r) (of_Z 45) (of_Z 50)
                                      H45 eq_refl H50)
    end.
  - split_ifs; discriminate.
Qed.

(** The same, read on a generated table: the row at an index where the
    label column says Ovarian. *)
Lemma generated_ovarian_rows `{NumpyRandom} (n : nat) (s s' : rng_state)
      (df : Simple.DataFrame) (i : nat) (r : Simple.Row) :
  Simple.generate_dummy_data n s = (Ok df, s', []) ->
  Simple.df_rows df !! i = Some r ->
  Simple.df_cancer_type df !! i = Some "Ovarian" ->
  Simple.gender r = "Female"
  /\ gt (Simple.age r) (of_Z 45) = true
  /\ le (Simple.age r) (of_Z 50) = true.
Proof.
  intros E Hr Hl.
  destruct (SimpleFacts.generate_dummy_data_ok n s) as (df' & s'' & E' & _ & Hy).
  rewrite E in E'. injection E' as <- _. rewrite Hy in Hl.
  change (map Simple.assign_label (Simple.df_rows df))
    with (Simple.assign_label <$> Simple.df_rows df) in Hl.
  rewrite list_lookup_fmap, Hr in Hl. simpl in Hl. injection Hl as Hl.
  unfold Simple.assign_label in Hl.
  destruct (String.eqb (Simple.gender r) "Female") eqn:Hg; cbn [andb] in Hl.
  - destruct (gt (Simple.age r) (of_Z 50)) eqn:H50; [discriminate|].
    revert Hl. split_ifs; try discriminate. intros _.
    apply String.eqb_eq in Hg.
    match goal with
    | H45 : gt (Simple.age r) (of_Z 45) = true |- _ =>
        repeat split; try assumption;
        exact (PyFloatFacts.not_gt_le (Simple.age r) (of_Z 45) (of_Z 50)
                                      H45 eq_refl H50)
    end.
  - revert Hl. split_ifs; discriminate.
Qed.

Definition female_48 : Simple.Row :=
  {| Simple.age := of_Z 48; Simple.gender := "Female"; Simple.bmi := of_Z 25;
     Simple.smoking_status := "Never"; Simple.family_history := 0;
     Simple.blood_pressure := of_Z 120; Simple.cholesterol := of_Z 200;
     Simple.glucose := of_Z 100; Simple.white_blood_cells := of_Z 7;
     Simple.platelet_count := of_Z 250; Simple.hemoglobin := of_Z 14;
     Simple.symptom_count := 3; Simple.fatigue_level := 3;
     Simple.pain_level := 3; Simple.weight_loss := 0;
     Simple.night_sweats := 0; Simple.appetite_loss := 0 |}.

Lemma C10_witness_female_48 :
  Simple.gender female_48 = "Female"
  /\ gt (Simple.age female_48) (of_Z 45) = true
  /\ gt (Simple.age female_48) (of_Z 50) = false
  /\ le (Simple.age female_48) (of_Z 50) = true.
Proof.
  apply (C10_ovarian_rows_are_female_between_45_and_50 female_48).
  reflexivity.
Defined.

(** ** Two runs in one process *)

Section Determinism.
Context `{NumpyRandom} `{Sklearn}.

Lemma bind_seed {B} (z : Z) (k : unit -> M B) (s : rng_state) :
  bind (np_random_seed z) k s = k tt (rk_seed z).
Proof.
  unfold bind, np_random_seed. now destruct (k tt (rk_seed z)) as [[r s2] ev2].
Qed.

(** The generator reseeds first, so what it returns does not depend on the
    state it is called in. *)
Lemma generate_dummy_data_reseeds (n : nat) (s s' : rng_state) :
  Simple.generate_dummy_data n s = Simple.generate_dummy_data n s'.
Proof. unfold Simple.generate_dummy_data. now rewrite !bind_seed. Qed.

Lemma train_reseeds (s s' : rng_state) : Simple.train s = Simple.train s'.
Proof.
  unfold Simple.train, bind.
  now rewrite (generate_dummy_data_reseeds 1000 s s').
Qed.

Lemma predict_cancer_type_reseeds (pd : gmap string PyVal) (s s' : rng_state) :
  Simple.predict_cancer_type pd s = Simple.predict_cancer_type pd s'.
Proof.
  unfold Simple.predict_cancer_type, bind. now rewrite (train_reseeds s s').
Qed.

End Determinism.

(** ** Runs of the estimator calls *)

Section EstimatorRuns.
Context `{NumpyRandom} `{Sklearn}.

Lemma LabelEncoder_fit_transform_run (o : Estimator) (y : list string) (s : rng_state) :
  LabelEncoder_fit_transform o y s
  = (Ok ({| classes_ := Some (np_unique y) |},
         map (fun v => Z.of_nat (default O (index_of v (np_unique y)))) y),
     s, [EvFit o (FittedLabels (np_unique y))]).
Proof. reflexivity. Qed.

Lemma LabelEncoder_transform_run (o : Estimator) (le : LabelEncoder)
      (classes : list string) (y : list PyVal) (s : rng_state) :
  classes_ le = Some classes ->
  LabelEncoder_transform o le y s
  = (res_mapM (encode_value classes) y, s, [EvTransform o (FittedLabels classes)]).
Proof.
  intros E. unfold LabelEncoder_transform. rewrite E. reflexivity.
Qed.

Lemma StandardScaler_transform_run (o : Estimator) (sc : StandardScaler)
      (mean scale : list float) (X : list (list float)) (s : rng_state) :
  fitted_stats sc = Some (mean, scale) ->
  StandardScaler_transform o sc X s
  = (res_mapM (scale_row mean scale) X, s, [EvTransform o (FittedScaler mean scale)]).
Proof.
  intros E. unfold StandardScaler_transform. rewrite E. reflexivity.
Qed.

Lemma StandardScaler_fit_transform_run (o : Estimator) (X : list (list float))
      (s : rng_state) :
  StandardScaler_fit_transform o X s
  = (res_bind (res_mapM (scale_row (fst (column_stats X)) (snd (column_stats X))) X)
              (fun Xs => Ok ({| fitted_stats := Some (column_stats X) |}, Xs)),
     s,
     [EvFit o (FittedScaler (fst (column_stats X)) (snd (column_stats X)));
      EvTransform o (FittedScaler (fst (column_stats X)) (snd (column_stats X)))]).
Proof.
  unfold StandardScaler_fit_transform, StandardScaler_transform, bind, log, lift, ret.
  destruct (column_stats X) as [mean scale]. simpl.
  destruct (res_mapM (scale_row mean scale) X); reflexivity.
Qed.

End EstimatorRuns.

(** ** Stepping through a computation *)

Section Stepping.
Context `{NumpyRandom}.

(** [P] holds of the result of an outcome and of its trace put after [pre]. *)
Definition outcome_of {A} (P : res A -> list Event -> Prop) (pre : list Event)
           (out : res A * rng_state * list Event) : Prop :=
  P (result_of out) (pre ++ trace_of out).

Lemma outcome_bind {A B} (P : res B -> list Event -> Prop) (pre : list Event)
      (m : M A) (k : A -> M B) (s : rng_state) r s1 ev1 :
  m s = (r, s1, ev1) ->
  match r with
  | Ok a => outcome_of P (pre ++ ev1) (k a s1)
  | Raise e => P (Raise e) (pre ++ ev1)
  end ->
  outcome_of P pre (bind m k s).
Proof.
  intros E HP. unfold outcome_of, bind, result_of, trace_of in *. rewrite E.
  destruct r as [a|e]; [|exact HP].
  destruct (k a s1) as [[r2 s2] ev2]. simpl in *. now rewrite app_assoc.
Qed.

Lemma outcome_ret {A} (P : res A -> list Event -> Prop) (pre : list Event)
      (a : A) (s : rng_state) :
  P (Ok a) pre -> outcome_of P pre (ret a s).
Proof. unfold outcome_of, ret. simpl. now rewrite app_nil_r. Qed.

Lemma outcome_lift {A} (P : res A -> list Event -> Prop) (pre : list Event)
      (r : res A) (s : rng_state) :
  P r pre -> outcome_of P pre (lift r s).
Proof. unfold outcome_of, lift. simpl. now rewrite app_nil_r. Qed.

Lemma lift_run {A} (r : res A) (s : rng_state) : lift r s = (r, s, []).
Proof. reflexivity. Qed.

End Stepping.

(** ** The training half *)

Section Training.
Context `{NumpyRandom} `{Sklearn}.
Import Simple.

(** The codes [fit_transform] returns for a column. *)
Definition fitted_codes (col : list string) : list Z :=
  map (fun v => Z.of_nat (default O (index_of v (np_unique col)))) col.

(** The feature matrix of lines 97-106: the numeric columns, then the codes
    of gender and of smoking status. *)
Definition encoded_table (rows : list Row) : res (list (list float)) :=
  res_bind (select_columns feature_columns rows) (fun X =>
  res_bind (add_column X (fitted_codes (map gender rows))) (fun X =>
  add_column X (fitted_codes (map smoking_status rows)))).

(** What a run of [train] can leave behind: it raises before any fit,
    between the two encoder fits, after them, or after the scaler fit; or it
    returns the objects whose fits the trace records. *)
Inductive train_outcome (rows : list Row) : res Trained -> list Event -> Prop :=
| train_raises_early e :
    train_outcome rows (Raise e) []
| train_raises_between e :
    train_outcome rows (Raise e)
      [EvFit LeGender (FittedLabels (np_unique (map gender rows)))]
| train_raises_encoded e :
    train_outcome rows (Raise e)
      [EvFit LeGender (FittedLabels (np_unique (map gender rows)));
       EvFit LeSmoking (FittedLabels (np_unique (map smoking_status rows)))]
| train_raises_scaling e mean scale :
    train_outcome rows (Raise e)
      [EvFit LeGender (FittedLabels (np_unique (map gender rows)));
       EvFit LeSmoking (FittedLabels (np_unique (map smoking_status rows)));
       EvFit Scaler (FittedScaler mean scale);
       EvTransform Scaler (FittedScaler mean scale)]
| train_raises_late e mean scale :
    train_outcome rows (Raise e)
      (training_events (np_unique (map gender rows))
                       (np_unique (map smoking_status rows)) mean scale)
| train_returns t mean scale X X_train X_test y_train y_test :
    classes_ (le_gender t) = Some (np_unique (map gender rows)) ->
    classes_ (le_smoking t) = Some (np_unique (map smoking_status rows)) ->
    encoded_table rows = Ok X ->
    train_test_split X (map assign_label rows) (lit 2 1) 42 (map assign_label rows)
    = Ok (X_train, X_test, y_train, y_test) ->
    column_stats X_train = (mean, scale) ->
    fitted_stats (scaler t) = Some (mean, scale) ->
    train_outcome rows (Ok t)
      (training_events (np_unique (map gender rows))
                       (np_unique (map smoking_status rows)) mean scale).

Lemma training_table_rows (s : rng_state) (df : DataFrame) s' :
  generate_dummy_data 1000 s = (Ok df, s', []) -> training_table s = df_rows df.
Proof. intros E. unfold training_table. now rewrite E. Qed.

Lemma train_cases (s : rng_state) :
  train_outcome (training_table s) (result_of (train s)) (trace_of (train s)).
Proof.
  destruct (SimpleFacts.generate_dummy_data_ok 1000 s) as (df & s0 & E & _ & Hy).
  rewrite (training_table_rows s df s0 E).
  change (outcome_of (train_outcome (df_rows df)) [] (train s)).
  unfold train.
  eapply outcome_bind; [exact E|]. cbv beta.
  eapply outcome_bind; [apply lift_run|].
  destruct (select_columns feature_columns (df_rows df)) as [X|e] eqn:EX;
    [|constructor].
  eapply outcome_bind; [apply LabelEncoder_fit_transform_run|]. cbv beta iota.
  eapply outcome_bind; [apply lift_run|].
  match goal with |- match ?r with _ => _ end => destruct r as [X1|e] eqn:EX1 end;
    [|constructor].
  eapply outcome_bind; [apply LabelEncoder_fit_transform_run|]. cbv beta iota.
  eapply outcome_bind; [apply lift_run|].
  match goal with |- match ?r with _ => _ end => destruct r as [X2|e] eqn:EX2 end;
    [|constructor].
  eapply outcome_bind; [apply lift_run|].
  destruct (train_test_split X2 (df_cancer_type df) (lit 2 1) 42 (df_cancer_type df))
    as [[[[X_train X_test] y_train] y_test]|e] eqn:Esplit; [|constructor].
  cbv beta iota.
  eapply outcome_bind; [apply StandardScaler_fit_transform_run|].
  destruct (column_stats X_train) as [mean scale] eqn:Estats. simpl fst; simpl snd.
  destruct (res_mapM (scale_row mean scale) X_train) as [X_train_scaled|e];
    simpl res_bind; [|constructor].
  cbv beta iota.
  eapply outcome_bind;
    [apply (StandardScaler_transform_run Scaler _ mean scale); reflexivity|].
  destruct (res_mapM (scale_row mean scale) X_test) as [X_test_scaled|e];
    [|apply train_raises_late].
  eapply outcome_bind; [apply lift_run|].
  match goal with |- match ?r with _ => _ end => destruct r as [y_pred|e] end;
    [|apply train_raises_late].
  apply outcome_ret. rewrite Hy in Esplit.
  eapply (train_returns _ _ mean scale X2); try reflexivity; try eassumption.
  unfold encoded_table. rewrite EX. simpl. fold (fitted_codes (map gender (df_rows df))).
  unfold fitted_codes. rewrite EX1. simpl. exact EX2.
Qed.

End Training.

(** ** The inference half *)

(** The code of a categorical entry of the patient: code 0 when the entry
    is missing, its position among the fitted classes otherwise. *)
Definition category_code (classes : list string) (v : option PyVal) : res Z :=
  match v with
  | Some v => encode_value classes v
  | None => Ok 0%Z
  end.

Definition category_events (o : Estimator) (classes : list string)
           (v : option PyVal) : list Event :=
  match v with
  | Some _ => [EvTransform o (FittedLabels classes)]
  | None => []
  end.

Section Inference.
Context `{NumpyRandom} `{Sklearn}.
Import Simple.

Lemma categorical_feature_run (o : Estimator) (le : LabelEncoder) (key : string)
      (pd : gmap string PyVal) (s : rng_state) (classes : list string) :
  classes_ le = Some classes ->
  categorical_feature o le key pd s
  = (res_bind (category_code classes (pd !! key)) (fun c => Ok (PInt c)), s,
     category_events o classes (pd !! key)).
Proof.
  intros Hc. unfold categorical_feature, category_code, category_events.
  destruct (pd !! key) as [v|]; [|reflexivity].
  unfold bind. rewrite (LabelEncoder_transform_run o le classes [v] s Hc).
  simpl. destruct (encode_value classes v); reflexivity.
Qed.

(** The whole of lines 134-166 as one equation. *)
Lemma encode_patient_run (t : Trained) (pd : gmap string PyVal) (s : rng_state)
      (cg cs : list string) (mean scale : list float) :
  classes_ (le_gender t) = Some cg ->
  classes_ (le_smoking t) = Some cs ->
  fitted_stats (scaler t) = Some (mean, scale) ->
  encode_patient t pd s
  = match category_code cg (pd !! "gender") with
    | Raise e => (Raise e, s, category_events LeGender cg (pd !! "gender"))
    | Ok g =>
        match category_code cs (pd !! "smoking_status") with
        | Raise e =>
            (Raise e, s,
             category_events LeGender cg (pd !! "gender")
             ++ category_events LeSmoking cs (pd !! "smoking_status"))
        | Ok sm =>
            match res_mapM to_float ((numeric_features pd ++ [PInt g]) ++ [PInt sm]) with
            | Raise e =>
                (Raise e, s,
                 category_events LeGender cg (pd !! "gender")
                 ++ category_events LeSmoking cs (pd !! "smoking_status"))
            | Ok row =>
                (res_mapM (scale_row mean scale) [row], s,
                 inference_events cg cs mean scale pd)
            end
        end
    end.
Proof.
  intros Hg Hs Hsc. unfold encode_patient, inference_events.
  unfold bind at 1. rewrite (categorical_feature_run _ _ _ _ _ cg Hg).
  fold (category_events LeGender cg (pd !! "gender")).
  destruct (category_code cg (pd !! "gender")) as [g|e]; simpl res_bind;
    [|reflexivity].
  unfold bind at 1. rewrite (categorical_feature_run _ _ _ _ _ cs Hs).
  fold (category_events LeSmoking cs (pd !! "smoking_status")).
  destruct (category_code cs (pd !! "smoking_status")) as [sm|e]; simpl res_bind;
    [|reflexivity].
  unfold bind at 1. rewrite lift_run.
  destruct (res_mapM to_float ((numeric_features pd ++ [PInt g]) ++ [PInt sm]))
    as [row|e].
  - rewrite (StandardScaler_transform_run Scaler _ mean scale [row] s Hsc).
    unfold category_events.
    destruct (pd !! "gender"), (pd !! "smoking_status"); reflexivity.
  - now rewrite !app_nil_r.
Qed.

Lemma conclude_trace (t : Trained) (ps : list (list float)) (s : rng_state) :
  trace_of (conclude t ps s) = [] /\ state_of (conclude t ps s) = s.
Proof.
  unfold conclude, bind, lift, ret, trace_of, state_of.
  destruct (predict (rf_model t) ps) as [p|e]; [|now simpl].
  destruct (first p) as [pc|e]; [|now simpl].
  destruct (first (predict_proba (rf_model t) ps)) as [pr|e]; [|now simpl].
  destruct (py_max pr) as [c|e]; now simpl.
Qed.

End Inference.

(** ** Histories *)

Definition is_fit (ev : Event) : bool :=
  match ev with EvFit _ _ => true | EvTransform _ _ => false end.

Lemma transforms_after_fits (pre post : list Event) :
  forallb is_fit pre = true ->
  (forall o st, In (EvTransform o st) post -> In (EvFit o st) pre) ->
  transforms_use_fit (pre ++ post).
Proof.
  intros Hpre Hpost h1 o st h2 Heq.
  apply app_eq_app in Heq. destruct Heq as [l [[E1 E2]|[E1 E2]]].
  - (* [pre = h1 ++ l]: the transform is the head of [post], or lies in [pre] *)
    destruct l as [|x l]; simpl in E2.
    + rewrite app_nil_r in E1. subst h1. apply Hpost. rewrite <- E2. now left.
    + injection E2 as <- E2.
      assert (Hin : In (EvTransform o st) pre).
      { rewrite E1. apply in_or_app. right. now left. }
      rewrite forallb_forall in Hpre. specialize (Hpre _ Hin). discriminate.
  - (* [h1 = pre ++ l]: the transform lies in [post] *)
    rewrite E1. apply in_or_app. left. apply Hpost. rewrite E2.
    apply in_or_app. right. now left.
Qed.

Section OnePredictionCall.
Context `{NumpyRandom} `{Sklearn}.
Import Simple.

(** What one call of [predict_cancer_type] returns and emits, in terms of
    the outcome of its training half. *)
Lemma predict_cancer_type_run (pd : gmap string PyVal) (s : rng_state) :
  Simple.predict_cancer_type pd s
  = match train s with
    | (Ok t, s1, ev1) =>
        match encode_patient t pd s1 with
        | (Ok ps, s2, ev2) =>
            (result_of (conclude t ps s2), s2, ev1 ++ ev2)
        | (Raise e, s2, ev2) => (Raise e, s2, ev1 ++ ev2)
        end
    | (Raise e, s1, ev1) => (Raise e, s1, ev1)
    end.
Proof.
  unfold Simple.predict_cancer_type, bind.
  destruct (train s) as [[[t|e] s1] ev1]; [|reflexivity].
  destruct (encode_patient t pd s1) as [[[ps|e] s2] ev2]; [|reflexivity].
  destruct (conclude_trace t ps s2) as [Ht Hs].
  unfold trace_of, state_of, result_of in *.
  destruct (conclude t ps s2) as [[r s3] ev3]. simpl in *. subst.
  now rewrite app_nil_r.
Qed.

Ltac fits_in_front :=
  match goal with
  | |- transforms_use_fit ?h =>
      first
        [ change h with ([] ++ h)
        | match h with
          | ?a :: ?b :: ?c :: ?rest => change h with ([a; b; c] ++ rest)
          | ?a :: ?b :: ?rest => change h with ([a; b] ++ rest)
          end ]
  end.

Lemma good_history_cases (cg cs : list string) (mean scale : list float)
      (post : list Event) :
  (forall ev, In ev post ->
              ev = EvTransform LeGender (FittedLabels cg)
              \/ ev = EvTransform LeSmoking (FittedLabels cs)
              \/ ev = EvTransform Scaler (FittedScaler mean scale)) ->
  let h := [EvFit LeGender (FittedLabels cg); EvFit LeSmoking (FittedLabels cs);
            EvFit Scaler (FittedScaler mean scale)] ++ post in
  (forall o, count_fits o h = 1%nat) /\ transforms_use_fit h.
Proof.
  intros Hpost h. split.
  - intros o. unfold h, count_fits. rewrite List.filter_app, length_app.
    assert (Hz : List.filter (is_fit_of o) post = []).
    { clear h. induction post as [|ev post IH]; [reflexivity|].
      assert (Hev := Hpost ev (or_introl eq_refl)).
      destruct Hev as [-> | [-> | ->]]; simpl;
        apply IH; intros ev' Hin; apply Hpost; now right. }
    rewrite Hz. destruct o; reflexivity.
  - apply transforms_after_fits; [reflexivity|].
    intros o st Hin. destruct (Hpost _ Hin) as [E | [E | E]];
      injection E as -> ->; simpl; tauto.
Qed.

End OnePredictionCall.

Section C1.
Context `{NumpyRandom} `{Sklearn}.
Import Simple.

Ltac allowed_events :=
  let ev := fresh "ev" in
  let Hin := fresh "Hin" in
  intros ev Hin; unfold inference_events, category_events in Hin;
  repeat match type of Hin with
         | context [match ?x with _ => _ end] => destruct x
         end;
  simpl in Hin; intuition (subst; auto).

(** C1: in every call of [predict_cancer_type], whatever its outcome, no
    estimator is fitted more than once and every transform applies the
    state that an earlier fit of the same estimator produced.  When the call
    returns a prediction, each of the two label encoders and the scaler was
    fitted exactly once, the encoders on the gender and smoking columns of
    the generated table and the scaler on the training part of the split of
    its encoded rows, and the history is those fits followed by transforms
    that carry the very same classes and the very same mean and scale, the
    transforms of the patient's row included. *)
Theorem C1_encoders_fitted_once_and_reused (pd : gmap string PyVal) (s : rng_state) :
  let out := Simple.predict_cancer_type pd s in
  let cg := np_unique (map gender (training_table s)) in
  let cs := np_unique (map smoking_status (training_table s)) in
  (forall o, (count_fits o (trace_of out) <= 1)%nat)
  /\ transforms_use_fit (trace_of out)
  /\ (forall r, result_of out = Ok r ->
      exists mean scale X X_train X_test y_train y_test,
        encoded_table (training_table s) = Ok X
        /\ train_test_split X (map assign_label (training_table s)) (lit 2 1) 42
                            (map assign_label (training_table s))
           = Ok (X_train, X_test, y_train, y_test)
        /\ column_stats X_train = (mean, scale)
        /\ trace_of out
           = training_events cg cs mean scale ++ inference_events cg cs mean scale pd
        /\ forall o, count_fits o (trace_of out) = 1%nat).
Proof.
  intros out cg cs. subst out. rewrite predict_cancer_type_run.
  pose proof (train_cases s) as Ht. fold cg cs in Ht.
  destruct (train s) as [[rt s1] ev1]. unfold result_of, trace_of in Ht |- *.
  simpl in Ht.
  inversion Ht as [e E1 E2 | e E1 E2 | e E1 E2 | e mean scale E1 E2
                   | e mean scale E1 E2
                   | t mean scale X X_train X_test y_train y_test
                       Hg Hs HX Hsplit Hstats Hsc E1 E2]; subst rt; subst ev1.
  - simpl. split; [intros o; destruct o; unfold count_fits; cbn; lia|]. split.
    + intros h1 o st h2 Heq. destruct h1; discriminate.
    + intros r [=].
  - simpl. split; [intros o; destruct o; unfold count_fits; cbn; lia|]. split.
    + intros h1 o st h2 Heq.
      destruct h1 as [|? [|? ?]]; discriminate.
    + intros r [=].
  - simpl. split; [intros o; destruct o; unfold count_fits; cbn; lia|]. split.
    + intros h1 o st h2 Heq.
      destruct h1 as [|? [|? [|? ?]]]; discriminate.
    + intros r [=].
  - simpl.
    destruct (good_history_cases cg cs mean scale
                [EvTransform Scaler (FittedScaler mean scale)]) as [Hc Hu].
    { allowed_events. }
    split; [intros o; exact (Nat.eq_le_incl _ _ (Hc o))|]. split; [exact Hu|]. intros r [=].
  - simpl.
    destruct (good_history_cases cg cs mean scale
                [EvTransform Scaler (FittedScaler mean scale);
                 EvTransform Scaler (FittedScaler mean scale)]) as [Hc Hu].
    { allowed_events. }
    split; [intros o; exact (Nat.eq_le_incl _ _ (Hc o))|]. split; [exact Hu|]. intros r [=].
  - rewrite (encode_patient_run t pd s1 cg cs mean scale Hg Hs Hsc).
    destruct (category_code cg (pd !! "gender")) as [g|e].
    2:{ simpl.
        destruct (good_history_cases cg cs mean scale
                    ([EvTransform Scaler (FittedScaler mean scale);
                      EvTransform Scaler (FittedScaler mean scale)]
                     ++ category_events LeGender cg (pd !! "gender"))) as [Hc Hu].
        { allowed_events. }
        split; [intros o; exact (Nat.eq_le_incl _ _ (Hc o))|]. split; [exact Hu|]. intros r [=]. }
    destruct (category_code cs (pd !! "smoking_status")) as [sm|e].
    2:{ simpl.
        destruct (good_history_cases cg cs mean scale
                    ([EvTransform Scaler (FittedScaler mean scale);
                      EvTransform Scaler (FittedScaler mean scale)]
                     ++ category_events LeGender cg (pd !! "gender")
                     ++ category_events LeSmoking cs (pd !! "smoking_status")))
          as [Hc Hu].
        { allowed_events. }
        split; [intros o; exact (Nat.eq_le_incl _ _ (Hc o))|]. split; [exact Hu|]. intros r [=]. }
    destruct (res_mapM to_float ((numeric_features pd ++ [PInt g]) ++ [PInt sm]))
      as [row|e].
    2:{ simpl.
        destruct (good_history_cases cg cs mean scale
                    ([EvTransform Scaler (FittedScaler mean scale);
                      EvTransform Scaler (FittedScaler mean scale)]
                     ++ category_events LeGender cg (pd !! "gender")
                     ++ category_events LeSmoking cs (pd !! "smoking_status")))
          as [Hc Hu].
        { allowed_events. }
        split; [intros o; exact (Nat.eq_le_incl _ _ (Hc o))|]. split; [exact Hu|]. intros r [=]. }
    destruct (good_history_cases cg cs mean scale
                ([EvTransform Scaler (FittedScaler mean scale);
                  EvTransform Scaler (FittedScaler mean scale)]
                 ++ inference_events cg cs mean scale pd)) as [Hc Hu].
    { allowed_events. }
    destruct (res_mapM (scale_row mean scale) [row]) as [ps|e]; simpl.
    + split; [intros o; exact (Nat.eq_le_incl _ _ (Hc o))|]. split; [exact Hu|].
      intros r _. exists mean, scale, X, X_train, X_test, y_train, y_test.
      repeat split; try assumption.
    + split; [intros o; exact (Nat.eq_le_incl _ _ (Hc o))|]. split; [exact Hu|]. intros r [=].
Qed.

End C1.

(** ** Fitted classes and observed values *)

Lemma insert_sorted_In (x s : string) (l : list string) :
  In x (insert_sorted s l) -> x = s \/ In x l.
Proof.
  induction l as [|y l IH]; simpl.
  - intros [<-|[]]. now left.
  - destruct (String.compare s y); simpl; intros Hin.
    + now right.
    + destruct Hin as [<-|Hin]; [now left|now right].
    + destruct Hin as [<-|Hin]; [right; now left|].
      destruct (IH Hin) as [->|Hl]; [now left|right; now right].
Qed.

Lemma np_unique_In (x : string) (l : list string) : In x (np_unique l) -> In x l.
Proof.
  induction l as [|y l IH]; simpl; [tauto|].
  intros Hin. destruct (insert_sorted_In _ _ _ Hin) as [->|Hl]; [now left|].
  right. now apply IH.
Qed.

Lemma index_of_In (s : string) (l : list string) (i : nat) :
  index_of s l = Some i -> In s l.
Proof.
  revert i. induction l as [|y l IH]; simpl; [discriminate|]. intros i.
  destruct (String.eqb s y) eqn:E.
  - apply String.eqb_eq in E. now left.
  - destruct (index_of s l) as [j|]; [|discriminate]. intros _. right. now apply (IH j).
Qed.

Lemma existsb_eqb_In (c : string) (col : list string) :
  In c col -> existsb (String.eqb c) col = true.
Proof.
  intros Hin. apply existsb_exists. exists c. split; [easy|apply String.eqb_refl].
Qed.

(** A value that does not occur in the column the encoder was fitted on has
    no code. *)
Lemma encode_value_unobserved (col : list string) (v : PyVal) :
  observed col v = false -> encode_value (np_unique col) v = Raise unseen_labels.
Proof.
  destruct v as [z|x|c]; simpl; try reflexivity. intros Hobs.
  destruct (index_of c (np_unique col)) as [i|] eqn:E; [|reflexivity].
  apply index_of_In, np_unique_In, existsb_eqb_In in E. congruence.
Qed.

(** The only way a code can fail is the unseen-label error. *)
Lemma category_code_error (classes : list string) (v : option PyVal) (e : PyError) :
  category_code classes v = Raise e -> e = unseen_labels.
Proof.
  destruct v as [[z|x|c]|]; simpl; try congruence.
  destruct (index_of c classes); congruence.
Qed.

(** The first fitted class has code 0. *)
Lemma first_class_code (c : string) (classes : list string) :
  encode_value (c :: classes) (PStr c) = Ok 0%Z.
Proof. simpl. now rewrite String.eqb_refl. Qed.

Section C5C7.
Context `{NumpyRandom} `{Sklearn}.
Import Simple.

(** C5: when training succeeds and the patient gives a gender, or a smoking
    status, that does not occur in the corresponding column of the training
    table, [predict_cancer_type] raises scikit-learn's unseen-label error
    (a [ValueError]) and returns no prediction. *)
Theorem C5_unseen_category_aborts_prediction (pd : gmap string PyVal)
        (s : rng_state) (v : PyVal) :
  is_ok (result_of (train s)) = true ->
  (pd !! "gender" = Some v
   /\ observed (map gender (training_table s)) v = false)
  \/ (pd !! "smoking_status" = Some v
      /\ observed (map smoking_status (training_table s)) v = false) ->
  result_of (predict_cancer_type pd s) = Raise unseen_labels
  /\ is_ok (result_of (predict_cancer_type pd s)) = false.
Proof.
  intros Hok Hv.
  assert (Hr : result_of (predict_cancer_type pd s) = Raise unseen_labels);
    [|now rewrite Hr].
  rewrite predict_cancer_type_run.
  pose proof (train_cases s) as Ht.
  destruct (train s) as [[rt s1] ev1]. unfold result_of, trace_of in Ht, Hok |- *.
  simpl in Ht, Hok.
  inversion Ht as [e E1 E2 | e E1 E2 | e E1 E2 | e mean scale E1 E2
                   | e mean scale E1 E2
                   | t mean scale X X_train X_test y_train y_test
                       Hg Hs HX Hsplit Hstats Hsc E1 E2]; subst rt;
    try discriminate.
  rewrite (encode_patient_run t pd s1 _ _ mean scale Hg Hs Hsc).
  destruct Hv as [[Hpd Hobs] | [Hpd Hobs]].
  - rewrite Hpd. simpl category_code.
    now rewrite (encode_value_unobserved _ _ Hobs).
  - destruct (category_code _ (pd !! "gender")) as [g|e] eqn:Eg.
    + rewrite Hpd. simpl category_code.
      now rewrite (encode_value_unobserved _ _ Hobs).
    + simpl. now rewrite (category_code_error _ _ _ Eg).
Qed.

(** C7: two calls of [predict_cancer_type] on the same patient, the second
    one made in the state the first one leaves, return the same result:
    the same error, or predictions with the same label and the same
    confidence score; so does a call made in any other state of the random
    generator. *)
Theorem C7_two_runs_return_the_same (pd : gmap string PyVal) (s : rng_state) :
  let run1 := predict_cancer_type pd s in
  let run2 := predict_cancer_type pd (state_of run1) in
  result_of run2 = result_of run1
  /\ (forall s', result_of (predict_cancer_type pd s') = result_of run1)
  /\ forall r1 r2,
      result_of run1 = Ok r1 -> result_of run2 = Ok r2 ->
      predicted_cancer_type r2 = predicted_cancer_type r1
      /\ confidence_score r2 = confidence_score r1.
Proof.
  intros run1 run2.
  assert (E : run2 = run1) by apply predict_cancer_type_reseeds.
  rewrite E. split; [reflexivity|]. split.
  { intros s'. unfold run1. now rewrite (predict_cancer_type_reseeds pd s' s). }
  intros r1 r2 H1 H2. rewrite H1 in H2. injection H2 as <-. now split.
Qed.

End C5C7.

(** A patient whose gender is none of the generated ones. *)
Definition patient_other_gender : gmap string PyVal :=
  list_to_map [("age", PInt 68); ("gender", PStr "Other");
               ("smoking_status", PStr "Former")].

Lemma C5_witness_other_gender :
  result_of (@Simple.predict_cancer_type Toy.lcg_random Toy.toy_sklearn
               patient_other_gender 0%Z) = Raise unseen_labels
  /\ is_ok (result_of (@Simple.predict_cancer_type Toy.lcg_random Toy.toy_sklearn
                         patient_other_gender 0%Z)) = false.
Proof.
  apply (@C5_unseen_category_aborts_prediction Toy.lcg_random Toy.toy_sklearn
           patient_other_gender 0%Z (PStr "Other")).
  - vm_compute. reflexivity.
  - left. split.
    + vm_compute. reflexivity.
    + vm_compute. reflexivity.
Defined.

(** ** Missing columns *)

Section C6.
Context `{NumpyRandom} `{Sklearn}.

Lemma numeric_features_missing (pd : gmap string PyVal) (i : nat) (col : string) :
  Simple.feature_columns !! i = Some col -> pd !! col = None ->
  Simple.numeric_features pd !! i = Simple.defaults !! col.
Proof.
  intros Hcol Hmiss.
  assert (Hd : is_Some (Simple.defaults !! col)).
  { assert (HF : Forall (fun c => is_Some (Simple.defaults !! c))
                        Simple.feature_columns).
    { unfold Simple.feature_columns.
      repeat (apply List.Forall_cons; [eexists; vm_compute; reflexivity|]).
      apply List.Forall_nil. }
    rewrite Forall_forall in HF. apply HF.
    eapply list_elem_of_lookup_2. eassumption. }
  destruct Hd as [d Hd]. rewrite Hd. unfold Simple.numeric_features.
  match goal with
  | |- map ?f ?l !! i = _ => change (map f l) with (f <$> l)
  end.
  rewrite list_lookup_fmap, Hcol. simpl. now rewrite Hmiss, Hd.
Qed.

Lemma complete_row_missing (names : list string) (dfp : gmap string PyVal)
      (i : nat) (f : string) :
  names !! i = Some f -> dfp !! f = None ->
  CancerPrediction.complete_row names dfp !! i = Some (PInt 0).
Proof.
  unfold CancerPrediction.complete_row. revert i.
  induction names as [|n names IH]; intros [|i]; simpl; try discriminate.
  - intros [= ->] ->. reflexivity.
  - apply IH.
Qed.

Lemma encode_categoricals_absent (self : CancerPrediction.CancerPredictor)
      (pd : gmap string PyVal) :
  pd !! "gender" = None -> pd !! "smoking_history" = None ->
  CancerPrediction.encode_categoricals self CancerPrediction.categorical_cols pd
  = ret pd.
Proof. intros Hg Hs. simpl. now rewrite Hg, Hs. Qed.

Lemma bind_ext {A B} (m : M A) (k k' : A -> M B) (s : rng_state) :
  (forall a s1, k a s1 = k' a s1) -> bind m k s = bind m k' s.
Proof.
  intros Hk. unfold bind. destruct (m s) as [[[a|e] s1] ev1]; [|reflexivity].
  now rewrite Hk.
Qed.

(** C6 (as amended): in [predict_cancer_type], a numeric column the patient
    does not give is filled with its entry of the table of defaults (age 65,
    bmi 25, family_history 0, blood_pressure 120, cholesterol 200, glucose
    100, white_blood_cells 7, platelet_count 250, hemoglobin 14,
    symptom_count 3, fatigue_level 3, pain_level 3, and 0 for the three
    flags), a categorical column the patient does not give gets code 0,
    which is the code of the first fitted class, and the completed row goes
    through the fitted scaler.  In [CancerPredictor.predict_cancer] a column
    the patient does not give, numeric or categorical, is filled with 0 (a
    categorical column that is absent stays absent through the encoding
    step), and the completed row goes through the fitted scaler. *)
Theorem C6_missing_columns_are_filled_then_scaled
        (t : Simple.Trained) (pd : gmap string PyVal) (s : rng_state)
        (cg cs : list string) (mean scale : list float) :
  classes_ (Simple.le_gender t) = Some cg ->
  classes_ (Simple.le_smoking t) = Some cs ->
  fitted_stats (Simple.scaler t) = Some (mean, scale) ->
  map (fun col => Simple.defaults !! col) Simple.feature_columns
  = map (fun z => Some (PInt z))
        [65; 25; 0; 120; 200; 100; 7; 250; 14; 3; 3; 3; 0; 0; 0]%Z
  /\ (forall i col,
         Simple.feature_columns !! i = Some col -> pd !! col = None ->
         Simple.numeric_features pd !! i = Simple.defaults !! col)
  /\ category_code cg None = Ok 0%Z
  /\ (forall c rest, cg = c :: rest -> category_code cg (Some (PStr c)) = Ok 0%Z)
  /\ result_of (Simple.encode_patient t pd s)
     = res_bind (category_code cg (pd !! "gender")) (fun g =>
       res_bind (category_code cs (pd !! "smoking_status")) (fun sm =>
       res_bind (res_mapM to_float
                          (Simple.numeric_features pd ++ [PInt g; PInt sm]))
                (fun row => res_mapM (scale_row mean scale) [row])))
  /\ (forall names (dfp : gmap string PyVal) i f,
         names !! i = Some f -> dfp !! f = None ->
         CancerPrediction.complete_row names dfp !! i = Some (PInt 0))
  /\ (forall (self : CancerPrediction.CancerPredictor) (pd' : gmap string PyVal),
         pd' !! "gender" = None -> pd' !! "smoking_history" = None ->
         CancerPrediction.encode_categoricals
           self CancerPrediction.categorical_cols pd' = ret pd')
  /\ (forall (self : CancerPrediction.CancerPredictor) rf names
             (pd' : gmap string PyVal),
         CancerPrediction.model self = Some rf ->
         CancerPrediction.feature_names self = Some names ->
         exists k, forall s',
           CancerPrediction.predict_cancer self pd' s'
           = bind (CancerPrediction.encode_categoricals
                     self CancerPrediction.categorical_cols pd')
                  (fun dfp =>
                     bind (lift (res_mapM to_float
                                   (CancerPrediction.complete_row names dfp)))
                          (fun row =>
                             bind (StandardScaler_transform
                                     Scaler (CancerPrediction.scaler self) [row])
                                  k)) s').
Proof.
  intros Hg Hs Hsc. repeat split.
  - apply numeric_features_missing.
  - intros c rest ->. apply first_class_code.
  - rewrite (encode_patient_run t pd s cg cs mean scale Hg Hs Hsc).
    destruct (category_code cg (pd !! "gender")) as [g|e]; [|reflexivity].
    destruct (category_code cs (pd !! "smoking_status")) as [sm|e]; [|reflexivity].
    replace ((Simple.numeric_features pd ++ [PInt g]) ++ [PInt sm])
      with (Simple.numeric_features pd ++ [PInt g; PInt sm])
      by (now rewrite <- app_assoc).
    unfold res_bind at 1 2.
    destruct (res_mapM to_float (Simple.numeric_features pd ++ [PInt g; PInt sm]));
      reflexivity.
  - apply complete_row_missing.
  - apply encode_categoricals_absent.
  - intros self rf names pd' Hm Hn.
    unfold CancerPrediction.predict_cancer. rewrite Hm, Hn.
    eexists. intros s'. apply bind_ext. intros dfp s1.
    rewrite (bind_pure_ok (lift (Ok names)) _ s1 names s1 eq_refl).
    reflexivity.
Qed.

End C6.

(** Objects as a training run leaves them, for the small instances. *)
Definition fitted_objects : @Simple.Trained Toy.toy_sklearn :=
  {| Simple.le_gender := {| classes_ := Some ["Female"; "Male"] |};
     Simple.le_smoking := {| classes_ := Some ["Current"; "Former"; "Never"] |};
     Simple.scaler :=
       {| fitted_stats := Some (repeat (of_Z 0) 17, repeat (of_Z 1) 17) |};
     Simple.rf_model :=
       {| rf_classes_ := ["Breast"; "Lung"];
          rf_forest := ([lit 75 2; lit 25 2] : @forest Toy.toy_sklearn) |};
     Simple.accuracy := of_Z 1 |}.

(** A patient who gives nothing: the row that reaches the classifier is the
    row of defaults with two zero codes, scaled. *)
Lemma C6_witness_empty_patient :
  result_of (@Simple.encode_patient Toy.lcg_random Toy.toy_sklearn
               fitted_objects ∅ 0%Z)
  = Ok [map of_Z [65; 25; 0; 120; 200; 100; 7; 250; 14; 3; 3; 3; 0; 0; 0; 0; 0]%Z].
Proof.
  destruct (@C6_missing_columns_are_filled_then_scaled
              Toy.lcg_random Toy.toy_sklearn fitted_objects ∅ 0%Z
              ["Female"; "Male"] ["Current"; "Former"; "Never"]
              (repeat (of_Z 0) 17) (repeat (of_Z 1) 17)
              eq_refl eq_refl eq_refl)
    as (_ & _ & _ & _ & E & _).
  rewrite E. vm_compute. reflexivity.
Defined.

(** C6 fails for [CancerPredictor.predict_cancer]: a patient who gives no
    age gets age 0 there, not 65. *)
Lemma C6_counterexample_cancer_predictor :
  CancerPrediction.frame_columns !! 0%nat = Some "age"
  /\ CancerPrediction.complete_row CancerPrediction.frame_columns
                                   (∅ : gmap string PyVal) !! 0%nat
     = Some (PInt 0)
  /\ PInt 0 <> PInt 65.
Proof. repeat split. discriminate. Qed.

(** ** Confidence *)







Lemma SFltb_irrefl (x : float) : SFltb x x = false.
Proof.
  unfold SFltb. destruct x as [sx|sx| |sx mx ex]; try (destruct sx; reflexivity);
    try reflexivity.
  rewrite PyFloatFacts.SFcompare_finite. unfold PyFloatFacts.cmp_em.
  rewrite Z.compare_refl.
  change (Pos.compare_cont Eq mx mx) with (Pos.compare mx mx).
  rewrite Pos.compare_refl. now destruct sx.
Qed.

(** The running maximum of [max]: it is one of the items seen, and no item
    seen is greater. *)
Lemma fold_max_spec (rest : list float) (m0 : float) (seen : list float) :
  In m0 seen -> (forall x, In x seen -> gt x m0 = false) ->
  let m := fold_left (fun m y => if gt y m then y else m) rest m0 in
  In m (seen ++ rest) /\ forall x, In x (seen ++ rest) -> gt x m = false.
Proof.
  revert m0 seen. induction rest as [|y rest IH]; intros m0 seen Hin Hmax; simpl.
  - rewrite app_nil_r. now split.
  - replace (seen ++ y :: rest) with ((seen ++ [y]) ++ rest)
      by (now rewrite <- app_assoc).
    destruct (gt y m0) eqn:E.
    + apply IH.
      * apply in_or_app. right. now left.
      * intros x Hx. apply in_app_or in Hx. destruct Hx as [Hx|[<-|[]]].
        -- destruct (gt x y) eqn:Exy; [|reflexivity].
           rewrite <- (Hmax x Hx). symmetry.
           exact (PyFloatFacts.gt_trans _ _ _ Exy E).
        -- apply SFltb_irrefl.
    + apply IH.
      * apply in_or_app. now left.
      * intros x Hx. apply in_app_or in Hx. destruct Hx as [Hx|[<-|[]]].
        -- now apply Hmax.
        -- exact E.
Qed.

Lemma py_max_spec (xs : list float) (m : float) :
  py_max xs = Ok m -> In m xs /\ forall x, In x xs -> gt x m = false.
Proof.
  destruct xs as [|x0 rest]; simpl; [discriminate|]. intros [= <-].
  apply (fold_max_spec rest x0 [x0]).
  - now left.
  - intros x [<-|[]]. apply SFltb_irrefl.
Qed.

Section SimpleConfidence.
Context `{NumpyRandom} `{Sklearn}.

(** In [predict_cancer_type] the confidence is [max(probabilities)]: an
    entry of the forest's probability row that no entry exceeds, and the
    returned distribution pairs that row with the forest's own classes. *)
Lemma simple_confidence_is_the_maximum (t : Simple.Trained)
      (ps : list (list float)) (s : rng_state) (r : Simple.PredictionResult) :
  result_of (Simple.conclude t ps s) = Ok r ->
  exists probabilities,
    Simple.first (predict_proba (Simple.rf_model t) ps) = Ok probabilities
    /\ In (Simple.confidence_score r) probabilities
    /\ (forall p, In p probabilities -> gt p (Simple.confidence_score r) = false)
    /\ Simple.all_probabilities r
       = dict_zip (rf_classes_ (Simple.rf_model t)) probabilities.
Proof.
  unfold Simple.conclude, bind, lift, ret, result_of.
  destruct (predict (Simple.rf_model t) ps) as [p|e]; [|discriminate].
  destruct (Simple.first p) as [pc|e]; [|discriminate].
  destruct (Simple.first (predict_proba (Simple.rf_model t) ps)) as [pr|e];
    [|discriminate].
  destruct (py_max pr) as [c|e] eqn:Emax; [|discriminate].
  simpl. intros [= <-]. simpl. exists pr.
  destruct (py_max_spec pr c Emax) as [Hin Hmax]. now repeat split.
Qed.

End SimpleConfidence.

(** ** The explanation templates *)

Module FallbackFacts.
Import Fallback.

(** A dictionary value that the comparisons of the templates accept. *)
Definition is_number (v : option PyVal) : bool :=
  match v with
  | Some (PStr _) => false
  | _ => true
  end.

Lemma cancer_info_keys_NoDup : NoDup (cancer_info_items.*1).
Proof.
  simpl. repeat (apply NoDup_cons_2;
                 [rewrite ?not_elem_of_cons; repeat split;
                  (discriminate || apply not_elem_of_nil)|]).
  apply NoDup_nil_2.
Qed.

Lemma cancer_info_known (ty : string) (info : CancerInfo) :
  In (ty, info) cancer_info_items -> cancer_info !! ty = Some info.
Proof.
  intros Hin. apply elem_of_list_to_map; [apply cancer_info_keys_NoDup|].
  now apply list_elem_of_In.
Qed.

Lemma cancer_info_unknown (ty : string) :
  ~ In ty (map fst cancer_info_items) -> cancer_info !! ty = None.
Proof.
  intros Hnin. apply not_elem_of_list_to_map. intros Hin. apply Hnin.
  apply list_elem_of_In. exact Hin.
Qed.

Lemma py_gt_error (v : PyVal) (n : Z) (e : PyError) :
  py_gt v n = Raise e -> e = TypeError.
Proof. destruct v; simpl; congruence. Qed.

Lemma py_gt_number (v : PyVal) (n : Z) :
  is_number (Some v) = true -> is_ok (py_gt v n) = true.
Proof. destruct v; simpl; congruence. Qed.


Lemma res_bind_error {A B} (r : res A) (k : A -> res B) (e : PyError) :
  res_bind r k = Raise e ->
  r = Raise e \/ exists a, r = Ok a /\ k a = Raise e.
Proof. destruct r as [a|e']; simpl; [right; now exists a | left; congruence]. Qed.

Definition bmi_of (medical_data : option (gmap string PyVal)) : option PyVal :=
  match medical_data with
  | Some md => md !! "bmi"
  | None => None
  end.

Lemma _identify_risk_factors_error age gender md info e :
  _identify_risk_factors age gender md info = Raise e -> e = TypeError.
Proof.
  unfold _identify_risk_factors. intros E.
  apply res_bind_error in E. destruct E as [E|(a & _ & E)]; [|discriminate].
  destruct md as [m|]; [|discriminate].
  destruct (bool_decide (m ≠ ∅)); [|discriminate].
  apply res_bind_error in E. destruct E as [E|(a & _ & E)]; [|discriminate].
  exact (py_gt_error _ _ _ E).
Qed.

Lemma _identify_risk_factors_ok age gender md info :
  is_number (bmi_of md) = true ->
  is_ok (_identify_risk_factors age gender md info) = true.
Proof.
  unfold _identify_risk_factors, bmi_of. intros Hb.
  destruct md as [m|]; [|reflexivity].
  destruct (bool_decide (m ≠ ∅)); [|reflexivity].
  destruct (m !! "bmi") as [[z|x|c]|]; try discriminate; reflexivity.
Qed.

Section WithFormatting.
Variable format_percent1 : float -> string.
Variable str_float : float -> string.

Lemma _analyze_symptoms_error sy e :
  _analyze_symptoms str_float sy = Raise e -> e = TypeError.
Proof.
  unfold _analyze_symptoms. intros E.
  repeat match type of E with
         | res_bind ?r _ = Raise _ =>
             let a := fresh "a" in
             let Ea := fresh "Ea" in
             apply res_bind_error in E; destruct E as [E|(a & Ea & E)]
         | (if ?b then _ else _) = Raise _ => destruct b
         | py_gt _ _ = Raise _ => exact (py_gt_error _ _ _ E)
         | Ok _ = Raise _ => discriminate E
         end.
Qed.

Lemma _analyze_symptoms_ok sy :
  is_number (sy !! "fatigue_level") = true ->
  is_number (sy !! "pain_level") = true ->
  is_number (sy !! "symptom_count") = true ->
  is_ok (_analyze_symptoms str_float sy) = true.
Proof.
  unfold _analyze_symptoms. intros Hf Hp Hc.
  destruct (sy !! "fatigue_level") as [[z1|x1|c1]|]; try discriminate;
    destruct (sy !! "pain_level") as [[z2|x2|c2]|]; try discriminate;
    destruct (sy !! "symptom_count") as [[z3|x3|c3]|]; try discriminate;
    simpl;
    repeat match goal with
           | |- context [if ?b then _ else _] => destruct b; simpl
           end;
    reflexivity.
Qed.

End WithFormatting.

End FallbackFacts.

Section Formatter.
Import Fallback FallbackFacts.
Variable format_percent1 : float -> string.
Variable str_float : float -> string.

(** The record the generator builds once the block [info] is chosen. *)
Definition assemble (patient_name : string) (age : Z)
           (gender predicted_cancer_type : string) (confidence_score : float)
           (symptoms : gmap string PyVal) (medical_data : option (gmap string PyVal))
           (info : CancerInfo) : res Explanation :=
  res_bind (_generate_explanation format_percent1 str_float patient_name age gender
              predicted_cancer_type confidence_score symptoms medical_data info)
           (fun text =>
  let recs := _generate_recommendations predicted_cancer_type symptoms medical_data
                                        info in
  let steps := _generate_next_steps predicted_cancer_type info in
  Ok {| explanation := text;
        recommendations := recs;
        next_steps := steps;
        confidence_interpretation := _interpret_confidence confidence_score;
        full_response := text +:+ "

RECOMMENDATIONS:
" +:+ recs +:+ "

NEXT STEPS:
" +:+ steps |}).

Lemma generate_doctor_explanation_with (info : CancerInfo)
      patient_name age gender ty confidence symptoms medical_data :
  default lung_info (cancer_info !! ty) = info ->
  generate_doctor_explanation format_percent1 str_float patient_name age gender ty
                              confidence symptoms medical_data
  = assemble patient_name age gender ty confidence symptoms medical_data info.
Proof.
  intros <-. unfold generate_doctor_explanation, assemble, cancer_info_item.
  rewrite (cancer_info_known "Lung" lung_info) by (simpl; tauto).
  reflexivity.
Qed.

(** C8: the fallback generator is a function of its arguments that
    (1) takes the prose block stored under the predicted type when that type
    is a key of the table, and the block of Lung otherwise,
    (2) builds explanation, recommendations and next steps from that block,
    (3) reads the confidence through the bands >= 0.9, >= 0.7, >= 0.5,
    >= 0.3, else, in that order, and
    (4) raises nothing but a [TypeError], and returns the record whenever
    the fatigue, pain, symptom-count and BMI entries are numbers or absent. *)
Theorem C8_fallback_formatter_is_a_lookup
        (patient_name : string) (age : Z) (gender ty : string) (confidence : float)
        (symptoms : gmap string PyVal) (medical_data : option (gmap string PyVal)) :
  let result :=
    generate_doctor_explanation format_percent1 str_float patient_name age gender
                                ty confidence symptoms medical_data in
  (exists info,
      ((In (ty, info) cancer_info_items)
       \/ (~ In ty (map fst cancer_info_items) /\ info = lung_info))
      /\ result = assemble patient_name age gender ty confidence symptoms
                           medical_data info)
  /\ (ge confidence (lit 9 1) = true ->
      _interpret_confidence confidence
      = "Very high confidence - multiple strong indicators present")
  /\ (ge confidence (lit 9 1) = false -> ge confidence (lit 7 1) = true ->
      _interpret_confidence confidence
      = "High confidence - several risk factors align")
  /\ (ge confidence (lit 9 1) = false -> ge confidence (lit 7 1) = false ->
      ge confidence (lit 5 1) = true ->
      _interpret_confidence confidence
      = "Moderate confidence - some indicators present")
  /\ (ge confidence (lit 9 1) = false -> ge confidence (lit 7 1) = false ->
      ge confidence (lit 5 1) = false -> ge confidence (lit 3 1) = true ->
      _interpret_confidence confidence = "Low confidence - limited indicators")
  /\ (ge confidence (lit 9 1) = false -> ge confidence (lit 7 1) = false ->
      ge confidence (lit 5 1) = false -> ge confidence (lit 3 1) = false ->
      _interpret_confidence confidence
      = "Very low confidence - minimal risk factors")
  /\ (forall r, result = Ok r ->
                confidence_interpretation r = _interpret_confidence confidence)
  /\ (forall e, result = Raise e -> e = TypeError)
  /\ (is_number (symptoms !! "fatigue_level") = true ->
      is_number (symptoms !! "pain_level") = true ->
      is_number (symptoms !! "symptom_count") = true ->
      is_number (bmi_of medical_data) = true ->
      is_ok result = true).
Proof.
  intros result.
  assert (Hsel : exists info,
             ((In (ty, info) cancer_info_items)
              \/ (~ In ty (map fst cancer_info_items) /\ info = lung_info))
             /\ default lung_info (cancer_info !! ty) = info).
  { destruct (in_dec String.string_dec ty (map fst cancer_info_items)) as [Hin|Hnin].
    - apply in_map_iff in Hin. destruct Hin as ([k info] & Hk & Hin).
      simpl in Hk. subst k. exists info. split; [now left|].
      now rewrite (cancer_info_known ty info Hin).
    - exists lung_info. split; [now right|].
      now rewrite (cancer_info_unknown ty Hnin). }
  destruct Hsel as (info & Hinfo & Hdef).
  assert (Hres : result = assemble patient_name age gender ty confidence symptoms
                                   medical_data info)
    by (apply generate_doctor_explanation_with; exact Hdef).
  split; [exists info; now split|].
  unfold _interpret_confidence.
  repeat split.
  - now intros ->.
  - now intros -> ->.
  - now intros -> -> ->.
  - now intros -> -> -> ->.
  - now intros -> -> -> ->.
  - rewrite Hres. unfold assemble. intros r Hr.
    destruct (_generate_explanation _ _ _ _ _ _ _ _ _ _) as [text|e];
      simpl in Hr; [|discriminate]. now injection Hr as <-.
  - rewrite Hres. unfold assemble, _generate_explanation. intros e He.
    apply res_bind_error in He. destruct He as [He|(a & _ & He)]; [|discriminate].
    apply res_bind_error in He. destruct He as [He|(a & _ & He)].
    + exact (_identify_risk_factors_error _ _ _ _ _ He).
    + apply res_bind_error in He. destruct He as [He|(b & _ & He)]; [|discriminate].
      exact (_analyze_symptoms_error _ _ _ He).
  - intros Hf Hp Hc Hb. rewrite Hres. unfold assemble, _generate_explanation.
    pose proof (_identify_risk_factors_ok age gender medical_data info Hb) as H1.
    pose proof (_analyze_symptoms_ok str_float symptoms Hf Hp Hc) as H2.
    destruct (_identify_risk_factors age gender medical_data info);
      [|discriminate].
    destruct (_analyze_symptoms str_float symptoms); [|discriminate].
    reflexivity.
Qed.

End Formatter.

(** Whether [needle] occurs in [hay]. *)
Fixpoint occurs (needle hay : string) : bool :=
  String.prefix needle hay
  || match hay with
     | EmptyString => false
     | String _ hay' => occurs needle hay'
     end.



Section UnlistedTypes.
Import Fallback FallbackFacts.
Variable format_percent1 : float -> string.
Variable str_float : float -> string.


End UnlistedTypes.

(** The sample of the source file: John Smith, 65, predicted Lung at 0.78. *)
Definition sample_symptoms : gmap string PyVal :=
  list_to_map [("fatigue_level", PInt 4); ("pain_level", PInt 3);
               ("weight_loss", PInt 1); ("night_sweats", PInt 0);
               ("appetite_loss", PInt 1); ("symptom_count", PInt 4)].

Definition sample_medical_data : gmap string PyVal :=
  list_to_map [("bmi", PFloat (lit 285 1)); ("smoking_status", PStr "Former");
               ("family_history", PInt 1); ("blood_pressure", PInt 0);
               ("cholesterol", PInt 0); ("glucose", PInt 0)].

Example sample_explanation_is_returned :
  match Fallback.generate_doctor_explanation
          (fun _ => "78.0%") (fun _ => "28.5") "John Smith" 65 "Male" "Lung"
          (lit 78 2) sample_symptoms (Some sample_medical_data) with
  | Ok r =>
      Fallback.confidence_interpretation r
      = "High confidence - several risk factors align"
      /\ occurs "- Advanced age" (Fallback.explanation r) = false
      /\ occurs "- Age over 50 (moderate risk factor)
- Former smoking history (elevated risk)
- Family history of cancer (genetic predisposition)" (Fallback.explanation r) = true
      /\ occurs "- Significant fatigue (level 4/5) - concerning symptom
- Moderate pain (level 3/5) - should be assessed
- Unexplained weight loss - important warning sign
- Loss of appetite - concerning symptom
- Multiple symptoms present (4) - comprehensive evaluation needed"
                (Fallback.explanation r) = true
  | Raise _ => False
  end.
Proof. vm_compute. repeat split. Qed.

(** A call on the small instances returns a prediction. *)
Example small_instances_return_a_prediction :
  is_ok (result_of (@Simple.predict_cancer_type Toy.lcg_random Toy.toy_sklearn
                      (<["age" := PInt 68]> (<["gender" := PStr "Female"]> ∅))
                      0%Z)) = true.
Proof. vm_compute. reflexivity. Qed.

(** * Further facts *)

(** ** The order on strings and [np.unique] *)

Lemma ascii_compare_Lt_trans (a b c : ascii) :
  Ascii.compare a b = Lt -> Ascii.compare b c = Lt -> Ascii.compare a c = Lt.
Proof.
  unfold Ascii.compare. rewrite !N.compare_lt_iff. lia.
Qed.

Lemma string_compare_Lt_trans (s1 s2 s3 : string) :
  String.compare s1 s2 = Lt -> String.compare s2 s3 = Lt ->
  String.compare s1 s3 = Lt.
Proof.
  revert s2 s3. induction s1 as [|a s1 IH]; intros [|b s2] [|c s3]; simpl;
    try discriminate; try reflexivity.
  destruct (Ascii.compare a b) eqn:Eab; try discriminate.
  - apply Ascii.compare_eq_iff in Eab. subst b.
    destruct (Ascii.compare a c) eqn:Eac; try discriminate; try reflexivity.
    apply IH.
  - intros _. destruct (Ascii.compare b c) eqn:Ebc; try discriminate.
    + apply Ascii.compare_eq_iff in Ebc. subst c. now rewrite Eab.
    + intros _. now rewrite (ascii_compare_Lt_trans a b c Eab Ebc).
Qed.

Lemma string_compare_refl (s : string) : String.compare s s = Eq.
Proof.
  induction s as [|a s IH]; simpl; [reflexivity|].
  unfold Ascii.compare. now rewrite N.compare_refl.
Qed.

(** Strictly increasing lists of strings. *)
Fixpoint increasing (l : list string) : Prop :=
  match l with
  | [] => True
  | x :: l' =>
      match l' with
      | [] => True
      | y :: _ => String.compare x y = Lt
      end /\ increasing l'
  end.

Lemma increasing_head_lt (x : string) (l : list string) :
  increasing (x :: l) -> forall y, In y l -> String.compare x y = Lt.
Proof.
  revert x. induction l as [|z l IH]; intros x Hinc y Hin; [destruct Hin|].
  destruct Hinc as [Hxz Hinc]. destruct Hin as [<-|Hin]; [exact Hxz|].
  apply (string_compare_Lt_trans x z y Hxz). now apply IH.
Qed.

Lemma increasing_NoDup (l : list string) : increasing l -> NoDup l.
Proof.
  induction l as [|x l IH]; intros Hinc; [apply NoDup_nil_2|].
  apply NoDup_cons_2.
  - intros Hin. apply list_elem_of_In in Hin.
    pose proof (increasing_head_lt x l Hinc x Hin) as Hlt.
    rewrite string_compare_refl in Hlt. discriminate.
  - apply IH. now destruct Hinc.
Qed.

Lemma insert_sorted_increasing (s : string) (l : list string) :
  increasing l -> increasing (insert_sorted s l).
Proof.
  induction l as [|x l IH]; intros Hinc; simpl; [easy|].
  destruct (String.compare s x) eqn:E.
  - exact Hinc.
  - split; [exact E|exact Hinc].
  - destruct Hinc as [Hx Hinc]. specialize (IH Hinc).
    split; [|exact IH].
    destruct l as [|y l]; simpl in *.
    + rewrite String.compare_antisym, E. reflexivity.
    + destruct (String.compare s y) eqn:E2.
      * exact Hx.
      * rewrite String.compare_antisym, E. reflexivity.
      * exact Hx.
Qed.

Lemma np_unique_increasing (y : list string) : increasing (np_unique y).
Proof.
  induction y as [|x y IH]; simpl; [exact I|]. now apply insert_sorted_increasing.
Qed.

Lemma insert_sorted_In_iff (x s : string) (l : list string) :
  In x (insert_sorted s l) <-> x = s \/ In x l.
Proof.
  split; [apply insert_sorted_In|].
  induction l as [|y l IH]; simpl.
  - intros [->|[]]. now left.
  - destruct (String.compare s y) eqn:E; simpl.
    + apply String.compare_eq_iff in E. subst y. intros [->|H]; [now left|exact H].
    + intros [->|H]; [now left|now right].
    + intros [->|[<-|H]].
      * right. apply IH. now left.
      * now left.
      * right. apply IH. now right.
Qed.

Lemma np_unique_In_iff (x : string) (l : list string) :
  In x (np_unique l) <-> In x l.
Proof.
  induction l as [|y l IH]; simpl; [tauto|].
  rewrite insert_sorted_In_iff, IH. intuition congruence.
Qed.

Lemma index_of_lookup (s : string) (l : list string) (i : nat) :
  index_of s l = Some i -> l !! i = Some s.
Proof.
  revert i. induction l as [|y l IH]; simpl; [discriminate|]. intros i.
  destruct (String.eqb s y) eqn:E.
  - apply String.eqb_eq in E. subst y. now intros [= <-].
  - destruct (index_of s l) as [j|]; [|discriminate]. intros [= <-]. now apply IH.
Qed.

Lemma index_of_is_Some (s : string) (l : list string) :
  In s l -> is_Some (index_of s l).
Proof.
  induction l as [|y l IH]; simpl; [tauto|]. intros Hin.
  destruct (String.eqb s y) eqn:E; [now eexists|].
  apply String.eqb_neq in E. destruct Hin as [->|Hin]; [congruence|].
  destruct (IH Hin) as [j ->]. now eexists.
Qed.

(** In a list without repetition the position of an entry is its index. *)
Lemma index_of_NoDup (l : list string) (i : nat) (s : string) :
  NoDup l -> l !! i = Some s -> index_of s l = Some i.
Proof.
  intros Hnd. revert i. induction Hnd as [|y l Hy Hnd IH]; intros [|i]; simpl;
    try discriminate.
  - intros [= ->]. now rewrite String.eqb_refl.
  - intros Hl. destruct (String.eqb s y) eqn:E.
    + apply String.eqb_eq in E. subst y. exfalso. apply Hy.
      eapply list_elem_of_lookup_2. eassumption.
    + now rewrite (IH i Hl).
Qed.

(** ** What the generators draw *)

Section Draws.
Context `{NumpyRandom}.

Lemma np_random_randint_range (low high : Z) (n : nat) (s : rng_state) :
  (low < high)%Z ->
  exists xs s', pure_ok (np_random_randint low high n) s xs s' /\ length xs = n
                /\ Forall (fun x => (low <= x < high)%Z) xs.
Proof.
  intros Hlh. unfold np_random_randint.
  destruct (with_rng_draws (rk_below (Z.to_nat (high - low))) n s)
    as (idx & s' & E & L & Hidx).
  assert (Hlt : Forall (fun i => (i < Z.to_nat (high - low))%nat) idx).
  { rewrite Hidx. apply draw_n_Forall. intros s0. apply rk_below_lt. lia. }
  exists (map (fun i => (low + Z.of_nat i)%Z) idx), s'. repeat split.
  - unfold pure_ok. now rewrite (bind_pure_ok _ _ _ _ _ E).
  - now rewrite length_map.
  - clear E L Hidx. induction Hlt as [|i idx Hi Hlt IH]; simpl; constructor;
      [lia|exact IH].
Qed.

End Draws.

Lemma res_mapM_seq_lookup {B} (f : nat -> option B) (err : PyError) (n a : nat)
      (ys : list B) :
  res_mapM (fun i => match f i with Some r => Ok r | None => Raise err end)
           (seq a n) = Ok ys ->
  forall i r, ys !! i = Some r -> f (a + i)%nat = Some r.
Proof.
  revert a ys. induction n as [|n IH]; intros a ys; simpl.
  - intros [= <-] i r Hi. destruct i; discriminate.
  - destruct (f a) as [r0|] eqn:Ea; simpl; [|discriminate].
    destruct (res_mapM _ (seq (S a) n)) as [ys'|e] eqn:E; simpl; [|discriminate].
    intros [= <-] [|i] r; simpl.
    + intros [= <-]. now rewrite Nat.add_0_r.
    + intros Hi. rewrite <- Nat.add_succ_comm. now apply (IH (S a) ys').
Qed.

(** The values the generator of [predict_cancer_type] can put in a row:
    the categorical columns are drawn from fixed lists, the two levels from
    1 to 5, the flags from 0 and 1. *)
Definition generated_values (r : Simple.Row) : Prop :=
  In (Simple.gender r) ["Male"; "Female"]
  /\ In (Simple.smoking_status r) ["Never"; "Former"; "Current"]
  /\ In (Simple.family_history r) [0; 1]%Z
  /\ (1 <= Simple.fatigue_level r < 6)%Z
  /\ (1 <= Simple.pain_level r < 6)%Z
  /\ In (Simple.weight_loss r) [0; 1]%Z
  /\ In (Simple.night_sweats r) [0; 1]%Z
  /\ In (Simple.appetite_loss r) [0; 1]%Z.

Lemma Forall_lookup_In {A} (P : A -> Prop) (l : list A) (i : nat) (x : A) :
  Forall P l -> l !! i = Some x -> P x.
Proof.
  intros HF Hl. rewrite Forall_forall in HF. apply HF.
  eapply list_elem_of_lookup_2. eassumption.
Qed.

Lemma simple_row_at_values (d : Simple.Columns) (i : nat) (r : Simple.Row) :
  Simple.row_at d i = Some r ->
  Forall (fun x => In x ["Male"; "Female"]) (Simple.c_gender d) ->
  Forall (fun x => In x ["Never"; "Former"; "Current"]) (Simple.c_smoking_status d) ->
  Forall (fun x => In x [0; 1]%Z) (Simple.c_family_history d) ->
  Forall (fun x => (1 <= x < 6)%Z) (Simple.c_fatigue_level d) ->
  Forall (fun x => (1 <= x < 6)%Z) (Simple.c_pain_level d) ->
  Forall (fun x => In x [0; 1]%Z) (Simple.c_weight_loss d) ->
  Forall (fun x => In x [0; 1]%Z) (Simple.c_night_sweats d) ->
  Forall (fun x => In x [0; 1]%Z) (Simple.c_appetite_loss d) ->
  generated_values r.
Proof.
  unfold Simple.row_at. intros Hr Hg Hs Hfh Hfl Hpl Hwl Hns Hal.
  repeat match type of Hr with
         | context [?c !! i] =>
             let E := fresh "E" in
             destruct (c !! i) eqn:E; simpl in Hr; [|discriminate]
         end.
  injection Hr as <-. unfold generated_values. simpl.
  pose proof (Forall_lookup_In _ _ _ _ Hg E0) as Bg.
  pose proof (Forall_lookup_In _ _ _ _ Hs E2) as Bs.
  pose proof (Forall_lookup_In _ _ _ _ Hfh E3) as Bfh.
  pose proof (Forall_lookup_In _ _ _ _ Hfl E11) as Bfl.
  pose proof (Forall_lookup_In _ _ _ _ Hpl E12) as Bpl.
  pose proof (Forall_lookup_In _ _ _ _ Hwl E13) as Bwl.
  pose proof (Forall_lookup_In _ _ _ _ Hns E14) as Bns.
  pose proof (Forall_lookup_In _ _ _ _ Hal E15) as Bal.
  cbv beta in *. repeat split; (assumption || lia).
Qed.

Section GeneratedValues.
Context `{NumpyRandom}.

Ltac run_keeping lem a s L :=
  let E := fresh "E" in
  destruct lem as (a & s & E & L);
  rewrite (bind_pure_ok _ _ _ _ _ E); clear E; cbv beta.

Lemma generate_dummy_data_values (n_samples : nat) (s : rng_state) :
  exists df s',
    Simple.generate_dummy_data n_samples s = (Ok df, s', [])
    /\ Forall generated_values (Simple.df_rows df).
Proof.
  unfold Simple.generate_dummy_data.
  rewrite (bind_pure_ok (np_random_seed 42) _ s tt (rk_seed 42) eq_refl).
  run_keeping (np_random_normal_ok (of_Z 65) (of_Z 15) n_samples (rk_seed 42))
              v_a s0 La.
  run_keeping (np_random_choice_ok ["Male"; "Female"] n_samples s0 ltac:(simpl; lia))
              v_g s1 Lg.
  run_keeping (np_random_normal_ok (of_Z 25) (of_Z 5) n_samples s1) v_b s2 Lb.
  run_keeping (np_random_choice_ok ["Never"; "Former"; "Current"] n_samples s2
                                   ltac:(simpl; lia)) v_sm s3 Lsm.
  run_keeping (np_random_choice_ok [0; 1]%Z n_samples s3 ltac:(simpl; lia))
              v_fh s4 Lfh.
  run_keeping (np_random_normal_ok (of_Z 120) (of_Z 20) n_samples s4) v_bp s5 Lbp.
  run_keeping (np_random_normal_ok (of_Z 200) (of_Z 40) n_samples s5) v_ch s6 Lch.
  run_keeping (np_random_normal_ok (of_Z 100) (of_Z 20) n_samples s6) v_gl s7 Lgl.
  run_keeping (np_random_normal_ok (of_Z 7) (of_Z 2) n_samples s7) v_wb s8 Lwb.
  run_keeping (np_random_normal_ok (of_Z 250) (of_Z 50) n_samples s8) v_pc s9 Lpc.
  run_keeping (np_random_normal_ok (of_Z 14) (of_Z 2) n_samples s9) v_hg s10 Lhg.
  run_keeping (np_random_poisson_ok (of_Z 3) n_samples s10) v_sc s11 Lsc.
  run_keeping (np_random_randint_range 1 6 n_samples s11 ltac:(lia)) v_fl s12 Lfl.
  run_keeping (np_random_randint_range 1 6 n_samples s12 ltac:(lia)) v_pl s13 Lpl.
  run_keeping (np_random_choice_ok [0; 1]%Z n_samples s13 ltac:(simpl; lia))
              v_wl s14 Lwl.
  run_keeping (np_random_choice_ok [0; 1]%Z n_samples s14 ltac:(simpl; lia))
              v_ns s15 Lns.
  run_keeping (np_random_choice_ok [0; 1]%Z n_samples s15 ltac:(simpl; lia))
              v_al s16 Lal.
  destruct Lg as [Lg Fg], Lsm as [Lsm Fsm], Lfh as [Lfh Ffh], Lfl as [Lfl Ffl],
           Lpl as [Lpl Fpl], Lwl as [Lwl Fwl], Lns as [Lns Fns], Lal as [Lal Fal].
  match goal with
  | |- context [Simple.pd_DataFrame ?d] =>
      destruct (res_mapM_seq_ok (Simple.row_at d)
                  (ValueError "All arrays must be of the same length")
                  n_samples 0) as (rows & Erows & Lrows);
      [ intros i Hi; apply (SimpleFacts.row_at_is_Some d n_samples i); simpl;
        (assumption || lia)
      | assert (Edf : Simple.pd_DataFrame d = Ok rows)
          by (unfold Simple.pd_DataFrame; simpl; rewrite La; exact Erows);
        assert (Hrows : Forall generated_values rows)
          by (apply Forall_forall; intros r Hr;
              apply list_elem_of_lookup_1 in Hr; destruct Hr as [i Hi];
              apply (simple_row_at_values d i r);
              [ exact (res_mapM_seq_lookup _ _ _ _ _ Erows i r Hi)
              | assumption .. ]) ]
  end.
  rewrite Edf.
  rewrite (bind_pure_ok (lift (Ok rows)) _ s16 rows s16 eq_refl).
  cbv beta. rewrite <- Lrows. rewrite SimpleFacts.label_loop_spec.
  rewrite (bind_pure_ok (lift (Ok (map Simple.assign_label rows))) _ s16 _ s16 eq_refl).
  unfold Simple.set_cancer_type, lift. rewrite length_map, Nat.eqb_refl.
  eexists _, s16. split; [reflexivity|exact Hrows].
Qed.

End GeneratedValues.

Lemma observed_In (col : list string) (c : string) :
  observed col (PStr c) = true -> In c col.
Proof.
  simpl. intros Hex. apply existsb_exists in Hex. destruct Hex as (x & Hin & Heq).
  apply String.eqb_eq in Heq. now subst x.
Qed.

Lemma unobserved_outside {R} (f : R -> string) (P : R -> Prop) (allowed : list string)
      (rows : list R) (v : PyVal) :
  Forall P rows -> (forall r, P r -> In (f r) allowed) ->
  (forall c, In c allowed -> v <> PStr c) ->
  observed (map f rows) v = false.
Proof.
  intros Hrows HP Hv. destruct v as [z|x|c]; try reflexivity.
  destruct (observed (map f rows) (PStr c)) eqn:E; [|reflexivity].
  apply observed_In, in_map_iff in E. destruct E as (r & <- & Hr).
  exfalso. apply (Hv (f r)); [|reflexivity]. apply HP.
  rewrite Forall_forall in Hrows. apply Hrows. now apply list_elem_of_In.
Qed.

Section RejectedCategories.
Context `{NumpyRandom} `{Sklearn}.
Import Simple.

Lemma training_table_values (s : rng_state) : Forall generated_values (training_table s).
Proof.
  destruct (generate_dummy_data_values 1000 s) as (df & s' & E & Hv).
  now rewrite (training_table_rows s df s' E).
Qed.

(** A category that the fitted column does not hold stops the encoding of
    the patient with the unseen-label error. *)
Lemma encode_patient_unseen (t : Trained) (pd : gmap string PyVal) (s : rng_state)
      (colg cols : list string) (mean scale : list float) (v : PyVal) :
  classes_ (le_gender t) = Some (np_unique colg) ->
  classes_ (le_smoking t) = Some (np_unique cols) ->
  fitted_stats (scaler t) = Some (mean, scale) ->
  (pd !! "gender" = Some v /\ observed colg v = false)
  \/ (pd !! "smoking_status" = Some v /\ observed cols v = false) ->
  result_of (encode_patient t pd s) = Raise unseen_labels.
Proof.
  intros Hg Hs Hsc Hobs.
  rewrite (encode_patient_run t pd s _ _ mean scale Hg Hs Hsc).
  destruct Hobs as [[Hpd Hobs] | [Hpd Hobs]].
  - rewrite Hpd. simpl category_code.
    now rewrite (encode_value_unobserved _ _ Hobs).
  - destruct (category_code _ (pd !! "gender")) as [g|e] eqn:Eg.
    + rewrite Hpd. simpl category_code.
      now rewrite (encode_value_unobserved _ _ Hobs).
    + simpl. now rewrite (category_code_error _ _ _ Eg).
Qed.

(** X: the label encoders of [predict_cancer_type] are fitted on columns
    drawn from ['Male', 'Female'] and from ['Never', 'Former', 'Current'];
    a patient whose [gender] or [smoking_status] is any other value is never
    given a prediction: the call raises, and when training went through the
    error is scikit-learn's unseen-label [ValueError]. *)
Theorem category_outside_the_drawn_values_is_rejected
        (pd : gmap string PyVal) (s : rng_state) (v : PyVal) :
  (pd !! "gender" = Some v /\ v <> PStr "Male" /\ v <> PStr "Female")
  \/ (pd !! "smoking_status" = Some v
      /\ v <> PStr "Never" /\ v <> PStr "Former" /\ v <> PStr "Current") ->
  is_ok (result_of (predict_cancer_type pd s)) = false
  /\ (is_ok (result_of (train s)) = true ->
      result_of (predict_cancer_type pd s) = Raise unseen_labels).
Proof.
  intros Hv.
  assert (Hobs :
    (pd !! "gender" = Some v
     /\ observed (map gender (training_table s)) v = false)
    \/ (pd !! "smoking_status" = Some v
        /\ observed (map smoking_status (training_table s)) v = false)).
  { pose proof (training_table_values s) as Hrows.
    destruct Hv as [(Hpd & H1 & H2) | (Hpd & H1 & H2 & H3)]; [left|right];
      (split; [exact Hpd|]).
    - apply (unobserved_outside gender generated_values ["Male"; "Female"]);
        [exact Hrows | intros r Hr; apply Hr |].
      intros c [<-|[<-|[]]]; assumption.
    - apply (unobserved_outside smoking_status generated_values
                                ["Never"; "Former"; "Current"]);
        [exact Hrows | intros r Hr; apply Hr |].
      intros c [<-|[<-|[<-|[]]]]; assumption. }
  clear Hv. rewrite predict_cancer_type_run.
  pose proof (train_cases s) as Ht.
  destruct (train s) as [[rt s1] ev1]. unfold result_of, trace_of in Ht |- *.
  simpl in Ht |- *.
  inversion Ht as [e E1 E2 | e E1 E2 | e E1 E2 | e mean scale E1 E2
                   | e mean scale E1 E2
                   | t mean scale X X_train X_test y_train y_test
                       Hg Hs HX Hsplit Hstats Hsc E1 E2]; subst rt;
    try (split; [reflexivity|discriminate]).
  pose proof (encode_patient_unseen t pd s1 _ _ mean scale v Hg Hs Hsc Hobs) as Hr.
  unfold result_of in Hr.
  destruct (encode_patient t pd s1) as [[[ps|e] s2] ev2]; simpl in Hr;
    [discriminate|].
  injection Hr as ->. simpl. split; [reflexivity|]. intros _. reflexivity.
Qed.

End RejectedCategories.

Lemma category_outside_witness_other_gender :
  is_ok (result_of (@Simple.predict_cancer_type Toy.lcg_random Toy.toy_sklearn
                      patient_other_gender 0%Z)) = false
  /\ (is_ok (result_of (@Simple.train Toy.lcg_random Toy.toy_sklearn 0%Z)) = true ->
      result_of (@Simple.predict_cancer_type Toy.lcg_random Toy.toy_sklearn
                   patient_other_gender 0%Z) = Raise unseen_labels).
Proof.
  apply (@category_outside_the_drawn_values_is_rejected
           Toy.lcg_random Toy.toy_sklearn patient_other_gender 0%Z (PStr "Other")).
  left. split; [vm_compute; reflexivity|]. split; discriminate.
Defined.

(** X: whatever the state of the random generator, the generator of
    [predict_cancer_type] returns a frame, and every row of it holds a
    gender among 'Male' and 'Female', a smoking status among 'Never',
    'Former' and 'Current', fatigue and pain levels from 1 to 5, and flags
    (family history, weight loss, night sweats, appetite loss) that are 0 or
    1. *)
Theorem generated_rows_hold_the_drawn_values `{NumpyRandom} (n_samples : nat)
        (s : rng_state) :
  exists df s',
    Simple.generate_dummy_data n_samples s = (Ok df, s', [])
    /\ forall r, In r (Simple.df_rows df) ->
         In (Simple.gender r) ["Male"; "Female"]
         /\ In (Simple.smoking_status r) ["Never"; "Former"; "Current"]
         /\ In (Simple.family_history r) [0; 1]%Z
         /\ (1 <= Simple.fatigue_level r <= 5)%Z
         /\ (1 <= Simple.pain_level r <= 5)%Z
         /\ In (Simple.weight_loss r) [0; 1]%Z
         /\ In (Simple.night_sweats r) [0; 1]%Z
         /\ In (Simple.appetite_loss r) [0; 1]%Z.
Proof.
  destruct (generate_dummy_data_values n_samples s) as (df & s' & E & Hv).
  exists df, s'. split; [exact E|]. intros r Hr.
  rewrite Forall_forall in Hv. apply list_elem_of_In in Hr.
  destruct (Hv r Hr) as (Hg & Hs & Hfh & Hfl & Hpl & Hwl & Hns & Hal).
  repeat split; (assumption || lia).
Qed.

(** ** Codes and classes *)

(** X: a label encoder fitted on a column gives every value [v] of that
    column a code [i]; [i] is the position of [v] among the fitted classes
    (so the class at [i] is [v] again), no other string has that code, and
    transforming the column itself gives back the codes that [fit_transform]
    returned. *)
Theorem label_codes_round_trip (col : list string) (v : string) :
  In v col ->
  exists i : nat,
    encode_value (np_unique col) (PStr v) = Ok (Z.of_nat i)
    /\ np_unique col !! i = Some v
    /\ (forall w, encode_value (np_unique col) (PStr w) = Ok (Z.of_nat i) -> w = v)
    /\ res_mapM (encode_value (np_unique col)) (map PStr col) = Ok (fitted_codes col).
Proof.
  intros Hin.
  assert (Hu : In v (np_unique col)) by now apply np_unique_In_iff.
  destruct (index_of_is_Some v _ Hu) as [i Hi]. exists i.
  pose proof (index_of_lookup _ _ _ Hi) as Hl.
  simpl. rewrite Hi. repeat split; [exact Hl| |].
  - intros w. destruct (index_of w (np_unique col)) as [j|] eqn:Ej; [|discriminate].
    intros [= Hj]. apply Nat2Z.inj in Hj. subst j.
    apply index_of_lookup in Ej. congruence.
  - unfold fitted_codes. rewrite <- (map_map PStr (fun v0 => Z.of_nat
        (default 0%nat (match v0 with PStr s => index_of s (np_unique col)
                                    | _ => None end)))).
    apply res_mapM_ok. intros x Hx. apply in_map_iff in Hx.
    destruct Hx as (w & <- & Hw). simpl.
    assert (Hwu : In w (np_unique col)) by now apply np_unique_In_iff.
    destruct (index_of_is_Some w _ Hwu) as [j ->]. reflexivity.
Qed.

Lemma label_codes_witness_gender :
  exists i : nat,
    encode_value (np_unique ["Male"; "Female"; "Male"]) (PStr "Female")
    = Ok (Z.of_nat i)
    /\ np_unique ["Male"; "Female"; "Male"] !! i = Some "Female"
    /\ (forall w, encode_value (np_unique ["Male"; "Female"; "Male"]) (PStr w)
                  = Ok (Z.of_nat i) -> w = "Female")
    /\ res_mapM (encode_value (np_unique ["Male"; "Female"; "Male"]))
                (map PStr ["Male"; "Female"; "Male"])
       = Ok (fitted_codes ["Male"; "Female"; "Male"]).
Proof.
  apply (label_codes_round_trip ["Male"; "Female"; "Male"] "Female").
  simpl. tauto.
Defined.

(** ** What the cascades can and cannot label *)

(** A row of the table of [predict_cancer_type] with the given age, gender,
    smoking status, family history, symptom count, fatigue level and
    weight-loss and appetite-loss flags; the other columns hold the means
    of their draws. *)
Definition simple_row_of (a : Z) (g sm : string) (fh sc fl wl al : Z) : Simple.Row :=
  {| Simple.age := of_Z a; Simple.gender := g; Simple.bmi := of_Z 25;
     Simple.smoking_status := sm; Simple.family_history := fh;
     Simple.blood_pressure := of_Z 120; Simple.cholesterol := of_Z 200;
     Simple.glucose := of_Z 100; Simple.white_blood_cells := of_Z 7;
     Simple.platelet_count := of_Z 250; Simple.hemoglobin := of_Z 14;
     Simple.symptom_count := sc; Simple.fatigue_level := fl;
     Simple.pain_level := 3; Simple.weight_loss := wl;
     Simple.night_sweats := 0; Simple.appetite_loss := al |}.

(** A row of the table of [CancerPredictor] with the given age, gender,
    smoking history and markers CA-125, PSA, CEA and AFP. *)
Definition marker_row_of (a : Z) (g sm : string) (m_ca125 m_psa m_cea m_afp : Z)
  : CancerPrediction.Row :=
  {| CancerPrediction.age := of_Z a; CancerPrediction.gender := g;
     CancerPrediction.bmi := of_Z 25; CancerPrediction.smoking_history := sm;
     CancerPrediction.family_history := 0; CancerPrediction.ca125 := of_Z m_ca125;
     CancerPrediction.psa := of_Z m_psa; CancerPrediction.cea := of_Z m_cea;
     CancerPrediction.afp := of_Z m_afp; CancerPrediction.hcg := of_Z 5;
     CancerPrediction.ldh := of_Z 150; CancerPrediction.platelet_count := of_Z 250;
     CancerPrediction.white_blood_cells := of_Z 7;
     CancerPrediction.red_blood_cells := lit 45 1;
     CancerPrediction.hemoglobin := of_Z 14; CancerPrediction.creatinine := of_Z 1;
     CancerPrediction.glucose := of_Z 100; CancerPrediction.cholesterol := of_Z 200;
     CancerPrediction.blood_pressure_systolic := of_Z 120;
     CancerPrediction.blood_pressure_diastolic := of_Z 80 |}.

(** X: each cascade reaches exactly the cancer types its generator
    declares: the cascade of [generate_dummy_data] gives a row one of the
    eight declared types and every one of the eight is the label of some row;
    the same holds for the six types of [generate_synthetic_cancer_data]. *)
Theorem cascades_reach_exactly_the_declared_types (l : string) :
  (In l Simple.cancer_types <-> exists r, Simple.assign_label r = l)
  /\ (In l CancerPrediction.cancer_types_declared
      <-> exists r, CancerPrediction.assign_label r = l).
Proof.
  split; split.
  - unfold Simple.cancer_types. simpl.
    intros [<-|[<-|[<-|[<-|[<-|[<-|[<-|[<-|[]]]]]]]]].
    + now exists (simple_row_of 70 "Female" "Never" 0 3 3 0 0).
    + now exists (simple_row_of 65 "Male" "Current" 0 3 3 0 0).
    + now exists (simple_row_of 75 "Male" "Never" 1 3 3 0 0).
    + now exists (simple_row_of 65 "Male" "Never" 0 3 3 0 0).
    + now exists (simple_row_of 40 "Male" "Never" 0 3 3 0 0).
    + now exists (simple_row_of 40 "Male" "Never" 0 5 4 0 0).
    + now exists (simple_row_of 48 "Female" "Never" 0 3 3 0 0).
    + now exists (simple_row_of 40 "Male" "Never" 0 3 3 1 1).
  - intros [r <-]. apply simple_assign_label_closed.
  - unfold CancerPrediction.cancer_types_declared. simpl.
    intros [<-|[<-|[<-|[<-|[<-|[<-|[]]]]]]].
    + now exists (marker_row_of 55 "Female" "Never" 30 4 3 10).
    + now exists (marker_row_of 65 "Male" "Current" 20 4 3 10).
    + now exists (marker_row_of 75 "Male" "Never" 20 4 5 10).
    + now exists (marker_row_of 55 "Male" "Never" 20 7 3 10).
    + now exists (marker_row_of 55 "Male" "Never" 20 4 3 20).
    + now exists (marker_row_of 55 "Male" "Never" 20 4 3 10).
  - intros [r <-]. apply full_assign_label_closed.
Qed.

Lemma gt_60_50 : gt (of_Z 60) (of_Z 50) = true.
Proof. reflexivity. Qed.

Lemma gt_70_60 : gt (of_Z 70) (of_Z 60) = true.
Proof. reflexivity. Qed.

(** What the order of the rules of [generate_dummy_data] implies for a row
    labelled Lung, Colon or Prostate. *)
Lemma smoker_In (sm : string) (b : bool) :
  existsb (String.eqb sm) ["Current"; "Former"] = b ->
  if b then In sm ["Current"; "Former"] else ~ In sm ["Current"; "Former"].
Proof.
  intros Hb. destruct b.
  - apply existsb_exists in Hb. destruct Hb as (x & Hx & Heq).
    apply String.eqb_eq in Heq. now subst x.
  - intros Hin. apply existsb_eqb_In in Hin. congruence.
Qed.

Lemma simple_lung_rows (r : Simple.Row) :
  Simple.assign_label r = "Lung" ->
  Simple.gender r <> "Female"
  /\ In (Simple.smoking_status r) ["Current"; "Former"]
  /\ gt (Simple.age r) (of_Z 60) = true.
Proof.
  unfold Simple.assign_label.
  destruct (String.eqb (Simple.gender r) "Female") eqn:Hf;
    destruct (gt (Simple.age r) (of_Z 50)) eqn:H50; cbn [andb];
    try discriminate;
    destruct (existsb (String.eqb (Simple.smoking_status r)) ["Current"; "Former"])
      eqn:Hs;
    destruct (gt (Simple.age r) (of_Z 60)) eqn:H60; cbn [andb];
    try (intros Hl; revert Hl; split_ifs; discriminate);
    try (rewrite (PyFloatFacts.gt_trans _ _ _ H60 gt_60_50) in H50; discriminate);
    intros _; apply String.eqb_neq in Hf; pose proof (smoker_In _ _ Hs) as Hs';
    now repeat split.
Qed.

Lemma simple_colon_rows (r : Simple.Row) :
  Simple.assign_label r = "Colon" ->
  Simple.gender r <> "Female"
  /\ ~ In (Simple.smoking_status r) ["Current"; "Former"]
  /\ gt (Simple.age r) (of_Z 70) = true
  /\ Simple.family_history r = 1%Z.
Proof.
  unfold Simple.assign_label.
  destruct (gt (Simple.age r) (of_Z 70)) eqn:H70.
  - rewrite (PyFloatFacts.gt_trans _ _ _ H70 gt_70_50),
            (PyFloatFacts.gt_trans _ _ _ H70 gt_70_60), !andb_true_r.
    destruct (String.eqb (Simple.gender r) "Female") eqn:Hf; [discriminate|].
    destruct (existsb (String.eqb (Simple.smoking_status r)) ["Current"; "Former"])
      eqn:Hs; [discriminate|].
    cbn [andb]. destruct (Simple.family_history r =? 1)%Z eqn:Hfh.
    + intros _. apply String.eqb_neq in Hf. apply Z.eqb_eq in Hfh.
      pose proof (smoker_In _ _ Hs) as Hs'. now repeat split.
    + split_ifs; discriminate.
  - cbn [andb]. split_ifs; discriminate.
Qed.

Lemma simple_prostate_rows (r : Simple.Row) :
  Simple.assign_label r = "Prostate" ->
  Simple.gender r = "Male"
  /\ ~ In (Simple.smoking_status r) ["Current"; "Former"]
  /\ gt (Simple.age r) (of_Z 60) = true
  /\ (gt (Simple.age r) (of_Z 70) = false \/ Simple.family_history r <> 1%Z).
Proof.
  unfold Simple.assign_label.
  destruct (gt (Simple.age r) (of_Z 60)) eqn:H60.
  - rewrite (PyFloatFacts.gt_trans _ _ _ H60 gt_60_50), !andb_true_r.
    destruct (String.eqb (Simple.gender r) "Female") eqn:Hf; [discriminate|].
    destruct (existsb (String.eqb (Simple.smoking_status r)) ["Current"; "Former"])
      eqn:Hs; [discriminate|].
    destruct (gt (Simple.age r) (of_Z 70) && (Simple.family_history r =? 1)%Z)
      eqn:Hc; [discriminate|].
    destruct (String.eqb (Simple.gender r) "Male") eqn:Hm.
    + intros _. apply String.eqb_eq in Hm. pose proof (smoker_In _ _ Hs) as Hs'.
      apply andb_false_iff in Hc. rewrite Z.eqb_neq in Hc. now repeat split.
    + split_ifs; discriminate.
  - rewrite !andb_false_r. split_ifs; discriminate.
Qed.

(** X: in a table that [generate_dummy_data] returns, the rows labelled
    Lung, Colon and Prostate are all Male: a Female row old enough for one of
    these rules is taken by the Breast rule, which comes first.  Lung rows
    are smokers over 60, Colon rows never-smokers over 70 with a family
    history, Prostate rows never-smokers over 60. *)
Theorem generated_lung_colon_prostate_rows_are_male `{NumpyRandom}
        (n_samples : nat) (s : rng_state) :
  exists df s',
    Simple.generate_dummy_data n_samples s = (Ok df, s', [])
    /\ forall i r l,
        Simple.df_rows df !! i = Some r ->
        Simple.df_cancer_type df !! i = Some l ->
        (l = "Lung" ->
         Simple.gender r = "Male"
         /\ In (Simple.smoking_status r) ["Current"; "Former"]
         /\ gt (Simple.age r) (of_Z 60) = true)
        /\ (l = "Colon" ->
            Simple.gender r = "Male" /\ Simple.smoking_status r = "Never"
            /\ gt (Simple.age r) (of_Z 70) = true
            /\ Simple.family_history r = 1%Z)
        /\ (l = "Prostate" ->
            Simple.gender r = "Male" /\ Simple.smoking_status r = "Never"
            /\ gt (Simple.age r) (of_Z 60) = true).
Proof.
  destruct (SimpleFacts.generate_dummy_data_ok n_samples s) as (df & s' & E & _ & Hy).
  destruct (generate_dummy_data_values n_samples s) as (df' & s'' & E' & Hv).
  rewrite E in E'. injection E' as <- _.
  exists df, s'. split; [exact E|]. intros i r l Hr Hl.
  rewrite Hy in Hl.
  change (map Simple.assign_label (Simple.df_rows df))
    with (Simple.assign_label <$> Simple.df_rows df) in Hl.
  rewrite list_lookup_fmap, Hr in Hl. simpl in Hl. injection Hl as Hl.
  destruct (Forall_lookup_In _ _ _ _ Hv Hr) as (Hg & Hs & _).
  assert (Hmale : Simple.gender r <> "Female" -> Simple.gender r = "Male").
  { intros Hf. destruct Hg as [Hg|[Hg|[]]]; [now symmetry|]. exfalso. apply Hf. now symmetry. }
  assert (Hnever : ~ In (Simple.smoking_status r) ["Current"; "Former"] ->
                   Simple.smoking_status r = "Never").
  { intros Hn. destruct Hs as [Hs|[Hs|[Hs|[]]]]; [now symmetry| |];
      exfalso; apply Hn; simpl; tauto. }
  subst l. split; [|split]; intros Hl.
  - destruct (simple_lung_rows r Hl) as (Hf & Hsm & Ha). auto.
  - destruct (simple_colon_rows r Hl) as (Hf & Hsm & Ha & Hfh). auto.
  - destruct (simple_prostate_rows r Hl) as (Hm & Hsm & Ha & _). auto.
Qed.
(** ** Patients of the API *)

Section ExtraKeys.
Context `{NumpyRandom} `{Sklearn}.

Lemma numeric_features_insert (pd : gmap string PyVal) (k : string) (v : PyVal) :
  ~ In k Simple.feature_columns ->
  Simple.numeric_features (<[k := v]> pd) = Simple.numeric_features pd.
Proof.
  intros Hk. unfold Simple.numeric_features. apply map_ext_in. intros col Hcol.
  rewrite lookup_insert_ne; [reflexivity|]. intros ->. now apply Hk.
Qed.

Lemma encode_patient_insert (t : Simple.Trained) (pd : gmap string PyVal)
      (k : string) (v : PyVal) :
  ~ In k (Simple.feature_columns ++ ["gender"; "smoking_status"]) ->
  Simple.encode_patient t (<[k := v]> pd) = Simple.encode_patient t pd.
Proof.
  intros Hk. unfold Simple.encode_patient, Simple.categorical_feature.
  rewrite numeric_features_insert
    by (intros Hin; apply Hk, in_or_app; now left).
  rewrite !lookup_insert_ne; [reflexivity| |];
    intros ->; apply Hk, in_or_app; right; simpl; tauto.
Qed.

(** X: [predict_cancer_type] reads the fifteen numeric columns and the
    keys 'gender' and 'smoking_status' of the patient dictionary and nothing
    else: an entry under any other key changes neither the result nor the
    estimator calls. *)
Theorem other_keys_of_the_patient_are_ignored (pd : gmap string PyVal)
        (k : string) (v : PyVal) (s : rng_state) :
  ~ In k (Simple.feature_columns ++ ["gender"; "smoking_status"]) ->
  Simple.predict_cancer_type (<[k := v]> pd) s = Simple.predict_cancer_type pd s.
Proof.
  intros Hk. unfold Simple.predict_cancer_type.
  apply bind_ext. intros t s1. now rewrite (encode_patient_insert t pd k v Hk).
Qed.

End ExtraKeys.

(** A patient with an age and a name. *)
Definition named_patient : gmap string PyVal :=
  <["name" := PStr "Ada"]> (<["age" := PInt 68]> ∅).

Lemma other_keys_witness_name :
  @Simple.predict_cancer_type Toy.lcg_random Toy.toy_sklearn named_patient 0%Z
  = @Simple.predict_cancer_type Toy.lcg_random Toy.toy_sklearn
      (<["age" := PInt 68]> ∅) 0%Z.
Proof.
  apply (@other_keys_of_the_patient_are_ignored Toy.lcg_random Toy.toy_sklearn
           (<["age" := PInt 68]> ∅) "name" (PStr "Ada") 0%Z).
  simpl. intuition discriminate.
Defined.


Section ApiPatients.
Context `{NumpyRandom} `{Sklearn}.






End ApiPatients.

(** ** Training rows and patients *)

(** The numeric part of the feature row of a generated row, in the order of
    [feature_columns]. *)
Definition numeric_part (r : Simple.Row) : list float :=
  [Simple.age r; Simple.bmi r; of_Z (Simple.family_history r);
   Simple.blood_pressure r; Simple.cholesterol r; Simple.glucose r;
   Simple.white_blood_cells r; Simple.platelet_count r; Simple.hemoglobin r;
   of_Z (Simple.symptom_count r); of_Z (Simple.fatigue_level r);
   of_Z (Simple.pain_level r); of_Z (Simple.weight_loss r);
   of_Z (Simple.night_sweats r); of_Z (Simple.appetite_loss r)].

(** The code [fit_transform] gives a value of the column it is fitted on. *)
Definition fitted_code (col : list string) (v : string) : Z :=
  Z.of_nat (default O (index_of v (np_unique col))).

(** A generated row given back as a patient dictionary. *)
Definition row_as_patient (r : Simple.Row) : gmap string PyVal :=
  list_to_map
    [("age", PFloat (Simple.age r)); ("gender", PStr (Simple.gender r));
     ("bmi", PFloat (Simple.bmi r));
     ("smoking_status", PStr (Simple.smoking_status r));
     ("family_history", PInt (Simple.family_history r));
     ("blood_pressure", PFloat (Simple.blood_pressure r));
     ("cholesterol", PFloat (Simple.cholesterol r));
     ("glucose", PFloat (Simple.glucose r));
     ("white_blood_cells", PFloat (Simple.white_blood_cells r));
     ("platelet_count", PFloat (Simple.platelet_count r));
     ("hemoglobin", PFloat (Simple.hemoglobin r));
     ("symptom_count", PInt (Simple.symptom_count r));
     ("fatigue_level", PInt (Simple.fatigue_level r));
     ("pain_level", PInt (Simple.pain_level r));
     ("weight_loss", PInt (Simple.weight_loss r));
     ("night_sweats", PInt (Simple.night_sweats r));
     ("appetite_loss", PInt (Simple.appetite_loss r))].

Section TrainingRows.
Context `{NumpyRandom} `{Sklearn}.

Lemma select_columns_rows (rows : list Simple.Row) :
  Simple.select_columns Simple.feature_columns rows = Ok (map numeric_part rows).
Proof.
  unfold Simple.select_columns. apply res_mapM_ok. intros r _. reflexivity.
Qed.

Lemma add_column_rows {R} (f : R -> list float) (c : R -> Z) (rows : list R) :
  Simple.add_column (map f rows) (map c rows)
  = Ok (map (fun r => f r ++ [of_Z (c r)]) rows).
Proof.
  induction rows as [|r rows IH]; simpl; [reflexivity|]. now rewrite IH.
Qed.

Lemma encoded_table_rows (rows : list Simple.Row) :
  encoded_table rows
  = Ok (map (fun r =>
               (numeric_part r
                ++ [of_Z (fitted_code (map Simple.gender rows) (Simple.gender r))])
               ++ [of_Z (fitted_code (map Simple.smoking_status rows)
                                     (Simple.smoking_status r))])
            rows).
Proof.
  unfold encoded_table, fitted_codes. rewrite select_columns_rows. simpl res_bind.
  rewrite (map_map Simple.gender), (map_map Simple.smoking_status).
  rewrite (add_column_rows numeric_part
             (fun r => fitted_code (map Simple.gender rows) (Simple.gender r))).
  simpl res_bind.
  now rewrite (add_column_rows _
             (fun r => fitted_code (map Simple.smoking_status rows)
                                   (Simple.smoking_status r))).
Qed.

Lemma encode_value_fitted (col : list string) (v : string) :
  In v col -> encode_value (np_unique col) (PStr v) = Ok (fitted_code col v).
Proof.
  intros Hin. assert (Hu : In v (np_unique col)) by now apply np_unique_In_iff.
  destruct (index_of_is_Some v _ Hu) as [i Hi].
  unfold fitted_code. simpl. now rewrite Hi.
Qed.

Lemma row_as_patient_features (r : Simple.Row) (g sm : Z) :
  res_mapM to_float ((Simple.numeric_features (row_as_patient r) ++ [PInt g])
                     ++ [PInt sm])
  = Ok ((numeric_part r ++ [of_Z g]) ++ [of_Z sm]).
Proof.
  assert (E : Simple.numeric_features (row_as_patient r)
              = [PFloat (Simple.age r); PFloat (Simple.bmi r);
                 PInt (Simple.family_history r); PFloat (Simple.blood_pressure r);
                 PFloat (Simple.cholesterol r); PFloat (Simple.glucose r);
                 PFloat (Simple.white_blood_cells r);
                 PFloat (Simple.platelet_count r); PFloat (Simple.hemoglobin r);
                 PInt (Simple.symptom_count r); PInt (Simple.fatigue_level r);
                 PInt (Simple.pain_level r); PInt (Simple.weight_loss r);
                 PInt (Simple.night_sweats r); PInt (Simple.appetite_loss r)])
    by (destruct r; vm_compute; reflexivity).
  rewrite E. reflexivity.
Qed.

Lemma row_as_patient_categories (r : Simple.Row) :
  row_as_patient r !! "gender" = Some (PStr (Simple.gender r))
  /\ row_as_patient r !! "smoking_status" = Some (PStr (Simple.smoking_status r)).
Proof. destruct r. split; vm_compute; reflexivity. Qed.

(** X: when training has gone through, a row of the training table given
    back as a patient is encoded, by the inference half of
    [predict_cancer_type], to the feature row that the training half built
    for it (same column order, same codes for the gender and the smoking
    status), and scaled with the scaler fitted in training. *)
Theorem training_row_is_encoded_as_in_training
        (s s' : rng_state) (i : nat) (r : Simple.Row) :
  is_ok (result_of (Simple.train s)) = true ->
  Simple.training_table s !! i = Some r ->
  exists t X row mean scale,
    result_of (Simple.train s) = Ok t
    /\ encoded_table (Simple.training_table s) = Ok X
    /\ X !! i = Some row
    /\ fitted_stats (Simple.scaler t) = Some (mean, scale)
    /\ result_of (Simple.encode_patient t (row_as_patient r) s')
       = res_mapM (scale_row mean scale) [row].
Proof.
  intros Ht Hr.
  pose proof (train_cases s) as Hc.
  destruct (result_of (Simple.train s)) as [t|e] eqn:Et; [|discriminate].
  inversion Hc as [ | | | | | t' mean scale X X_train X_test y_train y_test
                               Hg Hs HX Hsplit Hstats Hsc E1 E2].
  subst t'. exists t, X. rewrite encoded_table_rows in HX. injection HX as <-.
  eexists _, mean, scale. split; [reflexivity|].
  split; [apply encoded_table_rows|]. split.
  { match goal with |- map ?f ?l !! i = _ => change (map f l) with (f <$> l) end.
    rewrite list_lookup_fmap, Hr. reflexivity. }
  split; [exact Hsc|].
  rewrite (encode_patient_run t _ s' _ _ mean scale Hg Hs Hsc).
  destruct (row_as_patient_categories r) as [-> ->]. cbn [category_code].
  assert (Hin : In r (Simple.training_table s)).
  { apply list_elem_of_In. eapply list_elem_of_lookup_2. eassumption. }
  rewrite (encode_value_fitted (map Simple.gender (Simple.training_table s)))
    by (now apply in_map).
  rewrite (encode_value_fitted (map Simple.smoking_status (Simple.training_table s)))
    by (now apply in_map).
  rewrite row_as_patient_features. reflexivity.
Qed.

End TrainingRows.

(** Row 0 of the table generated with the small instances. *)
Definition toy_first_row : Simple.Row :=
  {| Simple.age := of_Z 50; Simple.gender := "Male"; Simple.bmi := of_Z 20;
     Simple.smoking_status := "Former"; Simple.family_history := 1;
     Simple.blood_pressure := of_Z 80; Simple.cholesterol := of_Z 280;
     Simple.glucose := of_Z 100; Simple.white_blood_cells := of_Z 3;
     Simple.platelet_count := of_Z 200; Simple.hemoglobin := of_Z 10;
     Simple.symptom_count := 0; Simple.fatigue_level := 3;
     Simple.pain_level := 4; Simple.weight_loss := 0;
     Simple.night_sweats := 0; Simple.appetite_loss := 1 |}.

Lemma training_row_witness_first_row :
  exists t X row mean scale,
    result_of (@Simple.train Toy.lcg_random Toy.toy_sklearn 0%Z) = Ok t
    /\ encoded_table (@Simple.training_table Toy.lcg_random 0%Z) = Ok X
    /\ X !! 0%nat = Some row
    /\ fitted_stats (Simple.scaler t) = Some (mean, scale)
    /\ result_of (@Simple.encode_patient Toy.lcg_random Toy.toy_sklearn
                    t (row_as_patient toy_first_row) 0%Z)
       = res_mapM (scale_row mean scale) [row].
Proof.
  apply (@training_row_is_encoded_as_in_training Toy.lcg_random Toy.toy_sklearn
           0%Z 0%Z 0%nat toy_first_row).
  - vm_compute. reflexivity.
  - vm_compute. reflexivity.
Defined.



(** ** The returned distribution *)

(** [np.argmax] and [max] walk the row with the same comparison: the entry
    at the argmax is the maximum. *)
Lemma argmax_from_lookup (xs pre : list float) (best : float) (besti : nat) :
  pre !! besti = Some best ->
  (pre ++ xs) !! argmax_from best besti (length pre) xs
  = Some (fold_left (fun m y => if gt y m then y else m) xs best).
Proof.
  revert pre best besti. induction xs as [|y xs IH]; intros pre best besti Hb; simpl.
  - rewrite app_nil_r. exact Hb.
  - replace (pre ++ y :: xs) with ((pre ++ [y]) ++ xs) by (now rewrite <- app_assoc).
    replace (S (length pre)) with (length (pre ++ [y]))
      by (rewrite length_app; simpl; lia).
    destruct (gt y best).
    + apply IH. rewrite lookup_app_r by lia. now rewrite Nat.sub_diag.
    + apply IH. apply lookup_app_l_Some. exact Hb.
Qed.

Lemma np_argmax_py_max (xs : list float) (i : nat) :
  np_argmax xs = Ok i -> exists m, py_max xs = Ok m /\ xs !! i = Some m.
Proof.
  destruct xs as [|x rest]; simpl; [discriminate|]. intros [= <-].
  eexists. split; [reflexivity|].
  exact (argmax_from_lookup rest [x] x 0 eq_refl).
Qed.

Lemma dict_get_set {V} (k k' : string) (v : V) (d : list (string * V)) :
  dict_get k (dict_set k' v d) = if String.eqb k k' then Some v else dict_get k d.
Proof.
  induction d as [|[k0 v0] d IH]; simpl.
  - reflexivity.
  - destruct (String.eqb k' k0) eqn:E0; simpl.
    + apply String.eqb_eq in E0. subst k0. destruct (String.eqb k k'); reflexivity.
    + destruct (String.eqb k k0) eqn:E1.
      * apply String.eqb_eq in E1. subst k0.
        rewrite String.eqb_sym in E0. now rewrite E0.
      * exact IH.
Qed.

Lemma dict_set_In {V} (k : string) (v : V) (d : list (string * V)) (kv : string * V) :
  In kv (dict_set k v d) -> kv = (k, v) \/ In kv d.
Proof.
  induction d as [|[k0 v0] d IH]; simpl.
  - intros [<-|[]]. now left.
  - destruct (String.eqb k k0); simpl.
    + intros [<-|Hin]; [now left|right; now right].
    + intros [<-|Hin]; [right; now left|].
      destruct (IH Hin) as [->|Hd]; [now left|right; now right].
Qed.

Lemma dict_zip_from_In {V} (pairs : list (string * V)) (d : list (string * V))
      (kv : string * V) :
  In kv (fold_left (fun d kv => dict_set (fst kv) (snd kv) d) pairs d) ->
  In kv pairs \/ In kv d.
Proof.
  revert d. induction pairs as [|[k v] pairs IH]; intros d; simpl; [now right|].
  intros Hin. destruct (IH _ Hin) as [Hp|Hd]; [left; now right|].
  destruct (dict_set_In _ _ _ _ Hd) as [->|Hd']; [left; now left|now right].
Qed.

Lemma dict_zip_In {V} (keys : list string) (values : list V) (k : string) (v : V) :
  In (k, v) (dict_zip keys values) -> In k keys /\ In v values.
Proof.
  intros Hin. destruct (dict_zip_from_In _ _ _ Hin) as [Hp|[]].
  split; [eapply in_combine_l|eapply in_combine_r]; eassumption.
Qed.

Lemma dict_get_zip_from {V} (pairs d : list (string * V)) (k : string) :
  ~ In k (map fst pairs) ->
  dict_get k (fold_left (fun d kv => dict_set (fst kv) (snd kv) d) pairs d)
  = dict_get k d.
Proof.
  revert d. induction pairs as [|[k0 v0] pairs IH]; intros d Hk; simpl; [reflexivity|].
  rewrite IH by (intros Hin; apply Hk; now right).
  rewrite dict_get_set. simpl.
  destruct (String.eqb k k0) eqn:E; [|reflexivity].
  apply String.eqb_eq in E. subst k0. exfalso. apply Hk. now left.
Qed.

(** Among keys without repetition, the zipped dictionary holds at key
    number [i] value number [i]. *)
Lemma dict_get_zip {V} (keys : list string) (values : list V) (i : nat)
      (k : string) (v : V) :
  NoDup keys -> keys !! i = Some k -> values !! i = Some v ->
  dict_get k (dict_zip keys values) = Some v.
Proof.
  unfold dict_zip. generalize (@nil (string * V)) as d.
  intros d Hnd. revert d values i.
  induction Hnd as [|k0 keys Hk0 Hnd IH]; intros d values [|i]; simpl;
    try discriminate.
  - intros [= ->]. destruct values as [|v0 values]; [discriminate|].
    intros [= ->]. simpl. rewrite dict_get_zip_from.
    + rewrite dict_get_set. now rewrite String.eqb_refl.
    + intros Hin. apply Hk0. apply list_elem_of_In.
      apply in_map_iff in Hin. destruct Hin as ([k1 v1] & <- & Hin).
      eapply in_combine_l. eassumption.
  - intros Hk. destruct values as [|v0 values]; [discriminate|]. simpl.
    intros Hv. now apply (IH _ values i).
Qed.

Lemma gt_asym (x y : float) : gt x y = true -> gt y x = false.
Proof.
  intros Hxy. destruct (gt y x) eqn:Hyx; [|reflexivity].
  pose proof (PyFloatFacts.gt_trans _ _ _ Hxy Hyx) as Hxx.
  unfold gt in Hxx. now rewrite SFltb_irrefl in Hxx.
Qed.

(** No entry is followed by a strictly greater one. *)
Fixpoint descending (l : list (string * float)) : Prop :=
  match l with
  | [] => True
  | a :: l' =>
      match l' with
      | [] => True
      | b :: _ => gt (snd b) (snd a) = false
      end /\ descending l'
  end.

Lemma insert_desc_descending (kv : string * float) (l : list (string * float)) :
  descending l -> descending (insert_desc kv l).
Proof.
  induction l as [|a l IH]; intros Hd; simpl; [easy|].
  destruct (gt (snd a) (snd kv)) eqn:E.
  - destruct Hd as [Ha Hd]. specialize (IH Hd). split; [|exact IH].
    destruct l as [|b l]; simpl in *.
    + now apply gt_asym.
    + destruct (gt (snd b) (snd kv)); [exact Ha|now apply gt_asym].
  - split; [exact E|exact Hd].
Qed.

Lemma sorted_desc_descending (items : list (string * float)) :
  descending (sorted_desc items).
Proof.
  induction items as [|kv items IH]; simpl; [exact I|].
  now apply insert_desc_descending.
Qed.

Lemma insert_desc_Permutation (kv : string * float) (l : list (string * float)) :
  insert_desc kv l ≡ₚ kv :: l.
Proof.
  induction l as [|a l IH]; simpl; [reflexivity|].
  destruct (gt (snd a) (snd kv)); [|reflexivity].
  rewrite IH. apply Permutation_swap.
Qed.

Lemma sorted_desc_Permutation (items : list (string * float)) :
  sorted_desc items ≡ₚ items.
Proof.
  induction items as [|kv items IH]; simpl; [reflexivity|].
  rewrite insert_desc_Permutation. now rewrite IH.
Qed.

Lemma descending_firstn (n : nat) (l : list (string * float)) :
  descending l -> descending (firstn n l).
Proof.
  revert l. induction n as [|n IH]; intros [|a l]; simpl; try easy.
  intros [Ha Hd]. split; [|now apply IH].
  destruct l as [|b l]; destruct n; simpl; easy.
Qed.

Lemma descending_lookup (l : list (string * float)) (i : nat) (a b : string * float) :
  descending l -> l !! i = Some a -> l !! S i = Some b -> gt (snd b) (snd a) = false.
Proof.
  revert i. induction l as [|x l IH]; intros i Hd Ha Hb; [discriminate|].
  destruct Hd as [Hx Hd]. destruct i as [|i]; simpl in *.
  - injection Ha as <-. destruct l as [|y l]; [discriminate|].
    simpl in Hb. now injection Hb as <-.
  - now apply (IH i).
Qed.

(** The slice [sorted(...)[:3]]. *)
Lemma top_three (items : list (string * float)) :
  let top := firstn 3 (sorted_desc items) in
  length top = Nat.min 3 (length items)
  /\ (forall kv, In kv top -> In kv items)
  /\ (forall i a b, top !! i = Some a -> top !! S i = Some b ->
                    gt (snd b) (snd a) = false).
Proof.
  intros top. split; [|split].
  - unfold top. rewrite length_firstn.
    now rewrite (Permutation_length (sorted_desc_Permutation items)).
  - intros kv Hin. apply list_elem_of_In.
    rewrite <- (sorted_desc_Permutation items). apply list_elem_of_In.
    unfold top in Hin. rewrite <- (firstn_skipn 3 (sorted_desc items)).
    apply in_or_app. now left.
  - intros i a b. apply descending_lookup, descending_firstn, sorted_desc_descending.
Qed.

Section ReturnedDistribution.
Context `{NumpyRandom} `{Sklearn}.

(** What [conclude] computes, spelled out. *)
Lemma conclude_result (t : Simple.Trained) (ps : list (list float))
      (s : rng_state) (r : Simple.PredictionResult) :
  result_of (Simple.conclude t ps s) = Ok r ->
  exists probabilities i,
    Simple.first (predict_proba (Simple.rf_model t) ps) = Ok probabilities
    /\ np_argmax probabilities = Ok i
    /\ rf_classes_ (Simple.rf_model t) !! i = Some (Simple.predicted_cancer_type r)
    /\ py_max probabilities = Ok (Simple.confidence_score r)
    /\ Simple.all_probabilities r
       = dict_zip (rf_classes_ (Simple.rf_model t)) probabilities
    /\ Simple.top_3_predictions r = firstn 3 (sorted_desc (Simple.all_probabilities r)).
Proof.
  unfold Simple.conclude, bind, lift, ret, result_of, predict.
  destruct (predict_proba (Simple.rf_model t) ps) as [|pr rest]; simpl.
  { intros [=]. }
  destruct (np_argmax pr) as [i|e] eqn:Ei; simpl; [|intros [=]].
  destruct (rf_classes_ (Simple.rf_model t) !! i) as [c|] eqn:Ec; simpl;
    [|intros [=]].
  destruct (res_mapM _ rest) as [cs|e]; simpl; [|intros [=]].
  destruct (py_max pr) as [m|e] eqn:Em; simpl; [|intros [=]].
  intros [= <-]. simpl. exists pr, i. now repeat split.
Qed.

(** With the classes of the forest as [fit] leaves them, the predicted
    type is a key of [all_probabilities], the probability stored under it
    is the confidence score, and no probability exceeds that score. *)
Lemma simple_label_and_confidence_agree (t : Simple.Trained)
        (ps : list (list float)) (s : rng_state) (r : Simple.PredictionResult)
        (X : list (list float)) (y : list string) :
  Simple.rf_model t = RandomForestClassifier_fit 100 10 42 (-1) X y ->
  result_of (Simple.conclude t ps s) = Ok r ->
  dict_get (Simple.predicted_cancer_type r) (Simple.all_probabilities r)
  = Some (Simple.confidence_score r)
  /\ forall k p, In (k, p) (Simple.all_probabilities r) ->
                 gt p (Simple.confidence_score r) = false.
Proof.
  intros Hrf Hr.
  destruct (conclude_result t ps s r Hr) as (pr & i & _ & Ei & Ec & Em & Ea & _).
  destruct (np_argmax_py_max pr i Ei) as (m & Em' & Hm).
  rewrite Em in Em'. injection Em' as <-.
  rewrite Ea. split.
  - apply (dict_get_zip _ _ i); [|exact Ec|exact Hm].
    rewrite Hrf. simpl. apply increasing_NoDup, np_unique_increasing.
  - intros k p Hin. apply dict_zip_In in Hin.
    destruct (py_max_spec pr _ Em) as [_ Hmax]. now apply Hmax.
Qed.

(** The forest that a run of [train] returns is the one [fit] built. *)
Definition fitted_forest (r : res Simple.Trained) (_ : list Event) : Prop :=
  match r with
  | Ok t => exists X y, Simple.rf_model t = RandomForestClassifier_fit 100 10 42 (-1) X y
  | Raise _ => True
  end.

Lemma train_fits_the_forest (s : rng_state) :
  fitted_forest (result_of (Simple.train s)) (trace_of (Simple.train s)).
Proof.
  change (outcome_of fitted_forest [] (Simple.train s)).
  unfold Simple.train.
  destruct (Simple.generate_dummy_data 1000 s) as [[[df|e] s0] ev0] eqn:E;
    (eapply outcome_bind; [exact E|]); [|exact I]. cbv beta.
  eapply outcome_bind; [apply lift_run|].
  destruct (Simple.select_columns _ _) as [X|e]; [|exact I].
  eapply outcome_bind; [apply LabelEncoder_fit_transform_run|]. cbv beta iota.
  eapply outcome_bind; [apply lift_run|].
  match goal with |- match ?r with _ => _ end => destruct r as [X1|e] end;
    [|exact I].
  eapply outcome_bind; [apply LabelEncoder_fit_transform_run|]. cbv beta iota.
  eapply outcome_bind; [apply lift_run|].
  match goal with |- match ?r with _ => _ end => destruct r as [X2|e] end;
    [|exact I].
  eapply outcome_bind; [apply lift_run|].
  match goal with |- match ?r with _ => _ end =>
    destruct r as [[[[X_train X_test] y_train] y_test]|e] end; [|exact I].
  cbv beta iota.
  eapply outcome_bind; [apply StandardScaler_fit_transform_run|].
  destruct (column_stats X_train) as [mean scale]. simpl fst; simpl snd.
  destruct (res_mapM (scale_row mean scale) X_train) as [X_train_scaled|e];
    simpl res_bind; [|exact I].
  cbv beta iota.
  eapply outcome_bind;
    [apply (StandardScaler_transform_run Scaler _ mean scale); reflexivity|].
  destruct (res_mapM (scale_row mean scale) X_test) as [X_test_scaled|e];
    [|exact I].
  eapply outcome_bind; [apply lift_run|].
  match goal with |- match ?r with _ => _ end => destruct r as [y_pred|e] end;
    [|exact I].
  apply outcome_ret. simpl. now eexists _, _.
Qed.

(** X: a result that [predict_cancer_type] returns is consistent with
    itself: the predicted type is a key of [all_probabilities], the
    probability stored under it is the confidence score, and no probability
    of the distribution exceeds that score; [top_3_predictions] holds three
    entries of [all_probabilities] (all of them when there are fewer), and
    none of its entries is followed by one with a greater probability. *)
Theorem returned_result_is_consistent (pd : gmap string PyVal)
        (s : rng_state) (r : Simple.PredictionResult) :
  result_of (Simple.predict_cancer_type pd s) = Ok r ->
  dict_get (Simple.predicted_cancer_type r) (Simple.all_probabilities r)
  = Some (Simple.confidence_score r)
  /\ (forall k p, In (k, p) (Simple.all_probabilities r) ->
                  gt p (Simple.confidence_score r) = false)
  /\ length (Simple.top_3_predictions r)
     = Nat.min 3 (length (Simple.all_probabilities r))
  /\ (forall kv, In kv (Simple.top_3_predictions r) ->
                 In kv (Simple.all_probabilities r))
  /\ (forall i a b,
         Simple.top_3_predictions r !! i = Some a ->
         Simple.top_3_predictions r !! S i = Some b ->
         gt (snd b) (snd a) = false).
Proof.
  rewrite predict_cancer_type_run. pose proof (train_fits_the_forest s) as Hf.
  destruct (Simple.train s) as [[[t|e] s1] ev1]; [|discriminate].
  destruct (Simple.encode_patient t pd s1) as [[[ps|e] s2] ev2]; [|discriminate].
  destruct Hf as (X & y & Hrf). unfold result_of at 1. simpl fst.
  intros Hr.
  destruct (simple_label_and_confidence_agree t ps s2 r X y Hrf Hr) as [H1 H2].
  destruct (conclude_result t ps s2 r Hr) as (pr & i & _ & _ & _ & _ & _ & Htop).
  rewrite Htop. split; [exact H1|]. split; [exact H2|].
  exact (top_three (Simple.all_probabilities r)).
Qed.

End ReturnedDistribution.


(** A patient of 68 who gives gender and smoking status. *)
Definition patient_68 : gmap string PyVal :=
  list_to_map [("age", PInt 68); ("gender", PStr "Female");
               ("smoking_status", PStr "Former")].

(** What the small instances return for that patient. *)
Definition toy_result_68 : Simple.PredictionResult :=
  {| Simple.predicted_cancer_type := "Breast";
     Simple.confidence_score := S754_finite false 5606981536076268 (-54);
     Simple.all_probabilities :=
       [("Breast", S754_finite false 5606981536076268 (-54));
        ("Colon", S754_finite false 5584463537939415 (-57));
        ("Leukemia", S754_finite false 5764607523034235 (-57));
        ("Lung", S754_finite false 7430939385161318 (-55));
        ("Melanoma", S754_finite false 6530219459687219 (-55));
        ("Ovarian", S754_finite false 5854679515581645 (-56));
        ("Pancreatic", S754_finite false 4863887597560136 (-56));
        ("Prostate", S754_finite false 5314247560297185 (-56))];
     Simple.top_3_predictions :=
       [("Breast", S754_finite false 5606981536076268 (-54));
        ("Lung", S754_finite false 7430939385161318 (-55));
        ("Melanoma", S754_finite false 6530219459687219 (-55))];
     Simple.model_accuracy := S754_finite false 5674535530486825 (-54) |}.

Lemma returned_result_witness_patient_68 :
  dict_get (Simple.predicted_cancer_type toy_result_68)
           (Simple.all_probabilities toy_result_68)
  = Some (Simple.confidence_score toy_result_68)
  /\ (forall k p, In (k, p) (Simple.all_probabilities toy_result_68) ->
                  gt p (Simple.confidence_score toy_result_68) = false)
  /\ length (Simple.top_3_predictions toy_result_68)
     = Nat.min 3 (length (Simple.all_probabilities toy_result_68))
  /\ (forall kv, In kv (Simple.top_3_predictions toy_result_68) ->
                 In kv (Simple.all_probabilities toy_result_68))
  /\ (forall i a b,
         Simple.top_3_predictions toy_result_68 !! i = Some a ->
         Simple.top_3_predictions toy_result_68 !! S i = Some b ->
         gt (snd b) (snd a) = false).
Proof.
  apply (@returned_result_is_consistent Toy.lcg_random Toy.toy_sklearn
           patient_68 0%Z toy_result_68).
  vm_compute. reflexivity.
Defined.

(** ** The two summaries of the templates *)

Lemma gt_3_2 : gt (of_Z 3) (of_Z 2) = true.
Proof. reflexivity. Qed.

(** A value that is not above [lo] is not above a greater bound. *)
Lemma py_gt_monotone (v : PyVal) (lo hi : Z) :
  (lo <= hi)%Z -> gt (of_Z hi) (of_Z lo) = true \/ lo = hi ->
  Fallback.py_gt v lo = Ok false -> Fallback.py_gt v hi = Ok false.
Proof.
  intros Hle Hgt. destruct v as [z|x|s]; simpl; try discriminate.
  - intros [= Hz]. f_equal. apply Z.ltb_ge. apply Z.ltb_ge in Hz. lia.
  - intros [= Hx]. f_equal. destruct Hgt as [Hgt| ->]; [|exact Hx].
    destruct (gt x (of_Z hi)) eqn:E; [|reflexivity].
    now rewrite (PyFloatFacts.gt_trans _ _ _ E Hgt) in Hx.
Qed.

(** A line that cannot be mistaken for the sentences "- Minimal ..." and
    "- No major ...": it has four characters at least and they differ from
    "- Mi" and from "- No". *)
Definition is_finding (line : string) : bool :=
  match line with
  | String _ (String _ (String c (String d _))) =>
      negb (Ascii.eqb c "M" && Ascii.eqb d "i")
      && negb (Ascii.eqb c "N" && Ascii.eqb d "o")
  | _ => false
  end.

Lemma is_finding_app (line rest : string) :
  is_finding line = true -> is_finding (line +:+ rest) = true.
Proof.
  destruct line as [|a [|b [|c [|d t]]]]; simpl; try discriminate. easy.
Qed.

Lemma join_is_finding (lines : list string) :
  lines <> [] -> Forall (fun l => is_finding l = true) lines ->
  is_finding (str_join "
" lines) = true.
Proof.
  intros Hne HF. destruct HF as [|l rest Hl HF]; [congruence|].
  unfold str_join. destruct rest as [|l2 rest]; simpl; [exact Hl|].
  now apply is_finding_app.
Qed.

Lemma summary_is_default (lines : list string) (sentence : string) :
  is_finding sentence = false ->
  Forall (fun l => is_finding l = true) lines ->
  match lines with
  | [] => sentence
  | _ => str_join "
" lines
  end = sentence ->
  lines = [].
Proof.
  intros Hs HF. destruct lines as [|l rest]; [reflexivity|]. intros E.
  rewrite <- E in Hs. rewrite join_is_finding in Hs; [discriminate| |exact HF].
  discriminate.
Qed.

Lemma append_if_findings (c : bool) (line : string) (lines : list string) :
  is_finding line = true ->
  Forall (fun l => is_finding l = true) lines ->
  Forall (fun l => is_finding l = true) (Fallback.append_if c line lines).
Proof.
  intros Hl HF. unfold Fallback.append_if. destruct c; [|exact HF].
  apply Forall_app. split; [exact HF|]. now apply List.Forall_cons.
Qed.

Lemma append_if_nil (c : bool) (line : string) (lines : list string) :
  Fallback.append_if c line lines = [] -> c = false /\ lines = [].
Proof.
  unfold Fallback.append_if. destruct c; [|now split].
  intros E. apply app_eq_nil in E. destruct E as [_ E]. discriminate.
Qed.

(** The shape of the two-level tests of fatigue and pain. *)
Lemma level_findings (hi lo : bool) (l1 l2 : string) (lines : list string) :
  is_finding l1 = true -> is_finding l2 = true ->
  Forall (fun l => is_finding l = true) lines ->
  Forall (fun l => is_finding l = true)
         (if hi then lines ++ [l1] else if lo then lines ++ [l2] else lines).
Proof.
  intros H1 H2 HF. destruct hi; [|destruct lo]; try exact HF;
    (apply Forall_app; split; [exact HF|]; now apply List.Forall_cons).
Qed.

Lemma level_nil (hi lo : bool) (l1 l2 : string) (lines : list string) :
  (if hi then lines ++ [l1] else if lo then lines ++ [l2] else lines) = [] ->
  hi = false /\ lo = false /\ lines = [].
Proof.
  destruct hi; [|destruct lo]; intros E; try (now repeat split);
    apply app_eq_nil in E; destruct E as [_ E]; discriminate.
Qed.

Section Summaries.
Variable str_float : float -> string.

Definition minimal_symptoms : string :=
  "- Minimal symptoms reported - good prognostic sign".

(** None of the conditions of [_analyze_symptoms] holds. *)
Definition no_symptom_line (symptoms : gmap string PyVal) : Prop :=
  Fallback.py_gt (default (PInt 1) (symptoms !! "fatigue_level")) 2 = Ok false
  /\ Fallback.py_gt (default (PInt 1) (symptoms !! "pain_level")) 2 = Ok false
  /\ Fallback.py_truthy (symptoms !! "weight_loss") = false
  /\ Fallback.py_truthy (symptoms !! "night_sweats") = false
  /\ Fallback.py_truthy (symptoms !! "appetite_loss") = false
  /\ Fallback.py_gt (default (PInt 0) (symptoms !! "symptom_count")) 3 = Ok false.

(** X: [_analyze_symptoms] returns the sentence "Minimal symptoms
    reported - good prognostic sign" exactly when no line applies: fatigue
    and pain are numbers not above 2 (or missing), none of the weight-loss,
    night-sweats and appetite-loss entries is truthy, and the symptom count
    is a number not above 3 (or missing). *)
Theorem minimal_symptoms_exactly_when_no_line_applies
        (symptoms : gmap string PyVal) :
  Fallback._analyze_symptoms str_float symptoms = Ok minimal_symptoms
  <-> no_symptom_line symptoms.
Proof.
  unfold Fallback._analyze_symptoms, no_symptom_line, minimal_symptoms.
  set (fatigue := default (PInt 1) (symptoms !! "fatigue_level")).
  set (pain := default (PInt 1) (symptoms !! "pain_level")).
  set (n := default (PInt 0) (symptoms !! "symptom_count")).
  split.
  - destruct (Fallback.py_gt fatigue 3) as [f3|?] eqn:F3; [|discriminate].
    simpl res_bind.
    destruct (if f3 then Ok false else Fallback.py_gt fatigue 2) as [f2|?] eqn:F2;
      [|discriminate].
    simpl res_bind.
    destruct (Fallback.py_gt pain 3) as [p3|?] eqn:P3; [|discriminate].
    simpl res_bind.
    destruct (if p3 then Ok false else Fallback.py_gt pain 2) as [p2|?] eqn:P2;
      [|discriminate].
    simpl res_bind.
    destruct (Fallback.py_gt n 3) as [many|?] eqn:N3; [|discriminate].
    simpl res_bind. cbv zeta. intros [= Hm].
    apply summary_is_default in Hm; [|reflexivity|].
    + apply append_if_nil in Hm. destruct Hm as [-> Hm].
      apply append_if_nil in Hm. destruct Hm as [Hal Hm].
      apply append_if_nil in Hm. destruct Hm as [Hns Hm].
      apply append_if_nil in Hm. destruct Hm as [Hwl Hm].
      apply level_nil in Hm. destruct Hm as (-> & -> & Hm).
      destruct f3; [discriminate|]. destruct f2; [discriminate|].
      now repeat split.
    + repeat apply append_if_findings; try reflexivity.
      apply level_findings; try reflexivity.
      destruct f3; [|destruct f2];
        repeat (apply List.Forall_cons; [reflexivity|]); apply List.Forall_nil.
  - intros (F2 & P2 & -> & -> & -> & N3).
    rewrite (py_gt_monotone fatigue 2 3 ltac:(lia) (or_introl gt_3_2) F2), F2.
    rewrite (py_gt_monotone pain 2 3 ltac:(lia) (or_introl gt_3_2) P2), P2.
    rewrite N3. reflexivity.
Qed.

Definition no_major_risk_factors : string := "- No major risk factors identified".

(** None of the conditions of [_identify_risk_factors] holds for the
    medical data. *)
Definition no_risk_line (md : gmap string PyVal) : Prop :=
  Fallback.is_str (md !! "smoking_status") "Current" = false
  /\ Fallback.is_str (md !! "smoking_status") "Former" = false
  /\ Fallback.py_truthy (md !! "family_history") = false
  /\ Fallback.py_gt (default (PInt 0) (md !! "bmi")) 30 = Ok false.

Lemma no_risk_line_empty : no_risk_line ∅.
Proof. now repeat split. Qed.

(** X: [_identify_risk_factors] returns the sentence "No major risk
    factors identified" exactly when the age is at most 50 and, if medical
    data are given, the smoking status is neither 'Current' nor 'Former',
    the family-history entry is not truthy and the BMI is a number not above
    30 (or missing); the gender and the cancer information play no part. *)
Theorem no_major_risk_exactly_when_no_line_applies
        (age : Z) (gender : string) (medical_data : option (gmap string PyVal))
        (info : Fallback.CancerInfo) :
  Fallback._identify_risk_factors age gender medical_data info
  = Ok no_major_risk_factors
  <-> (age <= 50)%Z
      /\ forall md, medical_data = Some md -> no_risk_line md.
Proof.
  unfold Fallback._identify_risk_factors, no_major_risk_factors.
  set (by_age := if (65 <? age)%Z then ["- Advanced age (increased risk)"]
                 else if (50 <? age)%Z then ["- Age over 50 (moderate risk factor)"]
                 else []).
  assert (Hage : Forall (fun l => is_finding l = true) by_age).
  { unfold by_age. destruct (65 <? age)%Z; [|destruct (50 <? age)%Z];
      repeat (apply List.Forall_cons; [reflexivity|]); apply List.Forall_nil. }
  assert (Hnil : by_age = [] <-> (age <= 50)%Z).
  { unfold by_age. destruct (65 <? age)%Z eqn:E65; [|destruct (50 <? age)%Z eqn:E50].
    - apply Z.ltb_lt in E65. split; [discriminate|lia].
    - apply Z.ltb_lt in E50. split; [discriminate|lia].
    - apply Z.ltb_ge in E50. now split. }
  clearbody by_age. split.
  - destruct medical_data as [md|].
    + destruct (bool_decide (md ≠ ∅)) eqn:Hne.
      * destruct (Fallback.py_gt (default (PInt 0) (md !! "bmi")) 30)
          as [obese|?] eqn:Hbmi; [|discriminate].
        simpl res_bind. intros [= Hm].
        apply summary_is_default in Hm; [|reflexivity|].
        -- apply append_if_nil in Hm. destruct Hm as [-> Hm].
           apply append_if_nil in Hm. destruct Hm as [Hfh Hm].
           apply level_nil in Hm. destruct Hm as (Hc & Hf & Hm).
           split; [now apply Hnil|]. intros md' [= <-]. now repeat split.
        -- repeat apply append_if_findings; try reflexivity.
           now apply level_findings.
      * simpl res_bind. intros [= Hm].
        apply summary_is_default in Hm; [|reflexivity|exact Hage].
        split; [now apply Hnil|]. intros md' [= <-].
        apply bool_decide_eq_false in Hne.
        assert (md = ∅) as -> by (destruct (decide (md = ∅)); [easy|contradiction]).
        apply no_risk_line_empty.
    + simpl res_bind. intros [= Hm].
      apply summary_is_default in Hm; [|reflexivity|exact Hage].
      split; [now apply Hnil|]. discriminate.
  - intros [Ha Hmd]. apply Hnil in Ha. subst by_age.
    destruct medical_data as [md|]; [|reflexivity].
    destruct (Hmd md eq_refl) as (-> & -> & -> & ->).
    destruct (bool_decide (md ≠ ∅)); reflexivity.
Qed.

End Summaries.

(** ** The defaults of [generate_fallback_explanation] *)

Lemma fallback_symptoms_entries (pd : gmap string PyVal) :
  FallbackCall.symptoms pd !! "fatigue_level"
  = Some (FallbackCall.get pd "fatigue_level" (PInt 1))
  /\ FallbackCall.symptoms pd !! "pain_level"
     = Some (FallbackCall.get pd "pain_level" (PInt 1))
  /\ FallbackCall.symptoms pd !! "weight_loss"
     = Some (FallbackCall.get pd "weight_loss" (PInt 0))
  /\ FallbackCall.symptoms pd !! "night_sweats"
     = Some (FallbackCall.get pd "night_sweats" (PInt 0))
  /\ FallbackCall.symptoms pd !! "appetite_loss"
     = Some (FallbackCall.get pd "appetite_loss" (PInt 0))
  /\ FallbackCall.symptoms pd !! "symptom_count"
     = Some (FallbackCall.get pd "symptom_count" (PInt 0)).
Proof. repeat split. Qed.

Lemma fallback_medical_entries (pd : gmap string PyVal) :
  FallbackCall.medical_data pd !! "bmi" = Some (FallbackCall.get pd "bmi" (PInt 0))
  /\ FallbackCall.medical_data pd !! "smoking_status"
     = Some (FallbackCall.get pd "smoking_status" (PStr EmptyString))
  /\ FallbackCall.medical_data pd !! "family_history"
     = Some (FallbackCall.get pd "family_history" (PInt 0))
  /\ FallbackCall.medical_data pd <> ∅.
Proof.
  repeat split. intros E.
  assert (H : FallbackCall.medical_data pd !! "bmi" = None) by (now rewrite E).
  discriminate.
Qed.

Lemma py_truthy_default_0 (v : option PyVal) :
  Fallback.py_truthy (Some (default (PInt 0) v)) = Fallback.py_truthy v.
Proof. now destruct v. Qed.

Lemma is_str_default_empty (v : option PyVal) (s : string) :
  s <> EmptyString ->
  Fallback.is_str (Some (default (PStr EmptyString) v)) s = Fallback.is_str v s.
Proof.
  intros Hs. destruct v; [reflexivity|]. simpl.
  destruct s; [congruence|reflexivity].
Qed.

Section FallbackDefaults.
Variable str_float : float -> string.

(** X: the defaults with which [generate_fallback_explanation] fills the
    symptoms (1 for the two levels, 0 for the flags and the count) and the
    medical data (0 for the numbers, the empty string for the smoking
    status) are those the summaries assume for a missing entry: both
    summaries read the same from the extracted dictionaries as from the
    patient dictionary itself. *)
Theorem fallback_defaults_change_no_summary (patient_data : gmap string PyVal) :
  Fallback._analyze_symptoms str_float (FallbackCall.symptoms patient_data)
  = Fallback._analyze_symptoms str_float patient_data
  /\ forall age gender info,
      Fallback._identify_risk_factors
        age gender (Some (FallbackCall.medical_data patient_data)) info
      = Fallback._identify_risk_factors age gender (Some patient_data) info.
Proof.
  split.
  - unfold Fallback._analyze_symptoms.
    destruct (fallback_symptoms_entries patient_data)
      as (-> & -> & -> & -> & -> & ->).
    unfold FallbackCall.get. rewrite !py_truthy_default_0.
    destruct (patient_data !! "fatigue_level"), (patient_data !! "pain_level"),
      (patient_data !! "symptom_count"); reflexivity.
  - intros age gender info. unfold Fallback._identify_risk_factors.
    destruct (fallback_medical_entries patient_data) as (-> & -> & -> & Hne).
    rewrite (bool_decide_eq_true_2 _ Hne).
    unfold FallbackCall.get.
    rewrite py_truthy_default_0, !is_str_default_empty by discriminate.
    replace (default (PInt 0) (Some (default (PInt 0) (patient_data !! "bmi"))))
      with (default (PInt 0) (patient_data !! "bmi"))
      by (now destruct (patient_data !! "bmi")).
    destruct (bool_decide (patient_data ≠ ∅)) eqn:Hpd; [reflexivity|].
    apply bool_decide_eq_false in Hpd.
    assert (patient_data = ∅) as ->
      by (destruct (decide (patient_data = ∅)); [easy|contradiction]).
    reflexivity.
Qed.

End FallbackDefaults.

Section FallbackForRequests.
Variable format_percent1 : float -> string.
Variable str_float : float -> string.
Import Fallback FallbackFacts.

(** X: for a request of the API and a result of [predict_cancer_type], the
    fallback generator raises nothing: it returns a record whose confidence
    interpretation is the band of the result's confidence score and whose
    full response is the explanation, the recommendations and the next
    steps under their two headings. *)
Theorem fallback_explanation_of_a_request_is_returned
        (request : ApiServer.PatientData)
        (prediction_result : Simple.PredictionResult) :
  exists e,
    FallbackCall.generate_fallback_explanation format_percent1 str_float
      request prediction_result = Ok e
    /\ confidence_interpretation e
       = _interpret_confidence (Simple.confidence_score prediction_result)
    /\ full_response e
       = explanation e +:+ "

RECOMMENDATIONS:
" +:+ recommendations e +:+ "

NEXT STEPS:
" +:+ next_steps e.
Proof.
  unfold FallbackCall.generate_fallback_explanation.
  set (pd := ApiServer.explain_patient_dict request).
  set (ty := Simple.predicted_cancer_type prediction_result).
  rewrite (generate_doctor_explanation_with format_percent1 str_float
             (default lung_info (cancer_info !! ty)) _ _ _ ty _ _ _ eq_refl).
  unfold assemble, _generate_explanation.
  assert (Hb : is_number (bmi_of (Some (FallbackCall.medical_data pd))) = true)
    by (destruct request; reflexivity).
  assert (Hf : is_number (FallbackCall.symptoms pd !! "fatigue_level") = true)
    by (destruct request; reflexivity).
  assert (Hp : is_number (FallbackCall.symptoms pd !! "pain_level") = true)
    by (destruct request; reflexivity).
  assert (Hc : is_number (FallbackCall.symptoms pd !! "symptom_count") = true)
    by (destruct request; reflexivity).
  pose proof (_identify_risk_factors_ok (ApiServer.age request)
                (ApiServer.gender request) _
                (default lung_info (cancer_info !! ty)) Hb) as H1.
  pose proof (_analyze_symptoms_ok str_float _ Hf Hp Hc) as H2.
  destruct (_identify_risk_factors _ _ _ _) as [risk|?]; [|discriminate].
  destruct (_analyze_symptoms _ _) as [sym|?]; [|discriminate].
  simpl res_bind. eexists. split; [reflexivity|]. now split.
Qed.

End FallbackForRequests.

(** ** Calls that neither draw nor fit *)

Section Quiet.
Context `{NumpyRandom} `{Sklearn}.

(** A history without fits. *)
Definition no_fit (ev : list Event) : Prop :=
  forall o, count_fits o ev = 0%nat.

(** A computation that leaves the random generator alone, does the same in
    every state, and fits no estimator. *)
Definition settled {A} (m : M A) : Prop :=
  exists r ev, (forall s, m s = (r, s, ev)) /\ no_fit ev.

Lemma no_fit_nil : no_fit [].
Proof. intros o. reflexivity. Qed.

Lemma no_fit_app (ev1 ev2 : list Event) : no_fit ev1 -> no_fit ev2 -> no_fit (ev1 ++ ev2).
Proof.
  intros H1 H2 o. specialize (H1 o). specialize (H2 o).
  unfold count_fits in *. rewrite List.filter_app, length_app. lia.
Qed.

Lemma no_fit_transform (o : Estimator) (st : Fitted) : no_fit [EvTransform o st].
Proof. intros o'. reflexivity. Qed.

Lemma settled_ret {A} (a : A) : settled (ret a).
Proof. exists (Ok a), []. split; [reflexivity|apply no_fit_nil]. Qed.

Lemma settled_raise {A} (e : PyError) : settled (raise e : M A).
Proof. exists (Raise e), []. split; [reflexivity|apply no_fit_nil]. Qed.

Lemma settled_lift {A} (r : res A) : settled (lift r).
Proof. exists r, []. split; [reflexivity|apply no_fit_nil]. Qed.

Lemma settled_bind {A B} (m : M A) (k : A -> M B) :
  settled m -> (forall a, settled (k a)) -> settled (bind m k).
Proof.
  intros (r & ev & Hm & Hev) Hk. destruct r as [a|e].
  - destruct (Hk a) as (r2 & ev2 & Hk2 & Hev2).
    exists r2, (ev ++ ev2). split; [|now apply no_fit_app].
    intros s. unfold bind. now rewrite Hm, Hk2.
  - exists (Raise e), ev. split; [|exact Hev].
    intros s. unfold bind. now rewrite Hm.
Qed.

Lemma settled_LabelEncoder_transform (o : Estimator) (le : LabelEncoder)
      (y : list PyVal) :
  settled (LabelEncoder_transform o le y).
Proof.
  unfold LabelEncoder_transform. destruct (classes_ le) as [classes|].
  - eexists _, _. split; [intros s; reflexivity|apply no_fit_transform].
  - apply settled_raise.
Qed.

Lemma settled_StandardScaler_transform (o : Estimator) (sc : StandardScaler)
      (X : list (list float)) :
  settled (StandardScaler_transform o sc X).
Proof.
  unfold StandardScaler_transform. destruct (fitted_stats sc) as [[mean scale]|].
  - eexists _, _. split; [intros s; reflexivity|apply no_fit_transform].
  - apply settled_raise.
Qed.

Lemma settled_encode_categoricals (self : CancerPrediction.CancerPredictor)
      (cols : list string) (df_patient : gmap string PyVal) :
  settled (CancerPrediction.encode_categoricals self cols df_patient).
Proof.
  revert df_patient. induction cols as [|col cols IH]; intros df_patient; simpl.
  - apply settled_ret.
  - destruct (df_patient !! col) as [v|]; [|apply IH].
    destruct (CancerPrediction.label_encoders self !! col) as [le|];
      [|apply settled_raise].
    apply settled_bind; [apply settled_LabelEncoder_transform|].
    intros [|c codes]; [apply settled_raise|apply IH].
Qed.

(** [predict_cancer] neither draws nor fits: its outcome is the same in
    every state of the random generator. *)
Lemma settled_predict_cancer (self : CancerPrediction.CancerPredictor)
      (patient_data : gmap string PyVal) :
  settled (CancerPrediction.predict_cancer self patient_data).
Proof.
  unfold CancerPrediction.predict_cancer.
  destruct (CancerPrediction.model self) as [rf|]; [|apply settled_raise].
  repeat first [ apply settled_bind; [|intros ?]
               | apply settled_encode_categoricals
               | apply settled_StandardScaler_transform
               | apply settled_lift
               | apply settled_ret ].
Qed.

End Quiet.

(** ** Saving, loading and the cached model *)

Section ModelFiles.
Context `{NumpyRandom} `{Sklearn}.
Import CancerPrediction ModelFile.

Lemma load_saved (self other : CancerPredictor) (filepath : string) (files : Files) :
  load_model other filepath (save_model self filepath files) = Some self.
Proof.
  unfold load_model, save_model, Files. cbv zeta. rewrite lookup_insert_eq. now destruct self.
Qed.


(** X: when [model_path] names a file that exists, the call loads it
    and predicts with it: it neither reseeds nor draws (the state of the
    random generator is left as it was), fits no estimator, writes no file,
    and its result is that of [predict_cancer] on the loaded predictor, the
    same in every state. *)
Theorem saved_model_answers_without_training
        (patient_data : gmap string PyVal) (path : string) (files : Files)
        (predictor : CancerPredictor) (s : rng_state) :
  path <> EmptyString ->
  load_model CancerPredictor_new path files = Some predictor ->
  let out := predict_cancer_type_and_probability patient_data (Some path) files s in
  fst out = predict_cancer predictor patient_data s
  /\ snd out = files
  /\ state_of (fst out) = s
  /\ (forall o, count_fits o (trace_of (fst out)) = 0%nat)
  /\ forall s', result_of (fst (predict_cancer_type_and_probability
                                  patient_data (Some path) files s'))
                = result_of (fst out).
Proof.
  intros Hpath Hload out.
  assert (Hout : forall s0, predict_cancer_type_and_probability
                              patient_data (Some path) files s0
                            = (predict_cancer predictor patient_data s0, files)).
  { intros s0. unfold predict_cancer_type_and_probability, given.
    destruct path; [congruence|]. now rewrite Hload. }
  unfold out. rewrite Hout. simpl fst; simpl snd.
  destruct (settled_predict_cancer predictor patient_data) as (r & ev & Hr & Hev).
  rewrite Hr. repeat split; try exact Hev.
  intros s'. rewrite Hout. simpl fst. now rewrite Hr.
Qed.

Lemma predict_without_path (patient_data : gmap string PyVal) (s : rng_state) :
  CancerPrediction.predict_cancer_type_and_probability patient_data s
  = bind (train_new_model CancerPredictor_new)
         (fun predictor => predict_cancer predictor patient_data) s.
Proof.
  unfold CancerPrediction.predict_cancer_type_and_probability, train_new_model, bind,
    lift, ret.
  destruct (generate_synthetic_cancer_data 1000 s) as [[[df|e] s0] ev0];
    [|reflexivity].
  destruct (preprocess_data CancerPredictor_new df s0)
    as [[[[p [[[X_train X_test] y_train] y_test]]|e] s1] ev1]; [|reflexivity].
  destruct (match model (train_model p X_train y_train) with
            | Some rf => predict rf X_test
            | None => Raise model_not_trained
            end) as [y_pred|e]; [|reflexivity].
  destruct (predict_cancer (train_model p X_train y_train) patient_data s1)
    as [[r s2] ev2].
  now rewrite !app_nil_r, <- !app_assoc.
Qed.

(** X: a call without [model_path] trains a new predictor; if training
    raises, the call raises and writes no file; otherwise it saves the
    predictor under 'cancer_model.pkl' and predicts, and a later call that
    names this file, made in any state of the random generator, returns the
    same result without fitting anything and leaves the files as they are.
    The outcome of the call is the one of the embedding of the call that
    leaves the files out. *)
Theorem call_without_path_trains_saves_and_is_cached
        (patient_data : gmap string PyVal) (files : Files) (s s' : rng_state) :
  let out := predict_cancer_type_and_probability patient_data None files s in
  fst out = CancerPrediction.predict_cancer_type_and_probability patient_data s
  /\ ((exists e, result_of (train_new_model CancerPredictor_new s) = Raise e
                 /\ result_of (fst out) = Raise e /\ snd out = files)
      \/ (exists predictor,
             result_of (train_new_model CancerPredictor_new s) = Ok predictor
             /\ snd out = save_model predictor default_filepath files
             /\ let again :=
                  predict_cancer_type_and_probability
                    patient_data (Some default_filepath) (snd out) s' in
                result_of (fst again) = result_of (fst out)
                /\ (forall o, count_fits o (trace_of (fst again)) = 0%nat)
                /\ state_of (fst again) = s'
                /\ snd again = snd out)).
Proof.
  intros out. split.
  - rewrite predict_without_path. unfold out, predict_cancer_type_and_probability.
    simpl given. cbv iota beta zeta. unfold bind.
    destruct (train_new_model CancerPredictor_new s) as [[[p|e] s1] ev1];
      [|reflexivity].
    now destruct (predict_cancer p patient_data s1) as [[r s2] ev2].
  - destruct (train_new_model CancerPredictor_new s) as [[[p|e] s1] ev1] eqn:Et.
    + right. exists p. split; [reflexivity|].
      destruct (settled_predict_cancer p patient_data) as (r & ev & Hr & Hev).
      assert (Hout : out = ((r, s1, ev1 ++ ev), save_model p default_filepath files)).
      { unfold out, predict_cancer_type_and_probability. simpl given.
        cbv iota beta zeta. now rewrite Et, Hr. }
      rewrite Hout. simpl snd. split; [reflexivity|].
      assert (Hload : load_model CancerPredictor_new default_filepath
                        (save_model p default_filepath files) = Some p)
        by apply load_saved.
      destruct (saved_model_answers_without_training
                  patient_data default_filepath
                  (save_model p default_filepath files) p s'
                  ltac:(discriminate) Hload) as (Hfst & Hsnd & Hst & Hfit & _).
      cbv zeta. rewrite Hfst in *. rewrite Hr in *.
      repeat split; assumption.
    + left. exists e. split; [reflexivity|].
      unfold out, predict_cancer_type_and_probability. simpl given.
      cbv iota beta zeta. rewrite Et. now split.
Qed.


End ModelFiles.

(** A trained predictor, for the small instances. *)
Definition small_predictor : @CancerPrediction.CancerPredictor Toy.toy_sklearn :=
  {| CancerPrediction.model :=
       Some {| rf_classes_ := ["Breast"; "Lung"];
               rf_forest := ([lit 75 2; lit 25 2] : @forest Toy.toy_sklearn) |};
     CancerPrediction.scaler :=
       {| fitted_stats := Some (repeat (of_Z 0) 20, repeat (of_Z 1) 20) |};
     CancerPrediction.label_encoders :=
       <["smoking_history" := {| classes_ := Some ["Current"; "Never"] |}]>
         (<["gender" := {| classes_ := Some ["Female"; "Male"] |}]> ∅);
     CancerPrediction.feature_names := Some CancerPrediction.frame_columns;
     CancerPrediction.cancer_types := Some ["Lung"; "Breast"] |}.

Lemma saved_model_witness_small_predictor :
  let files := ModelFile.save_model small_predictor "model.pkl" ∅ in
  let out := @ModelFile.predict_cancer_type_and_probability
               Toy.lcg_random Toy.toy_sklearn
               (<["age" := PInt 60]> ∅) (Some "model.pkl") files 0%Z in
  fst out = @CancerPrediction.predict_cancer Toy.lcg_random Toy.toy_sklearn
              small_predictor (<["age" := PInt 60]> ∅) 0%Z
  /\ snd out = files
  /\ state_of (fst out) = 0%Z
  /\ (forall o, count_fits o (trace_of (fst out)) = 0%nat)
  /\ forall s', result_of (fst (@ModelFile.predict_cancer_type_and_probability
                                  Toy.lcg_random Toy.toy_sklearn
                                  (<["age" := PInt 60]> ∅) (Some "model.pkl")
                                  files s'))
                = result_of (fst out).
Proof.
  intros files.
  apply (@saved_model_answers_without_training Toy.lcg_random Toy.toy_sklearn
           (<["age" := PInt 60]> ∅) "model.pkl" files small_predictor 0%Z).
  - discriminate.
  - apply load_saved.
Defined.

